(** * udom / rl: reward shaping, environment, classifier, preference generator

  A shallow embedding of the Python sources under [rl/core] and
  [rl/utils/validators], with the properties stated about them.

  Conventions of the embedding.
  - Python [float] and [int] values that the code reads, compares and
    multiplies are exact rationals ([Q]). The quality score, which the code
    builds by adding constants and then compares with thresholds that its
    rounding decides, is computed in binary64 ([float]), as Python does.
    A NaN in a dynamically typed field is the value [VNaN]; infinities
    are outside the model.
  - Python [str] is [string]; case mapping, whitespace and the regular
    expression class [\w] are the ASCII ones.
  - A [dict] is an association list in insertion order with unique keys.
  - A raised exception is the [Raise] result; code that mutates the shared
    classifier runs in a state monad over the classifier's two tables. *)

From Stdlib Require Import String Ascii List ZArith QArith Qminmax Lia Lqa Bool.
From Stdlib Require Import Floats.
From stdpp Require Import base gmap strings list.
Import ListNotations.

(* Decimal constants of the source are read as the nearest binary64
   value, as Python reads them. *)
#[local] Set Warnings "-inexact-float".

(* ===================================================================== *)
(** ** Python values, strings and results *)
(* ===================================================================== *)

Module Py.

(** A dynamically typed value, as held in the [Dict] fields of the source.
    [VNum] is a finite [int] or [float]; [VNaN] is the [float] that is not
    a number, which [json.loads] can produce and which compares false
    with every number. *)
#[warnings="-register-all"]
Inductive pyval : Type :=
| VNone
| VBool (b : bool)
| VNum (q : Q)
| VStr (s : string)
| VList (l : list pyval)
| VDict (d : list (string * pyval))
| VNaN.

Definition pydict : Type := list (string * pyval).

Inductive py_exn : Type :=
| ValueError (msg : string)
| TypeError
| AttributeError
| KeyError.

(** The outcome of a call: a value, or a raised exception. *)
Inductive res (A : Type) : Type :=
| Ok (a : A)
| Raise (e : py_exn).
Arguments Ok {A} a.
Arguments Raise {A} e.

Definition rbind {A B} (m : res A) (k : A -> res B) : res B :=
  match m with
  | Ok a => k a
  | Raise e => Raise e
  end.

(** [k in d] *)
Fixpoint dict_contains {V} (d : list (string * V)) (k : string) : bool :=
  match d with
  | [] => false
  | (k', _) :: rest => if String.eqb k' k then true else dict_contains rest k
  end.

(** [d.get(k)], with [None] for a missing key *)
Fixpoint dict_get {V} (d : list (string * V)) (k : string) : option V :=
  match d with
  | [] => None
  | (k', v) :: rest => if String.eqb k' k then Some v else dict_get rest k
  end.

(** [d[k] = v]: overwrite in place, or append a new key *)
Fixpoint dict_set {V} (d : list (string * V)) (k : string) (v : V)
  : list (string * V) :=
  match d with
  | [] => [(k, v)]
  | (k', v') :: rest =>
      if String.eqb k' k then (k', v) :: rest
      else (k', v') :: dict_set rest k v
  end.

Definition dict_values {V} (d : list (string * V)) : list V := map snd d.
Definition dict_keys {V} (d : list (string * V)) : list string := map fst d.

(** [d.get(k, default)] on a dynamically typed dict *)
Definition get_default (d : pydict) (k : string) (default : pyval) : pyval :=
  match dict_get d k with
  | Some v => v
  | None => default
  end.

(** [d.get(k)] *)
Definition get (d : pydict) (k : string) : pyval := get_default d k VNone.

Definition Qeqb0 (q : Q) : bool := Qeq_bool q 0.

(** [a < b] on numbers *)
Definition Qltb (a b : Q) : bool := negb (Qle_bool b a).

(** Python truth value *)
Definition truthy (v : pyval) : bool :=
  match v with
  | VNone => false
  | VBool b => b
  | VNum q => negb (Qeqb0 q)
  | VStr s => negb (String.eqb s "")
  | VList l => match l with [] => false | _ => true end
  | VDict d => match d with [] => false | _ => true end
  | VNaN => true
  end.

Definition truthy_str (s : string) : bool := negb (String.eqb s "").

Definition truthy_ostr (o : option string) : bool :=
  match o with
  | Some s => truthy_str s
  | None => false
  end.

(** truth value of an [Optional[Dict]] *)
Definition truthy_odict (o : option pydict) : bool :=
  match o with
  | Some (_ :: _) => true
  | _ => false
  end.

(** [v == s] for a string literal [s] *)
Definition eq_str (v : pyval) (s : string) : bool :=
  match v with
  | VStr s' => String.eqb s' s
  | _ => false
  end.

(** The numeric reading of a value that is a finite number: [int],
    [float] and [bool]. *)
Definition as_number (v : pyval) : option Q :=
  match v with
  | VNum q => Some q
  | VBool b => Some (if b then 1 else 0)%Q
  | _ => None
  end.

(** [sum(xs)]: left to right from 0 *)
Definition py_sum (xs : list Q) : Q := fold_left Qplus xs 0%Q.

Definition Qof_nat (n : nat) : Q := inject_Z (Z.of_nat n).

(** *** Strings *)

Definition is_upper (c : ascii) : bool :=
  let n := nat_of_ascii c in (65 <=? n)%nat && (n <=? 90)%nat.

Definition lower_char (c : ascii) : ascii :=
  if is_upper c then ascii_of_nat (nat_of_ascii c + 32) else c.

(** [s.lower()] *)
Fixpoint lower (s : string) : string :=
  match s with
  | EmptyString => EmptyString
  | String c rest => String (lower_char c) (lower rest)
  end.

(** [needle in hay] *)
Fixpoint contains (needle hay : string) : bool :=
  if String.prefix needle hay then true
  else match hay with
       | EmptyString => false
       | String _ rest => contains needle rest
       end.

Definition is_space (c : ascii) : bool :=
  let n := nat_of_ascii c in
  ((9 <=? n)%nat && (n <=? 13)%nat)
  || ((28 <=? n)%nat && (n <=? 32)%nat).

Definition snoc_char (s : string) (c : ascii) : string :=
  String.append s (String c EmptyString).

(** [s.split()]: the maximal runs of non-whitespace characters;
    [cur] is the run being read. *)
Fixpoint split_ws_from (cur : string) (s : string) : list string :=
  match s with
  | EmptyString => if truthy_str cur then [cur] else []
  | String c rest =>
      if is_space c
      then (if truthy_str cur then cur :: split_ws_from "" rest
            else split_ws_from "" rest)
      else split_ws_from (snoc_char cur c) rest
  end.

Definition split_ws (s : string) : list string := split_ws_from "" s.

(** [s.split(sep)] for a one-character separator *)
Fixpoint split_on_from (sep : ascii) (cur : string) (s : string)
  : list string :=
  match s with
  | EmptyString => [cur]
  | String c rest =>
      if Ascii.eqb c sep then cur :: split_on_from sep "" rest
      else split_on_from sep (snoc_char cur c) rest
  end.

Definition split_on (sep : ascii) (s : string) : list string :=
  split_on_from sep "" s.

Definition is_word_char (c : ascii) : bool :=
  let n := nat_of_ascii c in
  ((48 <=? n)%nat && (n <=? 57)%nat)
  || ((65 <=? n)%nat && (n <=? 90)%nat)
  || ((97 <=? n)%nat && (n <=? 122)%nat)
  || (n =? 95)%nat.

Definition keep_word (cur : string) : list string :=
  if (3 <=? String.length cur)%nat then [cur] else [].

(** [re.findall(r'\b\w{3,}\b', s)]: the maximal runs of word characters
    that are at least three characters long, left to right. *)
Fixpoint findall_words_from (cur : string) (s : string) : list string :=
  match s with
  | EmptyString => keep_word cur
  | String c rest =>
      if is_word_char c then findall_words_from (snoc_char cur c) rest
      else keep_word cur ++ findall_words_from "" rest
  end.

Definition findall_words (s : string) : list string :=
  findall_words_from "" s.

(** [set(xs)], kept in order of first occurrence *)
Fixpoint to_set (xs : list string) : list string :=
  match xs with
  | [] => []
  | x :: rest =>
      x :: List.filter (fun y => negb (String.eqb x y)) (to_set rest)
  end.

(** [s in xs] for a list of strings *)
Definition str_in (s : string) (xs : list string) : bool :=
  existsb (String.eqb s) xs.

(** The value of an [Optional[str]] that has been tested to be truthy. *)
Definition ostr_value (o : option string) : string :=
  match o with
  | Some s => s
  | None => ""
  end.

(** [defaultdict.__getitem__]: the stored value, or the default, which is
    then stored under the key. The second component is the dict after the
    read. *)
Definition dd_getitem {V} (default : V) (d : list (string * V)) (k : string)
  : V * list (string * V) :=
  match dict_get d k with
  | Some v => (v, d)
  | None => (default, dict_set d k default)
  end.

End Py.

(* ===================================================================== *)
(** ** rl/core/environment: types and DesignEnvironment *)
(* ===================================================================== *)

Module Environment.
Import Py.
Local Open Scope Q_scope.

Inductive ActionType : Type :=
| SUGGEST_RULE | SUGGEST_MULTIPLE | NO_SUGGESTION.

Definition ActionType_value (a : ActionType) : string :=
  match a with
  | SUGGEST_RULE => "suggest_rule"
  | SUGGEST_MULTIPLE => "suggest_multiple"
  | NO_SUGGESTION => "no_suggestion"
  end.

Inductive UserResponse : Type :=
| ACCEPTED | REJECTED | MODIFIED | IGNORED.

Definition UserResponse_value (u : UserResponse) : string :=
  match u with
  | ACCEPTED => "accepted"
  | REJECTED => "rejected"
  | MODIFIED => "modified"
  | IGNORED => "ignored"
  end.

Definition UserResponse_eqb (a b : UserResponse) : bool :=
  match a, b with
  | ACCEPTED, ACCEPTED | REJECTED, REJECTED
  | MODIFIED, MODIFIED | IGNORED, IGNORED => true
  | _, _ => false
  end.

Record Observation : Type := {
  snapshot_id : string;
  artifact_id : string;
  snapshot : pydict;
  previous_snapshot : option pydict;
  user_intent : option string;
  component_id : option string;
  component_type : option string;
  platform : option string;
  interaction_history : option pydict;
  temporal_context : option pydict
}.

Record Action : Type := {
  action_type : ActionType;
  suggested_rules : list pydict;
  confidence_scores : list Q;
  reasoning : option string
}.

Record Reward : Type := {
  value : Q;
  source : string;
  components : list (string * Q);
  metadata : pydict
}.

Record StepResult : Type := {
  observation : Observation;
  reward : Reward;
  done : bool;
  info : pydict
}.

(** The attributes of a [DesignEnvironment] instance. *)
Record DesignEnvironment : Type := {
  preference_weight : Q;
  change_weight : Q;
  temporal_weight : Q;
  max_suggestions : Z;
  current_observation : option Observation;
  last_action : option Action;
  last_user_response : option UserResponse;
  last_changes : option (list pydict);
  episode_step : Z;
  episode_rewards : list Q
}.

(** [DesignEnvironment.__init__] *)
Definition __init__ (preference_weight change_weight temporal_weight : Q)
    (max_suggestions : Z) : DesignEnvironment :=
  {| preference_weight := preference_weight;
     change_weight := change_weight;
     temporal_weight := temporal_weight;
     max_suggestions := max_suggestions;
     current_observation := None;
     last_action := None;
     last_user_response := None;
     last_changes := None;
     episode_step := 0;
     episode_rewards := [] |}.

(** The constructor's default arguments. *)
Definition default_environment : DesignEnvironment :=
  __init__ 1.0 0.5 0.2 5.

(** [DesignEnvironment.reset] *)
Definition reset (self : DesignEnvironment) (observation : Observation)
  : Observation * DesignEnvironment :=
  let self' :=
    {| preference_weight := preference_weight self;
       change_weight := change_weight self;
       temporal_weight := temporal_weight self;
       max_suggestions := max_suggestions self;
       current_observation := Some observation;
       last_action := None;
       last_user_response := None;
       last_changes := None;
       episode_step := 0;
       episode_rewards := [] |} in
  (observation, self').

(** Section 1 of [_compute_reward]: the user preference reward. *)
Definition preference_reward (user_response : UserResponse) : Q :=
  match user_response with
  | ACCEPTED => 1.0
  | REJECTED => - 1.0
  | MODIFIED => 0.5
  | IGNORED => 0.0
  end.

(** Section 2 of [_compute_reward]: the change magnitude reward. *)
Definition change_reward (changes : option (list pydict)) : Q :=
  match changes with
  | Some ((_ :: _) as cs) =>
      let num_changes := length cs in
      let change_reward := Qmin (Qof_nat num_changes / 10.0) 1.0 in
      let property_changes :=
        length (List.filter
                  (fun c => eq_str (get c "change_scope") "property") cs) in
      if (0 <? property_changes)%nat
      then change_reward + 0.2 * Qmin (Qof_nat property_changes / 5.0) 1.0
      else change_reward
  | _ => 0.0
  end.

(** Section 3 of [_compute_reward]: the temporal reward. *)
Definition temporal_reward (duration_ms : option Q) : Q :=
  match duration_ms with
  | Some d =>
      if Qle_bool 1000 d && Qle_bool d 5000
      then 1.0 - ((d - 1000) / 4000.0)
      else if negb (Qle_bool 1000 d)
      then 0.5
      else Qmax 0.0 (1.0 - ((d - 5000) / 10000.0))
  | None => 0.0
  end.

Definition num_changes_of (changes : option (list pydict)) : nat :=
  match changes with
  | Some cs => length cs
  | None => 0%nat
  end.

Definition opt_num (d : option Q) : pyval :=
  match d with
  | Some q => VNum q
  | None => VNone
  end.

(** [DesignEnvironment._compute_reward] *)
Definition _compute_reward (self : DesignEnvironment) (action : Action)
    (user_response : UserResponse) (changes : option (list pydict))
    (duration_ms : option Q) : Reward :=
  let components : list (string * Q) := [] in
  let components :=
    dict_set components "preference"
      (preference_reward user_response * preference_weight self) in
  let components :=
    dict_set components "change_magnitude"
      (change_reward changes * change_weight self) in
  let components :=
    dict_set components "temporal"
      (temporal_reward duration_ms * temporal_weight self) in
  let total_reward := py_sum (dict_values components) in
  let metadata : pydict :=
    [ ("user_response", VStr (UserResponse_value user_response));
      ("num_suggestions", VNum (Qof_nat (length (suggested_rules action))));
      ("num_changes", VNum (Qof_nat (num_changes_of changes)));
      ("duration_ms", opt_num duration_ms) ] in
  {| value := total_reward;
     source := "composite";
     components := components;
     metadata := metadata |}.

(** [DesignEnvironment.step]: the result, or the exception raised, and the
    instance as the call leaves it. *)
Definition step (self : DesignEnvironment) (action : Action)
    (user_response : UserResponse) (changes : option (list pydict))
    (duration_ms : option Q) (next_observation : option Observation)
  : res StepResult * DesignEnvironment :=
  match current_observation self with
  | None =>
      (Raise (ValueError "Environment not reset. Call reset() first."), self)
  | Some cur =>
      let episode_step' := (episode_step self + 1)%Z in
      let reward :=
        _compute_reward self action user_response changes duration_ms in
      let episode_rewards' := episode_rewards self ++ [value reward] in
      let cur' :=
        match next_observation with
        | Some o => o
        | None => cur
        end in
      let done :=
        UserResponse_eqb user_response ACCEPTED
        || (10 <=? episode_step')%Z in
      let info : pydict :=
        [ ("episode_step", VNum (inject_Z episode_step'));
          ("total_reward", VNum (py_sum episode_rewards'));
          ("action_type", VStr (ActionType_value (action_type action)));
          ("user_response", VStr (UserResponse_value user_response));
          ("num_changes", VNum (Qof_nat (num_changes_of changes))) ] in
      let self' :=
        {| preference_weight := preference_weight self;
           change_weight := change_weight self;
           temporal_weight := temporal_weight self;
           max_suggestions := max_suggestions self;
           current_observation := Some cur';
           last_action := Some action;
           last_user_response := Some user_response;
           last_changes := changes;
           episode_step := episode_step';
           episode_rewards := episode_rewards' |} in
      (Ok {| observation := cur';
             reward := reward;
             done := done;
             info := info |},
       self')
  end.


(** A history of calls made on an environment after its construction,
    and the instance they leave. *)
Inductive call : Type :=
| CallReset (observation : Observation)
| CallStep (action : Action) (user_response : UserResponse)
    (changes : option (list pydict)) (duration_ms : option Q)
    (next_observation : option Observation).

Definition is_reset (c : call) : bool :=
  match c with
  | CallReset _ => true
  | CallStep _ _ _ _ _ => false
  end.

Definition run_call (self : DesignEnvironment) (c : call)
  : DesignEnvironment :=
  match c with
  | CallReset observation => snd (reset self observation)
  | CallStep action user_response changes duration_ms next_observation =>
      snd (step self action user_response changes duration_ms
             next_observation)
  end.

Definition run_calls (self : DesignEnvironment) (cs : list call)
  : DesignEnvironment :=
  fold_left run_call cs self.


(** The calls of a history are all [step] calls. *)
Definition steps_only (cs : list call) : bool :=
  forallb (fun c => negb (is_reset c)) cs.

(** Sample arguments. *)
Definition sample_observation : Observation :=
  {| snapshot_id := "s1"; artifact_id := "a1"; snapshot := [];
     previous_snapshot := None; user_intent := None; component_id := None;
     component_type := None; platform := Some "figma"%string;
     interaction_history := None; temporal_context := None |}.

Definition sample_action : Action :=
  {| action_type := SUGGEST_RULE; suggested_rules := [];
     confidence_scores := []; reasoning := None |}.

End Environment.

(* ===================================================================== *)
(** ** rl/core/platform_keyword_classifier.py *)
(* ===================================================================== *)

Module Classifier.
Import Py.
Local Open Scope Q_scope.

(** An entry of [matched_keywords]: a base keyword, or a learned keyword
    with its reward (rendered [keyword(reward)] by the source). *)
Inductive matched_kw : Type :=
| BaseKeyword (keyword : string)
| LearnedKeyword (keyword : string) (reward : Q).

Record ClassificationResult : Type := {
  dimension : string;
  confidence : Q;
  method : string;
  matched_keywords : list matched_kw;
  platform : option string
}.

Definition BASE_DESIGN_DIMENSIONS : list (string * list string) :=
  [ ("layout", ["layout"; "grid"; "alignment"; "position"; "arrangement";
                "structure"; "composition"]);
    ("interaction", ["interaction"; "flow"; "navigation"; "click"; "hover";
                     "transition"; "state"; "behavior"]);
    ("content", ["content"; "text"; "copy"; "message"; "information";
                 "data"; "label"]);
    ("visual_hierarchy", ["hierarchy"; "emphasis"; "prominence";
                          "importance"; "level"; "rank"]);
    ("spacing", ["spacing"; "margin"; "padding"; "gap"; "rhythm";
                 "whitespace"; "distance"]);
    ("typography", ["typography"; "font"; "type"; "text style"; "letter";
                    "line height"; "kerning"]);
    ("color", ["color"; "palette"; "hue"; "saturation"; "contrast"; "tone";
               "shade"]);
    ("visual_elements", ["shadow"; "border"; "radius"; "gradient"; "effect";
                         "filter"; "opacity"]) ]%string.

Definition SCOPE_MAPPING : list (string * string) :=
  [ ("structural", "layout");
    ("relational", "interaction");
    ("compositional", "layout");
    ("artifact_property", "visual_elements") ]%string.

(** One [{'correct': int, 'total': int}] counter. *)
Record perf : Type := {
  correct : Z;
  total : Z
}.

(** The mutable attributes of a [PlatformKeywordClassifier]:
    [platform_keywords]: platform -> dimension -> keyword -> reward,
    [keyword_performance]: platform -> dimension -> keyword -> counter.
    Both are nested [defaultdict]s, as [__init__] builds them. *)
Record PlatformKeywordClassifier : Type := {
  platform_keywords : list (string * list (string * list (string * Q)));
  keyword_performance : list (string * list (string * list (string * perf)))
}.

(** [PlatformKeywordClassifier.__init__] *)
Definition __init__ : PlatformKeywordClassifier :=
  {| platform_keywords := []; keyword_performance := [] |}.

(** Calls that can read and write the classifier and can raise. *)
Definition M (A : Type) : Type :=
  PlatformKeywordClassifier -> res A * PlatformKeywordClassifier.

Definition ret {A} (a : A) : M A := fun self => (Ok a, self).

Definition bind {A B} (m : M A) (k : A -> M B) : M B :=
  fun self =>
    match m self with
    | (Ok a, self') => k a self'
    | (Raise e, self') => (Raise e, self')
    end.

Definition lift {A} (r : res A) : M A := fun self => (r, self).

Notation "'let*' x ':=' m 'in' k" :=
  (bind m (fun x => k))
    (at level 10, x name, m at level 100, k at level 200).

(** [platform in self.platform_keywords] *)
Definition platform_keywords_contains (platform : string) : M bool :=
  fun self => (Ok (dict_contains (platform_keywords self) platform), self).

(** [self.platform_keywords[platform]] *)
Definition platform_keywords_getitem (platform : string)
  : M (list (string * list (string * Q))) :=
  fun self =>
    let '(by_dim, outer) := dd_getitem [] (platform_keywords self) platform in
    (Ok by_dim,
     {| platform_keywords := outer;
        keyword_performance := keyword_performance self |}).

(** [self.platform_keywords[platform][dimension]]: both reads are
    [defaultdict] reads; the inner dict is shared with the outer one. *)
Definition platform_keywords_getitem2 (platform dimension : string)
  : M (list (string * Q)) :=
  fun self =>
    let '(by_dim, outer) := dd_getitem [] (platform_keywords self) platform in
    let '(table, by_dim') := dd_getitem [] by_dim dimension in
    (Ok table,
     {| platform_keywords := dict_set outer platform by_dim';
        keyword_performance := keyword_performance self |}).

(** The loop over [base_keywords]. *)
Definition score_base (description_lower : string)
    (base_keywords : list string) : Q * list matched_kw :=
  fold_left
    (fun (acc : Q * list matched_kw) keyword =>
       if contains keyword description_lower
       then (fst acc + 1.0, snd acc ++ [BaseKeyword keyword])
       else acc)
    base_keywords (0.0, []).

(** The loop over the learned [keyword, reward] items. *)
Definition score_learned (description_lower : string)
    (table : list (string * Q)) (acc : Q * list matched_kw)
  : Q * list matched_kw :=
  fold_left
    (fun (acc : Q * list matched_kw) (item : string * Q) =>
       if contains (fst item) description_lower
       then (fst acc + snd item,
             snd acc ++ [LearnedKeyword (fst item) (snd item)])
       else acc)
    table acc.

(** The body of the loop over [BASE_DESIGN_DIMENSIONS.items()] up to the
    test [score > 0]: the score and the matched keywords of one dimension. *)
Definition score_dimension (description_lower : string)
    (platform : option string) (dimension : string)
    (base_keywords : list string) : M (Q * list matched_kw) :=
  let acc := score_base description_lower base_keywords in
  if truthy_ostr platform then
    let* known := platform_keywords_contains (ostr_value platform) in
    if (known : bool) then
      let* by_dim := platform_keywords_getitem (ostr_value platform) in
      if dict_contains by_dim dimension then
        let* table :=
          platform_keywords_getitem2 (ostr_value platform) dimension in
        ret (score_learned description_lower table acc)
      else ret acc
    else ret acc
  else ret acc.

(** The loop over [BASE_DESIGN_DIMENSIONS.items()], filling
    [dimension_scores] and [matched_keywords_by_dim]. *)
Fixpoint score_dimensions (description_lower : string)
    (platform : option string) (dims : list (string * list string))
    (dimension_scores : list (string * Q))
    (matched_keywords_by_dim : list (string * list matched_kw))
  : M (list (string * Q) * list (string * list matched_kw)) :=
  match dims with
  | [] => ret (dimension_scores, matched_keywords_by_dim)
  | (dimension, base_keywords) :: rest =>
      let* sm :=
        score_dimension description_lower platform dimension base_keywords in
      if Qltb 0 (fst sm)
      then score_dimensions description_lower platform rest
             (dict_set dimension_scores dimension (fst sm))
             (dict_set matched_keywords_by_dim dimension (snd sm))
      else score_dimensions description_lower platform rest
             dimension_scores matched_keywords_by_dim
  end.

(** [max(items, key=lambda x: x[1])]: the first item of maximal score. *)
Fixpoint max_by_score (best : string * Q) (items : list (string * Q))
  : string * Q :=
  match items with
  | [] => best
  | item :: rest =>
      if Qltb (snd best) (snd item) then max_by_score item rest
      else max_by_score best rest
  end.

Definition fresh_perf : perf := {| correct := 0; total := 0 |}.

(** The body of the loop of [_track_performance] for one word. *)
Definition track_word (platform predicted_dimension : string)
    (is_correct : bool)
    (kp : list (string * list (string * list (string * perf))))
    (word : string)
  : list (string * list (string * list (string * perf))) :=
  let '(by_dim, kp1) := dd_getitem [] kp platform in
  let '(by_word, by_dim1) := dd_getitem [] by_dim predicted_dimension in
  let by_word1 :=
    if negb (dict_contains by_word word)
    then dict_set by_word word fresh_perf
    else by_word in
  let p :=
    match dict_get by_word1 word with
    | Some p => p
    | None => fresh_perf
    end in
  let p1 := {| correct := correct p; total := (total p + 1)%Z |} in
  let p2 :=
    if is_correct
    then {| correct := (correct p1 + 1)%Z; total := total p1 |}
    else p1 in
  dict_set kp1 platform
    (dict_set by_dim1 predicted_dimension (dict_set by_word1 word p2)).

(** [PlatformKeywordClassifier._track_performance]; the words of the set
    are visited in order of first occurrence. *)
Definition _track_performance (description_words : list string)
    (predicted_dimension ground_truth_dimension : string)
    (platform : option string) : M unit :=
  fun self =>
    if negb (truthy_ostr platform) then (Ok tt, self)
    else
      let is_correct :=
        String.eqb predicted_dimension ground_truth_dimension in
      (Ok tt,
       {| platform_keywords := platform_keywords self;
          keyword_performance :=
            fold_left
              (track_word (ostr_value platform) predicted_dimension
                 is_correct)
              description_words (keyword_performance self) |}).

(** [SCOPE_MAPPING.get(scope, 'general')] *)
Definition scope_dimension (scope : string) : string :=
  match dict_get SCOPE_MAPPING scope with
  | Some d => d
  | None => "general"%string
  end.

Definition is_empty {A} (l : list A) : bool :=
  match l with
  | [] => true
  | _ => false
  end.

(** [PlatformKeywordClassifier.classify_dimension], with the method called
    at [self._track_performance(...)] as the parameter [track]. *)
Definition classify_dimension_with
    (track : list string -> string -> string -> option string -> M unit)
    (description : string)
    (scope explicit_dimension platform : option string)
  : M ClassificationResult :=
  if truthy_ostr explicit_dimension then
    ret {| dimension := ostr_value explicit_dimension;
           confidence := 1.0;
           method := "explicit";
           matched_keywords := [];
           platform := platform |}
  else
    let description_lower := lower description in
    let description_words := to_set (findall_words description_lower) in
    let* scored :=
      score_dimensions description_lower platform BASE_DESIGN_DIMENSIONS
        [] [] in
    let dimension_scores := fst scored in
    let matched_keywords_by_dim := snd scored in
    if is_empty dimension_scores && truthy_ostr scope then
      ret {| dimension := scope_dimension (ostr_value scope);
             confidence := 0.5;
             method := "scope";
             matched_keywords := [];
             platform := platform |}
    else
      match dimension_scores with
      | first :: others =>
          let best_dimension := fst (max_by_score first others) in
          let max_score :=
            match dict_get dimension_scores best_dimension with
            | Some s => s
            | None => 0
            end in
          let confidence := Qmin 1.0 (max_score / 3.0) in
          let* _ :=
            (if truthy_ostr explicit_dimension
             then track description_words best_dimension
                    (ostr_value explicit_dimension) platform
             else ret tt) in
          ret {| dimension := best_dimension;
                 confidence := confidence;
                 method := "keywords";
                 matched_keywords :=
                   match dict_get matched_keywords_by_dim best_dimension with
                   | Some m => m
                   | None => []
                   end;
                 platform := platform |}
      | [] =>
          ret {| dimension := "general";
                 confidence := 0.3;
                 method := "fallback";
                 matched_keywords := [];
                 platform := platform |}
      end.

(** A call that returns and leaves the classifier as it found it. *)
Definition pure_call {A} (m : M A) : Prop :=
  forall self, exists a, m self = (Ok a, self).

(** A call that leaves the classifier as it found it, also when it
    raises. *)
Definition read_only {A} (m : M A) : Prop :=
  forall self, snd (m self) = self.

(** [PlatformKeywordClassifier.classify_dimension] *)
Definition classify_dimension (description : string)
    (scope explicit_dimension platform : option string)
  : M ClassificationResult :=
  classify_dimension_with _track_performance description scope
    explicit_dimension platform.

(** *** Learning, rewarding, persistence *)

Definition STOP_WORDS : list string :=
  ["the"; "and"; "for"; "are"; "but"; "not"; "you"; "all"; "can"; "her";
   "was"; "one"; "our"; "out"; "day"; "get"; "has"; "him"; "his"; "how";
   "its"; "may"; "new"; "now"; "old"; "see"; "two"; "way"; "who"; "boy";
   "did"; "use"; "she"]%string.

(** A rule dict as [learn_from_rules] reads it: the three keys it looks
    up. The dimension and the description are strings, absent or [None];
    the platform context is a dict of any values, or absent. *)
Record rule_dict : Type := {
  get_design_dimension : option string;
  get_platform_context : option pydict;
  get_description : option string
}.

(** [rule.get('platform_context', {}).get('platform', 'unknown').lower()] *)
Definition learn_platform (rule : rule_dict) : res string :=
  let platform_context :=
    match get_platform_context rule with
    | Some pc => pc
    | None => []
    end in
  match dict_get platform_context "platform" with
  | None => Ok (lower "unknown")
  | Some (VStr s) => Ok (lower s)
  | Some _ => Raise AttributeError
  end.

(** The significant words of a description: the words of three characters
    or more that are no stop words, each once. *)
Definition significant_words (description : string) : list string :=
  List.filter (fun w => negb (str_in w STOP_WORDS))
    (to_set (findall_words (lower description))).

(** The body of the loop over [words] in [learn_from_rules]. *)
Definition learn_word (platform dimension : string)
    (pk : list (string * list (string * list (string * Q))))
    (word : string)
  : list (string * list (string * list (string * Q))) :=
  let '(by_dim, pk1) := dd_getitem [] pk platform in
  let '(table, by_dim1) := dd_getitem [] by_dim dimension in
  if negb (dict_contains table word)
  then dict_set pk1 platform
         (dict_set by_dim1 dimension (dict_set table word 0.0))
  else dict_set pk1 platform by_dim1.

(** The body of the loop over [rules] in [learn_from_rules]. *)
Definition learn_from_rule (rule : rule_dict) : M unit :=
  fun self =>
    match learn_platform rule with
    | Raise e => (Raise e, self)
    | Ok platform =>
        let dimension := get_design_dimension rule in
        let description := ostr_value (get_description rule) in
        if negb (truthy_ostr dimension) || negb (truthy_str description)
        then (Ok tt, self)
        else
          let words := significant_words description in
          let pk := platform_keywords self in
          let pk :=
            if negb (dict_contains pk platform) then dict_set pk platform []
            else pk in
          (Ok tt,
           {| platform_keywords :=
                fold_left (learn_word platform (ostr_value dimension))
                  words pk;
              keyword_performance := keyword_performance self |})
    end.

(** [PlatformKeywordClassifier.learn_from_rules]; [min_confidence] is not
    used by the source. *)
Fixpoint learn_from_rules (rules : list rule_dict) (min_confidence : Q)
  : M unit :=
  match rules with
  | [] => ret tt
  | rule :: rest =>
      let* _ := learn_from_rule rule in
      learn_from_rules rest min_confidence
  end.

(** [d.pop(k, None)] *)
Definition dict_pop {V} (d : list (string * V)) (k : string)
  : list (string * V) :=
  List.filter (fun kv => negb (String.eqb (fst kv) k)) d.

(** [perf['correct'] / perf['total']] *)
Definition accuracy (p : perf) : Q :=
  inject_Z (correct p) / inject_Z (total p).

(** The body of the innermost loop of [update_rewards]. *)
Definition reward_keyword (min_accuracy : Q) (platform dimension : string)
    (pk : list (string * list (string * list (string * Q))))
    (item : string * perf)
  : list (string * list (string * list (string * Q))) :=
  let keyword := fst item in
  let perf := snd item in
  if (0 <? total perf)%Z then
    if Qle_bool min_accuracy (accuracy perf) then
      let pk :=
        if negb (dict_contains pk platform) then dict_set pk platform []
        else pk in
      let '(by_dim, pk1) := dd_getitem [] pk platform in
      let '(table, by_dim1) := dd_getitem [] by_dim dimension in
      dict_set pk1 platform
        (dict_set by_dim1 dimension (dict_set table keyword (accuracy perf)))
    else
      match dict_get pk platform with
      | Some by_dim =>
          match dict_get by_dim dimension with
          | Some table =>
              dict_set pk platform
                (dict_set by_dim dimension (dict_pop table keyword))
          | None => pk
          end
      | None => pk
      end
  else pk.

(** The three nested loops of [update_rewards] over the performance
    table. *)
Definition reward_all (min_accuracy : Q)
    (kp : list (string * list (string * list (string * perf))))
    (pk : list (string * list (string * list (string * Q))))
  : list (string * list (string * list (string * Q))) :=
  fold_left
    (fun pk (platform_item : string * list (string * list (string * perf))) =>
       fold_left
         (fun pk (dimension_item : string * list (string * perf)) =>
            fold_left
              (reward_keyword min_accuracy (fst platform_item)
                 (fst dimension_item))
              (snd dimension_item) pk)
         (snd platform_item) pk)
    kp pk.

(** [PlatformKeywordClassifier.update_rewards] *)
Definition update_rewards (min_accuracy : Q) : M unit :=
  fun self =>
    (Ok tt,
     {| platform_keywords :=
          reward_all min_accuracy (keyword_performance self)
            (platform_keywords self);
        keyword_performance := keyword_performance self |}).

(** A rule whose platform [learn_from_rules] can read. *)
Definition readable (rule : rule_dict) : bool :=
  match learn_platform rule with
  | Ok _ => true
  | Raise _ => false
  end.

(** What a rule offers to learning: its platform in lower case, its
    non-empty dimension and a significant word of its description. *)
Definition teaches (rule : rule_dict) (platform dimension keyword : string)
  : Prop :=
  learn_platform rule = Ok platform
  /\ get_design_dimension rule = Some dimension
  /\ dimension <> ""%string
  /\ In keyword (significant_words (ostr_value (get_description rule))).

(** The reward stored for a keyword of a dimension of a platform. *)
Definition stored_reward
    (pk : list (string * list (string * list (string * Q))))
    (platform dimension keyword : string) : option Q :=
  match dict_get pk platform with
  | Some by_dim =>
      match dict_get by_dim dimension with
      | Some table => dict_get table keyword
      | None => None
      end
  | None => None
  end.

(** The keyword table of a dimension of a platform. *)
Definition stored_table
    (pk : list (string * list (string * list (string * Q))))
    (platform dimension : string) : option (list (string * Q)) :=
  match dict_get pk platform with
  | Some by_dim => dict_get by_dim dimension
  | None => None
  end.

(** What the learned keywords of a platform add to the score of a
    dimension for a description. *)
Definition learned_gain (description_lower : string)
    (pk : list (string * list (string * list (string * Q))))
    (platform : option string) (dimension : string) : Q :=
  if truthy_ostr platform then
    match stored_table pk (ostr_value platform) dimension with
    | Some table => fst (score_learned description_lower table (0, []))
    | None => 0
    end
  else 0.

(** Two score tables with the same keys in the same order and equal
    scores. *)
Definition same_scores (a b : list (string * Q)) : Prop :=
  Forall2 (fun x y => fst x = fst y /\ snd x == snd y) a b.

(** The counter kept for a keyword of a dimension of a platform. *)
Definition stored_perf
    (kp : list (string * list (string * list (string * perf))))
    (platform dimension keyword : string) : option perf :=
  match dict_get kp platform with
  | Some by_dim =>
      match dict_get by_dim dimension with
      | Some table => dict_get table keyword
      | None => None
      end
  | None => None
  end.

(** The reward of a keyword after [update_rewards] has visited its
    counter: the accuracy when it reaches the threshold, no reward when it
    does not, the reward it had when the counter is empty. *)
Definition rewarded (min_accuracy : Q) (p : perf) (old : option Q)
  : option Q :=
  if (0 <? total p)%Z then
    if Qle_bool min_accuracy (accuracy p) then Some (accuracy p) else None
  else old.

(** The counters of a performance table in the order in which the loops
    of [update_rewards] visit them. *)
Definition counters
    (kp : list (string * list (string * list (string * perf))))
  : list (string * string * (string * perf)) :=
  flat_map
    (fun platform_item : string * list (string * list (string * perf)) =>
       flat_map
         (fun dimension_item : string * list (string * perf) =>
            map (fun item => (fst platform_item, fst dimension_item, item))
              (snd dimension_item))
         (snd platform_item))
    kp.

(** A three-level table in which no key occurs twice at any level, as in a
    Python dict. *)
Definition unique_keys {V}
    (t : list (string * list (string * list (string * V)))) : Prop :=
  NoDup (map fst t)
  /\ Forall (fun p =>
               NoDup (map fst (snd p))
               /\ Forall (fun d => NoDup (map fst (snd d))) (snd p)) t.

(** Every counter of a performance table has [0 <= correct <= total]. *)
Definition counters_in_order
    (kp : list (string * list (string * list (string * perf)))) : Prop :=
  forall p d k pf,
    stored_perf kp p d k = Some pf -> (0 <= correct pf <= total pf)%Z.

(** One more observation of a word: [total] goes up, and [correct] too
    when the prediction was right. *)
Definition observed (is_correct : bool) (p : perf) : perf :=
  {| correct := if is_correct then (correct p + 1)%Z else correct p;
     total := (total p + 1)%Z |}.

(** The body of the loop over [self.platform_keywords[plat].items()] in
    [get_all_keywords]. *)
Definition add_learned (dimensions : list (string * list string))
    (item : string * list (string * Q)) : list (string * list string) :=
  let dimension := fst item in
  let keywords := snd item in
  match dict_get dimensions dimension with
  | Some current =>
      let learned :=
        map fst (List.filter (fun kv => Qltb 0.5 (snd kv)) keywords) in
      dict_set dimensions dimension (to_set (current ++ learned))
  | None => dimensions
  end.

(** [PlatformKeywordClassifier.get_all_keywords] *)
Definition get_all_keywords (platform : option string)
    (self : PlatformKeywordClassifier) : list (string * list string) :=
  let dimensions := BASE_DESIGN_DIMENSIONS in
  let platforms_to_check :=
    if truthy_ostr platform then [ostr_value platform]
    else dict_keys (platform_keywords self) in
  fold_left
    (fun dimensions plat =>
       match dict_get (platform_keywords self) plat with
       | Some by_dim => fold_left add_learned by_dim dimensions
       | None => dimensions
       end)
    platforms_to_check dimensions.

(** A keyword that some checked platform files under a dimension with a
    reward above one half. *)
Definition well_rewarded (platform : option string)
    (self : PlatformKeywordClassifier) (dimension keyword : string) : Prop :=
  exists plat by_dim table reward,
    (truthy_ostr platform = true -> plat = ostr_value platform)
    /\ In (plat, by_dim) (platform_keywords self)
    /\ In (dimension, table) by_dim
    /\ In (keyword, reward) table
    /\ 0.5 < reward.

(** A table of keywords per dimension that has the base dimensions as its
    keys and for each a list without duplicates: the base keywords, then
    well-rewarded learned keywords. *)
Definition extends_base (platform : option string)
    (self : PlatformKeywordClassifier)
    (dimensions : list (string * list string)) : Prop :=
  map fst dimensions = map fst BASE_DESIGN_DIMENSIONS
  /\ forall dimension base,
       dict_get BASE_DESIGN_DIMENSIONS dimension = Some base ->
       exists extra,
         dict_get dimensions dimension = Some (base ++ extra)
         /\ List.NoDup (base ++ extra)
         /\ forall keyword,
              In keyword extra ->
              well_rewarded platform self dimension keyword.

(** One call of a method of the classifier. *)
Inductive method_call : Type :=
| Classify (description : string)
    (scope explicit_dimension platform : option string)
| Learn (rules : list rule_dict) (min_confidence : Q)
| Track (description_words : list string)
    (predicted_dimension ground_truth_dimension : string)
    (platform : option string)
| Update (min_accuracy : Q).

(** The classifier after a call, whether the call returned or raised. *)
Definition after_call (self : PlatformKeywordClassifier) (c : method_call)
  : PlatformKeywordClassifier :=
  match c with
  | Classify description scope explicit_dimension platform =>
      snd (classify_dimension description scope explicit_dimension platform
             self)
  | Learn rules min_confidence =>
      snd (learn_from_rules rules min_confidence self)
  | Track description_words predicted_dimension ground_truth_dimension
      platform =>
      snd (_track_performance description_words predicted_dimension
             ground_truth_dimension platform self)
  | Update min_accuracy => snd (update_rewards min_accuracy self)
  end.

(** A classifier as [__init__] builds it, after a sequence of calls. *)
Definition after_calls (calls : list method_call)
  : PlatformKeywordClassifier :=
  fold_left after_call calls __init__.

(** *** Sample data *)

Definition sample_rule_dict : rule_dict :=
  {| get_design_dimension := Some "spacing"%string;
     get_platform_context := Some [("platform"%string, VStr "Figma")];
     get_description := Some "Use the padding for cards"%string |}.

Definition sample_counter : perf := {| correct := 1; total := 1 |}.

(** A classifier that has tracked one right prediction. *)
Definition sample_tracked : PlatformKeywordClassifier :=
  after_calls
    [Track ["padding"; "cards"]%string "spacing" "spacing"
       (Some "figma"%string)].

(** The same classifier after its rewards are updated. *)
Definition sample_rewarded : PlatformKeywordClassifier :=
  snd (update_rewards 0.6 sample_tracked).

End Classifier.

(* ===================================================================== *)
(** ** rl/core/synthetic_preference_generator.py *)
(* ===================================================================== *)

Module Generator.
Import Py.
Local Open Scope Q_scope.

Notation "'let*' x ':=' m 'in' k" :=
  (Classifier.bind m (fun x => k))
    (at level 10, x name, m at level 100, k at level 200).

Notation "'try' x ':=' m 'in' k" :=
  (rbind m (fun x => k))
    (at level 10, x name, m at level 100, k at level 200).

Record IntentRule : Type := {
  rule_id : string;
  description : string;
  scope : string;
  abstraction_level : string;
  triggering_actions : list string;
  artifact_properties : option (list string);
  confidence : Q;
  platform_context : option pydict;
  training_metadata : option pydict;
  design_dimension : option string
}.

Record PreferencePair : Type := {
  preferred : IntentRule;
  rejected : IntentRule;
  source : string;
  synthetic : bool;
  weight : Q;
  trace_context : option pydict;
  dimension_group : option string;
  platform_group : option string;
  artifact_group : option string
}.

(** The configuration attributes of a [SyntheticPreferenceGenerator]; its
    [keyword_classifier] attribute is the shared classifier, the state of
    the monad [Classifier.M]. *)
Record SyntheticPreferenceGenerator : Type := {
  confidence_threshold_high : Q;
  confidence_threshold_low : Q;
  min_novelty_score : Q;
  require_platform_context : bool;
  synthetic_weight : Q;
  group_by_dimension : bool;
  group_by_platform : bool;
  group_by_artifact : bool
}.

(** The constructor's default arguments. *)
Definition default_generator : SyntheticPreferenceGenerator :=
  {| confidence_threshold_high := 0.7;
     confidence_threshold_low := 0.4;
     min_novelty_score := 0.3;
     require_platform_context := true;
     synthetic_weight := 0.3;
     group_by_dimension := true;
     group_by_platform := true;
     group_by_artifact := true |}.

Definition default_strategies : list string :=
  ["confidence"; "quality"; "completeness"; "novelty"; "frequency";
   "constitutional"]%string.

(** [SyntheticPreferenceGenerator._classify_platform] *)
Definition _classify_platform (rule : IntentRule) : res string :=
  match platform_context rule with
  | Some ((_ :: _) as pc) =>
      if truthy (get pc "platform") then
        match dict_get pc "platform" with
        | Some (VStr s) => Ok (lower s)
        | Some _ => Raise AttributeError
        | None => Raise KeyError
        end
      else Ok "unknown"%string
  | _ => Ok "unknown"%string
  end.

(** The description branch of [_classify_artifact_type]. *)
Definition artifact_from_description (rule : IntentRule) : string :=
  let desc_lower := lower (description rule) in
  if contains "text" desc_lower || contains "typography" desc_lower
  then "text"
  else if contains "vector" desc_lower || contains "shape" desc_lower
  then "vector"
  else if contains "frame" desc_lower || contains "container" desc_lower
  then "frame"
  else if contains "component" desc_lower
  then "component"
  else "general".

(** [SyntheticPreferenceGenerator._classify_artifact_type] *)
Definition _classify_artifact_type (rule : IntentRule) : string :=
  match artifact_properties rule with
  | Some ((_ :: _) as props) =>
      let props_lower := map lower props in
      if existsb (fun p => contains "text" p || contains "font" p)
           props_lower
      then "text"
      else if existsb (fun p => contains "vector" p || contains "path" p)
                props_lower
      then "vector"
      else if existsb (fun p => contains "frame" p || contains "container" p)
                props_lower
      then "frame"
      else if existsb (fun p => contains "component" p) props_lower
      then "component"
      else artifact_from_description rule
  | _ => artifact_from_description rule
  end.

(** [SyntheticPreferenceGenerator._classify_design_dimension] *)
Definition _classify_design_dimension (rule : IntentRule)
  : Classifier.M string :=
  let* platform := Classifier.lift (_classify_platform rule) in
  let* result :=
    Classifier.classify_dimension (description rule) (Some (scope rule))
      (design_dimension rule)
      (if negb (String.eqb platform "unknown") then Some platform
       else None) in
  Classifier.ret (Classifier.dimension result).

Definition colon (a b : string) : string :=
  String.append a (String.append ":" b).

(** The group key of one rule, from the enabled grouping options. *)
Definition make_group_key (self : SyntheticPreferenceGenerator)
    (dimension platform artifact : string) : string :=
  if group_by_dimension self && group_by_platform self
     && group_by_artifact self
  then colon dimension (colon platform artifact)
  else if group_by_dimension self && group_by_platform self
  then colon dimension platform
  else if group_by_dimension self && group_by_artifact self
  then colon dimension artifact
  else if group_by_platform self && group_by_artifact self
  then colon platform artifact
  else if group_by_dimension self then dimension
  else if group_by_platform self then platform
  else if group_by_artifact self then artifact
  else "all".

(** [groups[group_key].append(rule)] on a [defaultdict(list)] *)
Definition groups_append (groups : list (string * list IntentRule))
    (group_key : string) (rule : IntentRule)
  : list (string * list IntentRule) :=
  let '(members, groups') := dd_getitem [] groups group_key in
  dict_set groups' group_key (members ++ [rule]).

(** The loop of [_classify_rules]. *)
Fixpoint classify_rules_loop (self : SyntheticPreferenceGenerator)
    (rules : list IntentRule) (groups : list (string * list IntentRule))
  : Classifier.M (list (string * list IntentRule)) :=
  match rules with
  | [] => Classifier.ret groups
  | rule :: rest =>
      let* dimension := _classify_design_dimension rule in
      let* platform := Classifier.lift (_classify_platform rule) in
      let artifact := _classify_artifact_type rule in
      let group_key := make_group_key self dimension platform artifact in
      classify_rules_loop self rest (groups_append groups group_key rule)
  end.

(** [SyntheticPreferenceGenerator._classify_rules] *)
Definition _classify_rules (self : SyntheticPreferenceGenerator)
    (rules : list IntentRule)
  : Classifier.M (list (string * list IntentRule)) :=
  classify_rules_loop self rules [].

(** [SyntheticPreferenceGenerator._parse_group_key] *)
Definition _parse_group_key (group_key : option string)
  : option string * option string * option string :=
  if negb (truthy_ostr group_key) || String.eqb (ostr_value group_key) "all"
  then (None, None, None)
  else
    let parts := split_on ":" (ostr_value group_key) in
    (nth_error parts 0, nth_error parts 1, nth_error parts 2).

(** The [PreferencePair(...)] built in the inner loop of a strategy. *)
Definition make_pair (source : string) (weight : Q)
    (trace_context : option pydict)
    (group : option string * option string * option string)
    (preferred rejected : IntentRule) : PreferencePair :=
  {| preferred := preferred;
     rejected := rejected;
     source := source;
     synthetic := true;
     weight := weight;
     trace_context := trace_context;
     dimension_group := fst (fst group);
     platform_group := snd (fst group);
     artifact_group := snd group |}.

(** The two nested loops that end every strategy:
    [for preferred in ...: for rejected in ...:
       if preferred.rule_id != rejected.rule_id: pairs.append(...)]. *)
Definition cross_pairs (mk : IntentRule -> IntentRule -> PreferencePair)
    (preferred_rules rejected_rules : list IntentRule)
  : list PreferencePair :=
  flat_map
    (fun preferred =>
       flat_map
         (fun rejected =>
            if negb (String.eqb (rule_id preferred) (rule_id rejected))
            then [mk preferred rejected]
            else [])
         rejected_rules)
    preferred_rules.

(** Where the sorting loop of a strategy puts a rule. *)
Inductive side : Type :=
| Preferred
| Rejected
| Neither.

(** A sorting loop [for rule in rules: if ...: a.append(rule)
    elif ...: b.append(rule)], whose test may raise. *)
Fixpoint sort_rules (test : IntentRule -> res side) (rules : list IntentRule)
    (preferred_rules rejected_rules : list IntentRule)
  : res (list IntentRule * list IntentRule) :=
  match rules with
  | [] => Ok (preferred_rules, rejected_rules)
  | rule :: rest =>
      try s := test rule in
      match s with
      | Preferred =>
          sort_rules test rest (preferred_rules ++ [rule]) rejected_rules
      | Rejected =>
          sort_rules test rest preferred_rules (rejected_rules ++ [rule])
      | Neither => sort_rules test rest preferred_rules rejected_rules
      end
  end.

(** [SyntheticPreferenceGenerator._generate_confidence_pairs] *)
Definition _generate_confidence_pairs (self : SyntheticPreferenceGenerator)
    (rules : list IntentRule) (trace_context : option pydict)
    (group_key : option string) : list PreferencePair :=
  let high_conf_rules :=
    List.filter
      (fun r => Qle_bool (confidence_threshold_high self) (confidence r))
      rules in
  let low_conf_rules :=
    List.filter
      (fun r => Qle_bool (confidence r) (confidence_threshold_low self))
      rules in
  let group := _parse_group_key group_key in
  cross_pairs
    (make_pair "confidence" (synthetic_weight self) trace_context group)
    high_conf_rules low_conf_rules.

(** [SyntheticPreferenceGenerator._compute_quality_score]; the counter
    [checks] of the source is never read and is left out. The score is a
    binary64 number and every [+=] rounds as Python's does. *)
Definition _compute_quality_score (self : SyntheticPreferenceGenerator)
    (rule : IntentRule) : res float :=
  let score := 0.0%float in
  let score :=
    if truthy_str (rule_id rule) && truthy_str (description rule)
       && truthy_str (scope rule)
    then (score + 0.2)%float else score in
  let score :=
    if (String.length (description rule) <=? 150)%nat
       && (length (split_ws (description rule)) <=? 20)%nat
    then (score + 0.2)%float else score in
  let score :=
    match platform_context rule with
    | Some ((_ :: _) as pc) =>
        let score :=
          if truthy (get pc "platform") && truthy (get pc "extraction_method")
          then (score + 0.2)%float else score in
        if truthy (get pc "api_endpoints") then (score + 0.1)%float
        else score
    | _ => score
    end in
  match training_metadata rule with
  | Some ((_ :: _) as tm) =>
      let score :=
        if truthy (get tm "suitable_for_training")
        then (score + 0.2)%float else score in
      match get_default tm "novelty_score" (VNum 0) with
      | VNaN => Ok score
      | novelty_score =>
          match as_number novelty_score with
          | Some novelty =>
              Ok (if Qle_bool (min_novelty_score self) novelty
                  then (score + 0.1)%float else score)
          | None => Raise TypeError
          end
      end
  | _ => Ok score
  end.

(** [SyntheticPreferenceGenerator._generate_quality_pairs] *)
Definition _generate_quality_pairs (self : SyntheticPreferenceGenerator)
    (rules : list IntentRule) (trace_context : option pydict)
    (group_key : option string) : res (list PreferencePair) :=
  try sorted :=
    sort_rules
      (fun rule =>
         try quality_score := _compute_quality_score self rule in
         Ok (if PrimFloat.leb 0.8%float quality_score then Preferred
             else if PrimFloat.leb quality_score 0.5%float then Rejected
             else Neither))
      rules [] [] in
  let group := _parse_group_key group_key in
  Ok (cross_pairs
        (make_pair "quality" (synthetic_weight self) trace_context group)
        (fst sorted) (snd sorted)).

(** [SyntheticPreferenceGenerator._is_complete] *)
Definition _is_complete (rule : IntentRule) : bool :=
  match platform_context rule with
  | Some ((_ :: _) as pc) =>
      forallb (fun key => dict_contains pc key)
        ["platform"; "extraction_method"]%string
  | _ => false
  end.

(** [SyntheticPreferenceGenerator._generate_completeness_pairs] *)
Definition _generate_completeness_pairs
    (self : SyntheticPreferenceGenerator)
    (rules : list IntentRule) (trace_context : option pydict)
    (group_key : option string) : res (list PreferencePair) :=
  try sorted :=
    sort_rules
      (fun rule => Ok (if _is_complete rule then Preferred else Rejected))
      rules [] [] in
  let group := _parse_group_key group_key in
  Ok (cross_pairs
        (make_pair "completeness" (synthetic_weight self) trace_context
           group)
        (fst sorted) (snd sorted)).

(** [SyntheticPreferenceGenerator._generate_novelty_pairs] *)
Definition _generate_novelty_pairs (self : SyntheticPreferenceGenerator)
    (rules : list IntentRule) (trace_context : option pydict)
    (group_key : option string) : res (list PreferencePair) :=
  try sorted :=
    sort_rules
      (fun rule =>
         match training_metadata rule with
         | Some ((_ :: _) as tm) =>
             match get_default tm "novelty_score" (VNum 0.5) with
             | VNaN => Ok Neither
             | novelty_score =>
                 match as_number novelty_score with
                 | Some novelty =>
                     Ok (if Qle_bool 0.7 novelty then Preferred
                         else if Qle_bool novelty 0.3 then Rejected
                         else Neither)
                 | None => Raise TypeError
                 end
             end
         | _ => Ok Neither
         end)
      rules [] [] in
  let group := _parse_group_key group_key in
  Ok (cross_pairs
        (make_pair "novelty" (synthetic_weight self) trace_context group)
        (fst sorted) (snd sorted)).

(** [SyntheticPreferenceGenerator._generate_frequency_pairs] *)
Definition _generate_frequency_pairs (self : SyntheticPreferenceGenerator)
    (rules : list IntentRule) (trace_context : option pydict)
    (group_key : option string) : res (list PreferencePair) :=
  try sorted :=
    sort_rules
      (fun rule =>
         match training_metadata rule with
         | Some ((_ :: _) as tm) =>
             let frequency :=
               get_default tm "pattern_frequency" (VStr "uncommon") in
             Ok (if eq_str frequency "common" then Preferred
                 else if eq_str frequency "rare" then Rejected
                 else Neither)
         | _ => Ok Neither
         end)
      rules [] [] in
  let group := _parse_group_key group_key in
  Ok (cross_pairs
        (make_pair "frequency" (synthetic_weight self) trace_context group)
        (fst sorted) (snd sorted)).

(** [len(v)] *)
Definition py_len (v : pyval) : res nat :=
  match v with
  | VStr s => Ok (String.length s)
  | VList l => Ok (length l)
  | VDict d => Ok (length d)
  | _ => Raise TypeError
  end.

Definition iteration_keywords : list string :=
  ["iterative"; "refine"; "adjust"; "return"; "revisit"; "again"; "further";
   "continue"; "polish"; "tweak"]%string.

Definition semantic_keywords : list string :=
  ["for"; "to improve"; "to enhance"; "for readability"; "for hierarchy";
   "alignment"; "consistency"; "balance"; "emphasis"; "clarity"]%string.

(** [SyntheticPreferenceGenerator._compute_constitutional_score] *)
Definition _compute_constitutional_score (rule : IntentRule) : res Q :=
  let score := 0.0 in
  let desc_lower := lower (description rule) in
  let score :=
    if existsb (fun kw => contains kw desc_lower) iteration_keywords
    then score + 0.25 else score in
  let score :=
    if existsb (fun kw => contains kw desc_lower) semantic_keywords
    then score + 0.25 else score in
  let score :=
    match platform_context rule with
    | Some ((_ :: _) as pc) =>
        let score :=
          if truthy (get pc "platform") && truthy (get pc "extraction_method")
          then score + 0.15 else score in
        if truthy (get pc "api_endpoints") || truthy (get pc "data_source")
        then score + 0.1 else score
    | _ => score
    end in
  try score :=
    match training_metadata rule with
    | Some ((_ :: _) as tm) =>
        let signals := get_default tm "constitutional_signals" (VList []) in
        try score :=
          (if truthy signals
           then try n := py_len signals in
                Ok (score + 0.15 * Qof_nat (Nat.min n 2))
           else Ok score) in
        Ok (if truthy (get tm "iteration_detected")
            then score + 0.15 else score)
    | _ => Ok score
    end in
  Ok (Qmin 1.0 score).

(** [SyntheticPreferenceGenerator._generate_constitutional_pairs] *)
Definition _generate_constitutional_pairs
    (self : SyntheticPreferenceGenerator)
    (rules : list IntentRule) (trace_context : option pydict)
    (group_key : option string) : res (list PreferencePair) :=
  try sorted :=
    sort_rules
      (fun rule =>
         try score := _compute_constitutional_score rule in
         Ok (if Qle_bool 0.7 score then Preferred
             else if Qle_bool score 0.4 then Rejected
             else Neither))
      rules [] [] in
  let group := _parse_group_key group_key in
  Ok (cross_pairs
        (make_pair "constitutional" (synthetic_weight self * 1.2)
           trace_context group)
        (fst sorted) (snd sorted)).

(** The key of [_deduplicate_pairs]. *)
Definition pair_key (pair : PreferencePair) : string * string :=
  (rule_id (preferred pair), rule_id (rejected pair)).

(** The body of the loop of [_deduplicate_pairs]. *)
Definition dedup_step (acc : gset (string * string) * list PreferencePair)
    (pair : PreferencePair) : gset (string * string) * list PreferencePair :=
  let key := pair_key pair in
  if decide (key ∈ fst acc) then acc
  else ({[ key ]} ∪ fst acc, snd acc ++ [pair]).

(** [SyntheticPreferenceGenerator._deduplicate_pairs] *)
Definition _deduplicate_pairs (pairs : list PreferencePair)
  : list PreferencePair :=
  snd (fold_left dedup_step pairs (∅, [])).

(** [if name in strategies: pairs.extend(strategy(...))] *)
Definition extend_if (strategies : list string) (name : string)
    (strategy : res (list PreferencePair)) (pairs : list PreferencePair)
  : res (list PreferencePair) :=
  if str_in name strategies
  then try more := strategy in Ok (pairs ++ more)
  else Ok pairs.

(** The body of the loop over groups in [generate_preferences], for a group
    of at least two rules: the pairs of the six strategies, in order. *)
Definition group_pairs (self : SyntheticPreferenceGenerator)
    (trace_context : option pydict) (strategies : list string)
    (group_key : string) (group_rules : list IntentRule)
  : res (list PreferencePair) :=
  let pairs := [] in
  try pairs :=
    extend_if strategies "confidence"
      (Ok (_generate_confidence_pairs self group_rules trace_context
             (Some group_key))) pairs in
  try pairs :=
    extend_if strategies "quality"
      (_generate_quality_pairs self group_rules trace_context
         (Some group_key)) pairs in
  try pairs :=
    extend_if strategies "completeness"
      (_generate_completeness_pairs self group_rules trace_context
         (Some group_key)) pairs in
  try pairs :=
    extend_if strategies "novelty"
      (_generate_novelty_pairs self group_rules trace_context
         (Some group_key)) pairs in
  try pairs :=
    extend_if strategies "frequency"
      (_generate_frequency_pairs self group_rules trace_context
         (Some group_key)) pairs in
  extend_if strategies "constitutional"
    (_generate_constitutional_pairs self group_rules trace_context
       (Some group_key)) pairs.

(** The loop over [classified_rules.items()] in [generate_preferences]:
    [all_pairs] as it stands before deduplication. *)
Fixpoint collect_pairs (self : SyntheticPreferenceGenerator)
    (trace_context : option pydict) (strategies : list string)
    (groups : list (string * list IntentRule))
    (all_pairs : list PreferencePair) : res (list PreferencePair) :=
  match groups with
  | [] => Ok all_pairs
  | (group_key, group_rules) :: rest =>
      if (length group_rules <? 2)%nat
      then collect_pairs self trace_context strategies rest all_pairs
      else
        try pairs :=
          group_pairs self trace_context strategies group_key group_rules in
        collect_pairs self trace_context strategies rest
          (all_pairs ++ pairs)
  end.

(** [SyntheticPreferenceGenerator.generate_preferences] *)
Definition generate_preferences (self : SyntheticPreferenceGenerator)
    (rules : list IntentRule) (trace_context : option pydict)
    (strategies : option (list string))
  : Classifier.M (list PreferencePair) :=
  let strategies :=
    match strategies with
    | None => default_strategies
    | Some s => s
    end in
  let* classified_rules := _classify_rules self rules in
  let* all_pairs :=
    Classifier.lift
      (collect_pairs self trace_context strategies classified_rules []) in
  Classifier.ret (_deduplicate_pairs all_pairs).

(** The sources of the five strategies that use the configured weight. *)
Definition plain_sources : list string :=
  ["confidence"; "quality"; "completeness"; "novelty"; "frequency"]%string.

(** What every pair built by a strategy satisfies: two different rule ids,
    the synthetic flag, and the weight that goes with its source. *)
Definition emitted (self : SyntheticPreferenceGenerator)
    (pair : PreferencePair) : Prop :=
  rule_id (preferred pair) <> rule_id (rejected pair)
  /\ synthetic pair = true
  /\ ((In (source pair) plain_sources
       /\ weight pair = synthetic_weight self)
      \/ (source pair = "constitutional"%string
          /\ weight pair = synthetic_weight self * 1.2)).

(** The first pair of a list that has a given key. *)
Definition first_with_key (key : string * string)
    (pairs : list PreferencePair) : option PreferencePair :=
  List.find (fun q => bool_decide (pair_key q = key)) pairs.

(** The triple compared between two runs. *)
Definition pair_triple (pair : PreferencePair) : string * string * string :=
  (rule_id (preferred pair), rule_id (rejected pair), source pair).

(** *** The quality score as the specification words it

    The score is a sum of six independent terms. A field of an optional
    dict is present when the dict holds a truthy value under that key; a
    missing [novelty_score] counts as 0, as the source reads it.
    [endpoint_keys] are the keys that count as an endpoint or data-source
    field. *)

Definition indicator (b : bool) (points : Q) : Q :=
  if b then points else 0.

Definition has_truthy (d : option pydict) (key : string) : bool :=
  match d with
  | Some d => truthy (get d key)
  | None => false
  end.

Definition novelty_score_is_number (rule : IntentRule) : bool :=
  match training_metadata rule with
  | Some tm =>
      match dict_get tm "novelty_score" with
      | Some v => match as_number v with Some _ => true | None => false end
      | None => true
      end
  | None => true
  end.

Definition novelty_at_least (minimum : Q) (rule : IntentRule) : bool :=
  match training_metadata rule with
  | Some ((_ :: _) as tm) =>
      match as_number (get_default tm "novelty_score" (VNum 0)) with
      | Some novelty => Qle_bool minimum novelty
      | None => false
      end
  | _ => false
  end.

Definition quality_score_spec (endpoint_keys : list string)
    (self : SyntheticPreferenceGenerator) (rule : IntentRule) : Q :=
  indicator (truthy_str (rule_id rule) && truthy_str (description rule)
             && truthy_str (scope rule)) 0.2
  + indicator ((String.length (description rule) <=? 150)%nat
               && (length (split_ws (description rule)) <=? 20)%nat) 0.2
  + indicator (has_truthy (platform_context rule) "platform"
               && has_truthy (platform_context rule) "extraction_method") 0.2
  + indicator (existsb (has_truthy (platform_context rule)) endpoint_keys)
      0.1
  + indicator (has_truthy (training_metadata rule) "suitable_for_training")
      0.2
  + indicator (novelty_at_least (min_novelty_score self) rule) 0.1.

(** A rule that earns each of the six terms of the quality score. *)
Definition earns_every_term (self : SyntheticPreferenceGenerator)
    (rule : IntentRule) : bool :=
  (truthy_str (rule_id rule) && truthy_str (description rule)
   && truthy_str (scope rule))
  && ((String.length (description rule) <=? 150)%nat
      && (length (split_ws (description rule)) <=? 20)%nat)
  && (has_truthy (platform_context rule) "platform"
      && has_truthy (platform_context rule) "extraction_method")
  && has_truthy (platform_context rule) "api_endpoints"
  && has_truthy (training_metadata rule) "suitable_for_training"
  && novelty_at_least (min_novelty_score self) rule.

(** A rule whose dynamically typed fields hold values of the types the
    generator relies on: the platform is a string, the novelty score a
    number, and the constitutional signals a sized value, when each is
    present and truthy. *)
Definition well_typed_rule (rule : IntentRule) : bool :=
  match platform_context rule with
  | Some pc =>
      match dict_get pc "platform" with
      | Some (VStr _) | None => true
      | Some v => negb (truthy v)
      end
  | None => true
  end
  && novelty_score_is_number rule
  && match training_metadata rule with
     | Some tm =>
         match dict_get tm "constitutional_signals" with
         | Some (VStr _) | Some (VList _) | Some (VDict _) | None => true
         | Some v => negb (truthy v)
         end
     | None => true
     end.

(** *** Sample data: the two rules and the generator of
    [scripts/test_pipeline.py], and variations of them *)

Definition test_rule_1 : IntentRule :=
  {| rule_id := "test_rule_1";
     description := "Increase spacing for better readability";
     scope := "artifact_property";
     abstraction_level := "intermediate";
     triggering_actions := ["modify_property"%string];
     artifact_properties := None;
     confidence := 0.85;
     platform_context :=
       Some [("platform"%string, VStr "figma");
             ("extraction_method"%string, VStr "plugin_api")];
     training_metadata :=
       Some [("suitable_for_training"%string, VBool true);
             ("novelty_score"%string, VNum 0.8);
             ("pattern_frequency"%string, VStr "common")];
     design_dimension := None |}.

Definition test_rule_2 : IntentRule :=
  {| rule_id := "test_rule_2";
     description := "User changes something";
     scope := "structural";
     abstraction_level := "general";
     triggering_actions := ["modify"%string];
     artifact_properties := None;
     confidence := 0.35;
     platform_context := Some [("platform"%string, VStr "figma")];
     training_metadata :=
       Some [("suitable_for_training"%string, VBool false);
             ("novelty_score"%string, VNum 0.2);
             ("pattern_frequency"%string, VStr "rare")];
     design_dimension := None |}.

(** The generator of the pipeline test: default thresholds, grouping
    disabled, and the given weight for synthetic pairs. *)
Definition ungrouped_generator (synthetic_weight : Q)
  : SyntheticPreferenceGenerator :=
  {| confidence_threshold_high := 0.7;
     confidence_threshold_low := 0.4;
     min_novelty_score := 0.3;
     require_platform_context := false;
     synthetic_weight := synthetic_weight;
     group_by_dimension := false;
     group_by_platform := false;
     group_by_artifact := false |}.

(** A generator whose two confidence thresholds overlap: every rule with a
    confidence between 0.4 and 0.7 is both high and low. *)
Definition overlapping_generator : SyntheticPreferenceGenerator :=
  {| confidence_threshold_high := 0.4;
     confidence_threshold_low := 0.7;
     min_novelty_score := 0.3;
     require_platform_context := false;
     synthetic_weight := 0.3;
     group_by_dimension := false;
     group_by_platform := false;
     group_by_artifact := false |}.

Definition middling_rule (id : string) (confidence : Q) : IntentRule :=
  {| rule_id := id;
     description := "User changes something";
     scope := "structural";
     abstraction_level := "general";
     triggering_actions := ["modify"%string];
     artifact_properties := None;
     confidence := confidence;
     platform_context := None;
     training_metadata := None;
     design_dimension := None |}.

(** A rule that scores 0.75 on the constitutional scale. *)
Definition refined_rule : IntentRule :=
  {| rule_id := "refined";
     description := "Refine alignment for consistency";
     scope := "structural";
     abstraction_level := "intermediate";
     triggering_actions := ["modify"%string];
     artifact_properties := None;
     confidence := 0.8;
     platform_context :=
       Some [("platform"%string, VStr "figma");
             ("extraction_method"%string, VStr "plugin_api");
             ("api_endpoints"%string, VList [VStr "nodes"])];
     training_metadata := None;
     design_dimension := None |}.

(** [test_rule_1] with a data source in place of API endpoints. *)
Definition data_source_rule : IntentRule :=
  {| rule_id := "test_rule_1";
     description := "Increase spacing for better readability";
     scope := "artifact_property";
     abstraction_level := "intermediate";
     triggering_actions := ["modify_property"%string];
     artifact_properties := None;
     confidence := 0.85;
     platform_context :=
       Some [("platform"%string, VStr "figma");
             ("extraction_method"%string, VStr "plugin_api");
             ("data_source"%string, VStr "rest_api")];
     training_metadata :=
       Some [("suitable_for_training"%string, VBool true);
             ("novelty_score"%string, VNum 0.8);
             ("pattern_frequency"%string, VStr "common")];
     design_dimension := None |}.

(** [test_rule_1] with API endpoints. *)
Definition endpoint_rule : IntentRule :=
  {| rule_id := "test_rule_1";
     description := "Increase spacing for better readability";
     scope := "artifact_property";
     abstraction_level := "intermediate";
     triggering_actions := ["modify_property"%string];
     artifact_properties := None;
     confidence := 0.85;
     platform_context :=
       Some [("platform"%string, VStr "figma");
             ("extraction_method"%string, VStr "plugin_api");
             ("api_endpoints"%string, VList [VStr "nodes"])];
     training_metadata :=
       Some [("suitable_for_training"%string, VBool true);
             ("novelty_score"%string, VNum 0.8);
             ("pattern_frequency"%string, VStr "common")];
     design_dimension := None |}.

(** A rule whose training metadata holds the given novelty score. *)
Definition middling_rule_with_novelty (novelty : pyval) : IntentRule :=
  {| rule_id := "m0";
     description := "User changes something";
     scope := "structural";
     abstraction_level := "general";
     triggering_actions := ["modify"%string];
     artifact_properties := None;
     confidence := 0.5;
     platform_context := None;
     training_metadata := Some [("novelty_score"%string, novelty)];
     design_dimension := None |}.

(** The ungrouped key is "all", which carries no group labels. *)
Definition sample_pair (source : string) (weight : Q)
    (preferred rejected : IntentRule) : PreferencePair :=
  make_pair source weight None (None, None, None) preferred rejected.

(** *** Export and batch functions *)

(** [SyntheticPreferenceGenerator._rule_to_dict] *)
Definition _rule_to_dict (rule : IntentRule) : pydict :=
  [ ("rule_id", VStr (rule_id rule));
    ("description", VStr (description rule));
    ("scope", VStr (scope rule));
    ("abstraction_level", VStr (abstraction_level rule));
    ("triggering_actions", VList (map VStr (triggering_actions rule)));
    ("artifact_properties",
     VList (map VStr (match artifact_properties rule with
                      | Some props => props
                      | None => []
                      end)));
    ("confidence", VNum (confidence rule));
    ("platform_context",
     VDict (match platform_context rule with
            | Some pc => pc
            | None => []
            end));
    ("training_metadata",
     VDict (match training_metadata rule with
            | Some tm => tm
            | None => []
            end)) ]%string.

(** [if label: example[key] = label] *)
Definition set_if_truthy (example : pydict) (key : string)
    (label : option string) : pydict :=
  if truthy_ostr label then dict_set example key (VStr (ostr_value label))
  else example.

(** The body of the loop of [format_for_dpo]: the example of one pair. *)
Definition format_pair (include_weights include_grouping : bool)
    (pair : PreferencePair) : pydict :=
  let example : pydict :=
    [ ("input",
       VDict (match trace_context pair with
              | Some ctx => ctx
              | None => []
              end));
      ("preferred", VDict (_rule_to_dict (preferred pair)));
      ("rejected", VDict (_rule_to_dict (rejected pair)));
      ("source",
       VStr (if synthetic pair then "synthetic" else "production"));
      ("type", VStr "batch_import");
      ("synthetic", VBool (synthetic pair)) ]%string in
  let example :=
    if include_weights && synthetic pair
    then dict_set example "weight" (VNum (weight pair))
    else example in
  if include_grouping then
    let example :=
      set_if_truthy example "dimension_group" (dimension_group pair) in
    let example :=
      set_if_truthy example "platform_group" (platform_group pair) in
    set_if_truthy example "artifact_group" (artifact_group pair)
  else example.

(** [SyntheticPreferenceGenerator.format_for_dpo] *)
Definition format_for_dpo (pairs : list PreferencePair)
    (include_weights include_grouping : bool) : list pydict :=
  map (format_pair include_weights include_grouping) pairs.




(** *** What the source tag of a pair stands for *)

(** The novelty score the novelty strategy reads off a rule. *)
Definition novelty_read (rule : IntentRule) : option Q :=
  match training_metadata rule with
  | Some ((_ :: _) as tm) =>
      as_number (get_default tm "novelty_score" (VNum 0.5))
  | _ => None
  end.

(** The pattern frequency the frequency strategy reads off a rule. *)
Definition frequency_read (rule : IntentRule) : option pyval :=
  match training_metadata rule with
  | Some ((_ :: _) as tm) =>
      Some (get_default tm "pattern_frequency" (VStr "uncommon"))
  | _ => None
  end.

(** The test that the strategy named by the source tag applied to the two
    rules of a pair. *)
Definition criterion (self : SyntheticPreferenceGenerator)
    (pair : PreferencePair) : Prop :=
  (source pair = "confidence"%string
   /\ (confidence_threshold_high self <= confidence (preferred pair))%Q
   /\ (confidence (rejected pair) <= confidence_threshold_low self)%Q)
  \/ (source pair = "quality"%string
      /\ exists qa qb,
          _compute_quality_score self (preferred pair) = Ok qa
          /\ _compute_quality_score self (rejected pair) = Ok qb
          /\ PrimFloat.leb 0.8%float qa = true
          /\ PrimFloat.leb qb 0.5%float = true)
  \/ (source pair = "completeness"%string
      /\ _is_complete (preferred pair) = true
      /\ _is_complete (rejected pair) = false)
  \/ (source pair = "novelty"%string
      /\ exists na nb,
          novelty_read (preferred pair) = Some na
          /\ novelty_read (rejected pair) = Some nb
          /\ (0.7 <= na)%Q /\ (nb <= 0.3)%Q)
  \/ (source pair = "frequency"%string
      /\ exists fa fb,
          frequency_read (preferred pair) = Some fa
          /\ frequency_read (rejected pair) = Some fb
          /\ eq_str fa "common" = true /\ eq_str fb "rare" = true)
  \/ (source pair = "constitutional"%string
      /\ exists sa sb,
          _compute_constitutional_score (preferred pair) = Ok sa
          /\ _compute_constitutional_score (rejected pair) = Ok sb
          /\ (0.7 <= sa)%Q /\ (sb <= 0.4)%Q).

(** A pair built from the group [(group_key, members)] with the trace
    context [ctx]: both rules are members, the labels are those of the key,
    and the source tag is backed by its criterion. *)
Definition built_from (self : SyntheticPreferenceGenerator)
    (ctx : option pydict) (group_key : string) (members : list IntentRule)
    (pair : PreferencePair) : Prop :=
  In (preferred pair) members
  /\ In (rejected pair) members
  /\ trace_context pair = ctx
  /\ (dimension_group pair, platform_group pair, artifact_group pair)
     = _parse_group_key (Some group_key)
  /\ criterion self pair.

(** A rule sits in the group named by its own dimension, platform and
    artifact type, as classified in the state [st]. *)
Definition keyed_by (self : SyntheticPreferenceGenerator)
    (st : Classifier.PlatformKeywordClassifier) (key : string)
    (rule : IntentRule) : Prop :=
  exists dimension platform,
    fst (_classify_design_dimension rule st) = Ok dimension
    /\ _classify_platform rule = Ok platform
    /\ key
       = make_group_key self dimension platform (_classify_artifact_type rule).

(** Two strategy lists that request the same known strategies. *)
Definition same_known_strategies (s1 s2 : list string) : Prop :=
  forall name, In name default_strategies -> str_in name s1 = str_in name s2.

(** The character [c] occurs in [s]. *)
Fixpoint mentions (c : ascii) (s : string) : bool :=
  match s with
  | EmptyString => false
  | String c' rest => Ascii.eqb c' c || mentions c rest
  end.

(** A string without a colon. *)
Definition colon_free (s : string) : bool :=
  negb (mentions ":" s).

(** The labels parsed from a key that is a single name. *)
Definition single_label (name : string)
  : option string * option string * option string :=
  if String.eqb name "" || String.eqb name "all" then (None, None, None)
  else (Some name, None, None).

(** The labels that the pairs of a group carry, by grouping options: the
    names that make up the key fill the dimension, platform and artifact
    slots from the left. *)
Definition positional_labels (self : SyntheticPreferenceGenerator)
    (dimension platform artifact : string)
  : option string * option string * option string :=
  if group_by_dimension self && group_by_platform self
     && group_by_artifact self
  then (Some dimension, Some platform, Some artifact)
  else if group_by_dimension self && group_by_platform self
  then (Some dimension, Some platform, None)
  else if group_by_dimension self && group_by_artifact self
  then (Some dimension, Some artifact, None)
  else if group_by_platform self && group_by_artifact self
  then (Some platform, Some artifact, None)
  else if group_by_dimension self then single_label dimension
  else if group_by_platform self then single_label platform
  else if group_by_artifact self then single_label artifact
  else (None, None, None).

(** The dict that [learn_keywords_from_rules] builds from a rule. *)
Definition rule_dict_of (rule : IntentRule) : Classifier.rule_dict :=
  {| Classifier.get_design_dimension := design_dimension rule;
     Classifier.get_platform_context :=
       Some match platform_context rule with
            | Some ((_ :: _) as pc) => pc
            | _ => []
            end;
     Classifier.get_description := Some (description rule) |}.

(** [SyntheticPreferenceGenerator.learn_keywords_from_rules] *)
Definition learn_keywords_from_rules (self : SyntheticPreferenceGenerator)
    (rules : list IntentRule) (min_confidence : Q) : Classifier.M unit :=
  let rule_dicts :=
    map rule_dict_of
      (List.filter
         (fun rule =>
            truthy_ostr (design_dimension rule)
            && truthy_odict (platform_context rule))
         rules) in
  Classifier.learn_from_rules rule_dicts min_confidence.

End Generator.

(* ===================================================================== *)
(** ** rl/utils/validators/schema_validator.py *)
(* ===================================================================== *)

Module Validator.
Import Py.
Local Open Scope Q_scope.

Notation "'try' x ':=' m 'in' k" :=
  (rbind m (fun x => k))
    (at level 10, x name, m at level 100, k at level 200).

(** The messages appended to [errors] by [validate_rule], each with the
    values the source formats into its text:
    - [MissingRequiredField f]: "Missing required field: f"
    - [InvalidConfidence c]: "Invalid confidence: c (must be 0.0-1.0)"
    - [DescriptionTooLong n]: "Description too long: n words (max 20)"
    - [InvalidScope s]: "Invalid scope: s (must be one of [...])"
    - [InvalidAbstractionLevel a]: "Invalid abstraction_level: a"
    - [PlatformContextNotDict]: "platform_context must be a dictionary"
    - [PlatformContextMissing k]: "platform_context missing 'k'" *)
Inductive rule_error : Type :=
| MissingRequiredField (field : string)
| InvalidConfidence (conf : pyval)
| DescriptionTooLong (words : nat)
| InvalidScope (scope : pyval)
| InvalidAbstractionLevel (level : pyval)
| PlatformContextNotDict
| PlatformContextMissing (key : string).

Definition required_fields : list string :=
  ["rule_id"; "description"; "scope"; "abstraction_level";
   "triggering_actions"; "confidence"; "platform_context"]%string.

Definition valid_scopes : list string :=
  ["artifact_property"; "structural"; "relational"; "compositional"]%string.

Definition valid_levels : list string :=
  ["specific"; "intermediate"; "general"]%string.

(** [v in xs] for a list [xs] of string literals *)
Definition val_in (v : pyval) (xs : list string) : bool :=
  existsb (eq_str v) xs.

(** [not isinstance(conf, (int, float)) or conf < 0.0 or conf > 1.0]; a
    NaN is a [float] and both comparisons with it are false. *)
Definition confidence_invalid (conf : pyval) : bool :=
  match conf with
  | VNaN => false
  | _ =>
      match as_number conf with
      | Some c => Qltb c 0.0 || Qltb 1.0 c
      | None => true
      end
  end.

(** [SchemaValidator.validate_rule] *)
Definition validate_rule (rule : pydict) : res (bool * list rule_error) :=
  let errors : list rule_error := [] in
  let errors :=
    fold_left
      (fun errors field =>
         if negb (dict_contains rule field)
         then errors ++ [MissingRequiredField field]
         else errors)
      required_fields errors in
  let errors :=
    match dict_get rule "confidence" with
    | Some conf =>
        if confidence_invalid conf then errors ++ [InvalidConfidence conf]
        else errors
    | None => errors
    end in
  try errors :=
    match dict_get rule "description" with
    | Some (VStr desc) =>
        let words := length (split_ws desc) in
        Ok (if (20 <? words)%nat then errors ++ [DescriptionTooLong words]
            else errors)
    | Some _ => Raise AttributeError
    | None => Ok errors
    end in
  let errors :=
    match dict_get rule "scope" with
    | Some scope =>
        if negb (val_in scope valid_scopes)
        then errors ++ [InvalidScope scope]
        else errors
    | None => errors
    end in
  let errors :=
    match dict_get rule "abstraction_level" with
    | Some level =>
        if negb (val_in level valid_levels)
        then errors ++ [InvalidAbstractionLevel level]
        else errors
    | None => errors
    end in
  let errors :=
    match dict_get rule "platform_context" with
    | Some (VDict pc) =>
        let errors :=
          if negb (dict_contains pc "platform")
          then errors ++ [PlatformContextMissing "platform"]
          else errors in
        if negb (dict_contains pc "extraction_method")
        then errors ++ [PlatformContextMissing "extraction_method"]
        else errors
    | Some _ => errors ++ [PlatformContextNotDict]
    | None => errors
    end in
  Ok (Classifier.is_empty errors, errors).

(** A record as the specification describes the valid one: the six
    required fields are there, the confidence is a number in [0, 1], the
    description has at most 20 words, and the scope and the abstraction
    level are taken from their enumerations. *)
Definition six_required_fields_ok (rule : pydict) : bool :=
  dict_contains rule "rule_id"
  && dict_contains rule "triggering_actions"
  && match dict_get rule "description" with
     | Some (VStr d) => (length (split_ws d) <=? 20)%nat
     | _ => false
     end
  && match dict_get rule "scope" with
     | Some (VStr s) => str_in s valid_scopes
     | _ => false
     end
  && match dict_get rule "abstraction_level" with
     | Some (VStr l) => str_in l valid_levels
     | _ => false
     end
  && match dict_get rule "confidence" with
     | Some (VNum c) => Qle_bool 0 c && Qle_bool c 1
     | _ => false
     end.

(** The errors reported on a platform context that is a dictionary. *)
Definition context_errors (pc : pydict) : list rule_error :=
  (if dict_contains pc "platform" then []
   else [PlatformContextMissing "platform"])
  ++ (if dict_contains pc "extraction_method" then []
      else [PlatformContextMissing "extraction_method"]).

(** *** Preference pairs and batches *)

(** The keys that [validate_rule] subscripts its argument with. *)
Definition subscripted_fields : list string :=
  ["confidence"; "description"; "scope"; "abstraction_level";
   "platform_context"]%string.

(** The loop over [required_fields] with the membership test [has]. *)
Definition missing_fields (has : string -> bool) : list rule_error :=
  fold_left
    (fun errors field =>
       if negb (has field) then errors ++ [MissingRequiredField field]
       else errors)
    required_fields [].

(** [validate_rule] as [validate_preference_pair] calls it, on whatever
    value sits under "preferred" or "rejected". On a string, [in] is the
    substring test and on a list the element test; subscripting either
    with a field name raises [TypeError], as does [in] on a value that is
    not iterable. *)
Definition validate_rule_value (v : pyval) : res (bool * list rule_error) :=
  match v with
  | VDict rule => validate_rule rule
  | VStr s =>
      if existsb (fun field => contains field s) subscripted_fields
      then Raise TypeError
      else
        let errors := missing_fields (fun field => contains field s) in
        Ok (Classifier.is_empty errors, errors)
  | VList l =>
      if existsb (fun field => existsb (fun x => eq_str x field) l)
           subscripted_fields
      then Raise TypeError
      else
        let errors :=
          missing_fields (fun field => existsb (fun x => eq_str x field) l) in
        Ok (Classifier.is_empty errors, errors)
  | _ => Raise TypeError
  end.

(** The messages appended to [errors] by [validate_preference_pair]:
    - [MissingPairField f]: "Missing required field: f"
    - [PreferredRule e]: "Preferred rule: e"
    - [RejectedRule e]: "Rejected rule: e"
    - [InvalidWeight w]: "Invalid weight: w (must be 0.0-1.0)" *)
Inductive pair_error : Type :=
| MissingPairField (field : string)
| PreferredRule (e : rule_error)
| RejectedRule (e : rule_error)
| InvalidWeight (weight : pyval).

(** [SchemaValidator.validate_preference_pair] *)
Definition validate_preference_pair (pair : pydict)
  : res (bool * list pair_error) :=
  let errors : list pair_error := [] in
  let errors :=
    fold_left
      (fun errors field =>
         if negb (dict_contains pair field)
         then errors ++ [MissingPairField field]
         else errors)
      ["input"; "preferred"; "rejected"]%string errors in
  try errors :=
    match dict_get pair "preferred" with
    | Some v =>
        try checked := validate_rule_value v in
        Ok (if negb (fst checked)
            then errors ++ map PreferredRule (snd checked)
            else errors)
    | None => Ok errors
    end in
  try errors :=
    match dict_get pair "rejected" with
    | Some v =>
        try checked := validate_rule_value v in
        Ok (if negb (fst checked)
            then errors ++ map RejectedRule (snd checked)
            else errors)
    | None => Ok errors
    end in
  let errors :=
    match dict_get pair "weight" with
    | Some weight =>
        if confidence_invalid weight then errors ++ [InvalidWeight weight]
        else errors
    | None => errors
    end in
  Ok (Classifier.is_empty errors, errors).

(** The [results] dict of [validate_batch]. *)
Record batch_results (E : Type) : Type := {
  total : nat;
  valid : nat;
  invalid : nat;
  errors : list (nat * list E)
}.
Arguments total {E} _.
Arguments valid {E} _.
Arguments invalid {E} _.
Arguments errors {E} _.

(** The loop of [validate_batch] over [enumerate(items)], from index [i]. *)
Fixpoint validate_batch_loop {A E : Type}
    (validator_func : A -> res (bool * list E)) (items : list A) (i : nat)
    (results : batch_results E) : res (batch_results E) :=
  match items with
  | [] => Ok results
  | item :: rest =>
      try checked := validator_func item in
      validate_batch_loop validator_func rest (S i)
        (if fst checked
         then {| total := total results;
                 valid := valid results + 1;
                 invalid := invalid results;
                 errors := errors results |}
         else {| total := total results;
                 valid := valid results;
                 invalid := invalid results + 1;
                 errors := errors results ++ [(i, snd checked)] |})
  end.

(** [SchemaValidator.validate_batch] *)
Definition validate_batch {A E : Type} (items : list A)
    (validator_func : A -> res (bool * list E)) : res (batch_results E) :=
  validate_batch_loop validator_func items 0
    {| total := length items; valid := 0; invalid := 0; errors := [] |}.

(** A rule of the generator whose export passes rule validation. *)
Definition rule_conforms (rule : Generator.IntentRule) : bool :=
  Qle_bool 0 (Generator.confidence rule)
  && Qle_bool (Generator.confidence rule) 1
  && (length (split_ws (Generator.description rule)) <=? 20)%nat
  && str_in (Generator.scope rule) valid_scopes
  && str_in (Generator.abstraction_level rule) valid_levels
  && match Generator.platform_context rule with
     | Some pc =>
         dict_contains pc "platform" && dict_contains pc "extraction_method"
     | None => false
     end.

(** A confidence or a weight that passes the range test: a number in
    [0, 1], or the [float] NaN, with which both comparisons are false. *)
Definition passes_range_test (v : pyval) : Prop :=
  v = VNaN \/ exists c, as_number v = Some c /\ (0 <= c)%Q /\ (c <= 1)%Q.

(** A rule is reported valid for these reasons. *)
Definition accepted_rule (rule : pydict) : Prop :=
  Forall (fun field => dict_contains rule field = true) required_fields
  /\ (exists conf,
        dict_get rule "confidence" = Some conf /\ passes_range_test conf)
  /\ (exists d,
        dict_get rule "description" = Some (VStr d)
        /\ (length (split_ws d) <= 20)%nat)
  /\ (exists sc,
        dict_get rule "scope" = Some (VStr sc)
        /\ In sc valid_scopes)
  /\ (exists lv,
        dict_get rule "abstraction_level" = Some (VStr lv)
        /\ In lv valid_levels)
  /\ (exists pc,
        dict_get rule "platform_context" = Some (VDict pc)
        /\ dict_contains pc "platform" = true
        /\ dict_contains pc "extraction_method" = true).

(** An example is reported valid for these reasons. *)
Definition accepted_pair (pair : pydict) : Prop :=
  dict_contains pair "input" = true
  /\ (exists rule,
        dict_get pair "preferred" = Some (VDict rule) /\ accepted_rule rule)
  /\ (exists rule,
        dict_get pair "rejected" = Some (VDict rule) /\ accepted_rule rule)
  /\ (forall weight,
        dict_get pair "weight" = Some weight -> passes_range_test weight).

(** A generator rule that conforms. *)
Definition conforming_rule : Generator.IntentRule :=
  {| Generator.rule_id := "conforming";
     Generator.description := "Increase spacing for better readability";
     Generator.scope := "artifact_property";
     Generator.abstraction_level := "intermediate";
     Generator.triggering_actions := ["modify_property"%string];
     Generator.artifact_properties := None;
     Generator.confidence := 0.85;
     Generator.platform_context :=
       Some [("platform"%string, VStr "figma");
             ("extraction_method"%string, VStr "plugin_api")];
     Generator.training_metadata := None;
     Generator.design_dimension := None |}.

(** Sample records. *)
Definition rule_without_context : pydict :=
  [ ("rule_id", VStr "test_rule_1");
    ("description", VStr "Increase spacing for better readability");
    ("scope", VStr "artifact_property");
    ("abstraction_level", VStr "intermediate");
    ("triggering_actions", VList [VStr "modify_property"]);
    ("confidence", VNum 0.85) ]%string.

Definition rule_with_context : pydict :=
  rule_without_context
  ++ [ ("platform_context",
        VDict [("platform", VStr "figma");
               ("extraction_method", VStr "plugin_api")]) ]%string.

(** [rule_with_context] with a confidence that is not a number, as
    [json.loads] reads the token [NaN]. *)
Definition rule_with_nan_confidence : pydict :=
  dict_set rule_with_context "confidence" VNaN.

(** A preference example with a NaN weight over two such rules. *)
Definition pair_with_nan_weight : pydict :=
  [ ("input", VDict []);
    ("preferred", VDict rule_with_nan_confidence);
    ("rejected", VDict rule_with_context);
    ("weight", VNaN) ]%string.

End Validator.

(* ===================================================================== *)
(** ** rl/core/synthetic_preference_generator.py: group statistics *)
(* ===================================================================== *)

Module Statistics.
Import Py Generator.
Local Open Scope Z_scope.

(** The entry that [get_group_statistics] keeps per group. The three sets
    are lists without repetition, in order of first insertion; the order
    in which Python lists a set is not modelled. *)
Record group_statistics : Type := {
  count : Z;
  sources : list (string * Z);
  dimensions : list string;
  platforms : list string;
  artifacts : list string
}.

(** The default entry of [stats]. *)
Definition fresh_statistics : group_statistics :=
  {| count := 0; sources := []; dimensions := []; platforms := [];
     artifacts := [] |}.

(** [s.add(x)] *)
Definition set_add (s : list string) (x : string) : list string :=
  if str_in x s then s else s ++ [x].

(** [s.add(x)] under [if x:] for an [Optional[str]] *)
Definition set_add_if (s : list string) (x : option string)
  : list string :=
  if truthy_ostr x then set_add s (ostr_value x) else s.

(** The group key of a pair. *)
Definition statistics_key (pair : PreferencePair) : string :=
  if truthy_ostr (dimension_group pair) && truthy_ostr (platform_group pair)
     && truthy_ostr (artifact_group pair)
  then colon (ostr_value (dimension_group pair))
         (colon (ostr_value (platform_group pair))
            (ostr_value (artifact_group pair)))
  else if truthy_ostr (dimension_group pair)
          && truthy_ostr (platform_group pair)
  then colon (ostr_value (dimension_group pair))
         (ostr_value (platform_group pair))
  else if truthy_ostr (dimension_group pair)
  then ostr_value (dimension_group pair)
  else "ungrouped".

(** [sources[source] += 1] on a [defaultdict(int)] *)
Definition count_source (sources : list (string * Z)) (source : string)
  : list (string * Z) :=
  let '(n, sources1) := dd_getitem 0 sources source in
  dict_set sources1 source (n + 1).

(** The body of the loop over [pairs]. *)
Definition count_pair (stats : list (string * group_statistics))
    (pair : PreferencePair) : list (string * group_statistics) :=
  let group_key := statistics_key pair in
  let '(entry, stats1) := dd_getitem fresh_statistics stats group_key in
  dict_set stats1 group_key
    {| count := count entry + 1;
       sources := count_source (sources entry) (source pair);
       dimensions := set_add_if (dimensions entry) (dimension_group pair);
       platforms := set_add_if (platforms entry) (platform_group pair);
       artifacts := set_add_if (artifacts entry) (artifact_group pair) |}.

(** [SyntheticPreferenceGenerator.get_group_statistics]; the conversion
    of the entries at the end keeps their keys, order and contents. *)
Definition get_group_statistics (pairs : list PreferencePair)
  : list (string * group_statistics) :=
  fold_left count_pair pairs [].

(** [sum(xs)] on integers *)
Definition sum_ints (xs : list Z) : Z := fold_left Z.add xs 0.

(** A pair of the confidence strategy in group [spacing:figma], and one
    without a group. *)
Definition grouped_pair : PreferencePair :=
  {| preferred := test_rule_1; rejected := test_rule_2;
     source := "confidence"; synthetic := true; weight := 0.3%Q;
     trace_context := None;
     dimension_group := Some "spacing"%string;
     platform_group := Some "figma"%string;
     artifact_group := None |}.

Definition ungrouped_pair : PreferencePair :=
  {| preferred := test_rule_2; rejected := test_rule_1;
     source := "quality"; synthetic := true; weight := 0.3%Q;
     trace_context := None;
     dimension_group := None;
     platform_group := Some "figma"%string;
     artifact_group := None |}.

End Statistics.

(* ===================================================================== *)
(** ** Facts about the Python layer *)
(* ===================================================================== *)

Module PyFacts.
Import Py.
Local Open Scope Q_scope.

(** Turn divisions by numerals into multiplications, for [lra]. *)
Ltac qconst :=
  unfold Qdiv in *;
  repeat match goal with
    | |- context [Qinv (Qmake ?n ?d)] =>
        let r := eval cbv in (Qinv (Qmake n d)) in
        change (Qinv (Qmake n d)) with r
    end.

Ltac qlra := qconst; lra.

Lemma Qle_bool_false_lt (a b : Q) : Qle_bool a b = false -> b < a.
Proof.
  intros H. apply Qnot_le_lt. intros Hle.
  apply Qle_bool_iff in Hle. congruence.
Qed.

Lemma dict_contains_get {V} (d : list (string * V)) (k : string) :
  dict_contains d k = true -> exists v, dict_get d k = Some v.
Proof.
  induction d as [| [k' v'] rest IH]; simpl; [discriminate |].
  destruct (String.eqb k' k); eauto.
Qed.

Lemma dict_set_same {V} (d : list (string * V)) (k : string) (v : V) :
  dict_get d k = Some v -> dict_set d k v = d.
Proof.
  induction d as [| [k' v'] rest IH]; simpl; [discriminate |].
  destruct (String.eqb k' k).
  - intros E. injection E as ->. reflexivity.
  - intros E. rewrite IH by exact E. reflexivity.
Qed.

Lemma dict_get_contains {V} (d : list (string * V)) (k : string) (v : V) :
  dict_get d k = Some v -> dict_contains d k = true.
Proof.
  induction d as [| [k' v'] rest IH]; simpl; [discriminate |].
  destruct (String.eqb k' k); auto.
Qed.

Lemma dict_not_contains_get {V} (d : list (string * V)) (k : string) :
  dict_contains d k = false -> dict_get d k = None.
Proof.
  induction d as [| [k' v'] rest IH]; simpl; [reflexivity |].
  destruct (String.eqb k' k); [discriminate | exact IH].
Qed.

Lemma dd_getitem_present {V} (default : V) (d : list (string * V))
    (k : string) (v : V) :
  dict_get d k = Some v -> dd_getitem default d k = (v, d).
Proof. intros E. unfold dd_getitem. rewrite E. reflexivity. Qed.

End PyFacts.

(* ===================================================================== *)
(** ** Properties of the keyword classifier *)
(* ===================================================================== *)

Module ClassifierProofs.
Import Py PyFacts Classifier.
Local Open Scope Q_scope.

Lemma pure_ret {A} (a : A) : pure_call (ret a).
Proof. intros self. exists a. reflexivity. Qed.

Lemma pure_bind {A B} (m : M A) (k : A -> M B) :
  pure_call m -> (forall a, pure_call (k a)) -> pure_call (bind m k).
Proof.
  intros Hm Hk self. unfold bind.
  destruct (Hm self) as [a Ea]. rewrite Ea. apply Hk.
Qed.

Lemma classifier_eta (self : PlatformKeywordClassifier) :
  {| platform_keywords := platform_keywords self;
     keyword_performance := keyword_performance self |} = self.
Proof. destruct self. reflexivity. Qed.

Lemma pure_platform_keywords_contains (platform : string) :
  pure_call (platform_keywords_contains platform).
Proof. intros self. eexists. reflexivity. Qed.

Lemma getitem_present (platform : string) (self : PlatformKeywordClassifier) :
  dict_contains (platform_keywords self) platform = true ->
  exists by_dim,
    dict_get (platform_keywords self) platform = Some by_dim
    /\ platform_keywords_getitem platform self = (Ok by_dim, self).
Proof.
  intros H. apply dict_contains_get in H. destruct H as [by_dim E].
  exists by_dim. split; [exact E |].
  unfold platform_keywords_getitem.
  rewrite (dd_getitem_present _ _ _ _ E). rewrite classifier_eta.
  reflexivity.
Qed.

Lemma getitem2_present (platform dimension : string)
    (self : PlatformKeywordClassifier)
    (by_dim : list (string * list (string * Q))) :
  dict_get (platform_keywords self) platform = Some by_dim ->
  dict_contains by_dim dimension = true ->
  exists table,
    platform_keywords_getitem2 platform dimension self = (Ok table, self).
Proof.
  intros E H. apply dict_contains_get in H. destruct H as [table Et].
  exists table. unfold platform_keywords_getitem2.
  rewrite (dd_getitem_present _ _ _ _ E).
  rewrite (dd_getitem_present _ _ _ _ Et).
  rewrite (dict_set_same _ _ _ E). rewrite classifier_eta. reflexivity.
Qed.

(** Scoring one dimension reads the learned keywords only under the two
    membership tests, so no default entry is ever created. *)
Lemma pure_score_dimension (description_lower : string)
    (platform : option string) (dimension : string)
    (base_keywords : list string) :
  pure_call (score_dimension description_lower platform dimension
               base_keywords).
Proof.
  intros self. unfold score_dimension.
  destruct (truthy_ostr platform); [| eexists; reflexivity].
  unfold bind at 1. unfold platform_keywords_contains at 1.
  destruct (dict_contains (platform_keywords self) (ostr_value platform))
    eqn:Hp; [| eexists; reflexivity].
  destruct (getitem_present _ _ Hp) as (by_dim & Eb & Eg).
  unfold bind at 1. rewrite Eg.
  destruct (dict_contains by_dim dimension) eqn:Hd;
    [| eexists; reflexivity].
  destruct (getitem2_present _ _ _ _ Eb Hd) as (table & Et).
  unfold bind. rewrite Et. eexists. reflexivity.
Qed.

Lemma pure_score_dimensions (description_lower : string)
    (platform : option string) (dims : list (string * list string)) :
  forall dimension_scores matched_keywords_by_dim,
    pure_call (score_dimensions description_lower platform dims
                 dimension_scores matched_keywords_by_dim).
Proof.
  induction dims as [| [dimension base_keywords] rest IH];
    intros dimension_scores matched_keywords_by_dim.
  - apply pure_ret.
  - simpl. apply pure_bind; [apply pure_score_dimension |].
    intros sm. destruct (Qltb 0 (fst sm)); apply IH.
Qed.

(** The tracking method does write to the classifier when it runs. *)
Lemma track_performance_writes :
  snd (_track_performance ["spacing"%string] "spacing" "spacing"
         (Some "figma"%string) __init__)
  <> __init__.
Proof. discriminate. Qed.

(** Whatever is called for tracking, it is never reached. *)
Lemma classify_dimension_never_tracks
    (track : list string -> string -> string -> option string -> M unit)
    (description : string)
    (scope explicit_dimension platform : option string)
    (self : PlatformKeywordClassifier) :
  exists result,
    classify_dimension_with track description scope explicit_dimension
      platform self
    = (Ok result, self).
Proof.
  unfold classify_dimension_with.
  destruct (truthy_ostr explicit_dimension) eqn:He.
  - eexists. reflexivity.
  - unfold bind at 1.
    destruct (pure_score_dimensions (lower description) platform
                BASE_DESIGN_DIMENSIONS [] [] self) as [scored Es].
    rewrite Es.
    destruct (is_empty (fst scored) && truthy_ostr scope);
      [eexists; reflexivity |].
    destruct (fst scored) as [| first others]; eexists; reflexivity.
Qed.

(** C10. [classify_dimension] returns and leaves both tables of the
    classifier, [platform_keywords] and [keyword_performance], exactly as it
    found them, for every description, scope, explicit dimension and
    platform; the call of [_track_performance] in its body is unreachable:
    the result and the final state are the same whatever that call would
    do. *)
Theorem classify_dimension_leaves_classifier_unchanged
    (description : string) (scope explicit_dimension platform : option string)
    (self : PlatformKeywordClassifier) :
  (exists result,
      classify_dimension description scope explicit_dimension platform self
      = (Ok result, self))
  /\ platform_keywords
       (snd (classify_dimension description scope explicit_dimension
               platform self))
     = platform_keywords self
  /\ keyword_performance
       (snd (classify_dimension description scope explicit_dimension
               platform self))
     = keyword_performance self
  /\ (forall track,
        classify_dimension_with track description scope explicit_dimension
          platform self
        = classify_dimension description scope explicit_dimension platform
            self).
Proof.
  destruct (classify_dimension_never_tracks _track_performance description
              scope explicit_dimension platform self) as [result E].
  unfold classify_dimension. rewrite E. simpl.
  split; [eauto |]. split; [reflexivity |]. split; [reflexivity |].
  intros track.
  destruct (classify_dimension_never_tracks track description scope
              explicit_dimension platform self) as [result' E'].
  rewrite E'. f_equal. f_equal.
  (* both results are computed by the same code up to the tracking call *)
  revert E E'. unfold classify_dimension_with.
  destruct (truthy_ostr explicit_dimension) eqn:He.
  - unfold ret. congruence.
  - unfold bind at 1 3.
    destruct (score_dimensions (lower description) platform
                BASE_DESIGN_DIMENSIONS [] [] self) as [[scored | e] self1];
      [| discriminate].
    destruct (is_empty (fst scored) && truthy_ostr scope);
      [unfold ret; congruence |].
    destruct (fst scored) as [| first others];
      unfold bind, ret; congruence.
Qed.

End ClassifierProofs.

(* ===================================================================== *)
(** ** Properties of the reward model and of the environment *)
(* ===================================================================== *)

Module EnvironmentProofs.
Import Py PyFacts Environment.
Local Open Scope Q_scope.

Lemma temporal_reward_window (d : Q) :
  1000 <= d -> d <= 5000 ->
  temporal_reward (Some d) = 1.0 - ((d - 1000) / 4000.0).
Proof.
  intros H1 H2. unfold temporal_reward.
  apply Qle_bool_iff in H1. apply Qle_bool_iff in H2.
  rewrite H1, H2. reflexivity.
Qed.

Lemma temporal_reward_fast (d : Q) :
  d < 1000 -> temporal_reward (Some d) = 0.5.
Proof.
  intros H. unfold temporal_reward.
  destruct (Qle_bool 1000 d) eqn:E.
  - apply Qle_bool_iff in E. exfalso. apply (Qlt_not_le _ _ H E).
  - reflexivity.
Qed.

Lemma temporal_reward_slow (d : Q) :
  5000 < d ->
  temporal_reward (Some d) = Qmax 0.0 (1.0 - ((d - 5000) / 10000.0)).
Proof.
  intros H. unfold temporal_reward.
  destruct (Qle_bool d 5000) eqn:E5.
  - apply Qle_bool_iff in E5. exfalso. apply (Qlt_not_le _ _ H E5).
  - destruct (Qle_bool 1000 d) eqn:E1; simpl; [reflexivity |].
    apply Qle_bool_false_lt in E1. exfalso.
    apply (Qlt_not_le d 1000 E1). apply Qlt_le_weak.
    apply Qlt_trans with 5000; [reflexivity | exact H].
Qed.

Lemma temporal_reward_window_antitone (d1 d2 : Q) :
  1000 <= d1 -> d1 <= d2 -> d2 <= 5000 ->
  temporal_reward (Some d2) <= temporal_reward (Some d1).
Proof.
  intros H1 H12 H2.
  rewrite (temporal_reward_window d1), (temporal_reward_window d2);
    try assumption.
  - qlra.
  - apply Qle_trans with d1; assumption.
  - apply Qle_trans with d2; assumption.
Qed.

(** C1. Whatever the response, the changes, the duration and the configured
    weights, the reward returned by [_compute_reward] has a [value] equal to
    the sum of the values of its [components] map, whose keys are
    preference, change_magnitude and temporal; the total is the plain sum of
    the three weighted terms, with no clamping. *)
Theorem reward_value_is_sum_of_components
    (self : DesignEnvironment) (action : Action) (user_response : UserResponse)
    (changes : option (list pydict)) (duration_ms : option Q) :
  let r := _compute_reward self action user_response changes duration_ms in
  value r = py_sum (dict_values (components r))
  /\ dict_keys (components r)
     = ["preference"; "change_magnitude"; "temporal"]%string
  /\ dict_get (components r) "preference"
     = Some (preference_reward user_response * preference_weight self)
  /\ dict_get (components r) "change_magnitude"
     = Some (change_reward changes * change_weight self)
  /\ value r
     == preference_reward user_response * preference_weight self
        + change_reward changes * change_weight self
        + temporal_reward duration_ms * temporal_weight self.
Proof.
  cbv zeta. repeat split.
  unfold _compute_reward, py_sum, dict_values. simpl. ring.
Qed.

(** C2. The unweighted temporal reward is 0 for an unknown duration,
    1 - (d - 1000)/4000 for d in [1000, 5000] (non-increasing there, 1 at
    1000 and 0 at 5000), 0.5 below 1000 and max(0, 1 - (d - 5000)/10000)
    above 5000; the temporal component is that reward times
    [temporal_weight]. *)
Theorem temporal_component_piecewise :
  (forall self action user_response changes duration_ms,
      dict_get
        (components
           (_compute_reward self action user_response changes duration_ms))
        "temporal"
      = Some (temporal_reward duration_ms * temporal_weight self))
  /\ temporal_reward None == 0
  /\ (forall d, 1000 <= d -> d <= 5000 ->
        temporal_reward (Some d) == 1 - (d - 1000) / 4000)
  /\ (forall d, d < 1000 -> temporal_reward (Some d) == 0.5)
  /\ (forall d, 5000 < d ->
        temporal_reward (Some d) == Qmax 0 (1 - (d - 5000) / 10000))
  /\ (forall d1 d2, 1000 <= d1 -> d1 <= d2 -> d2 <= 5000 ->
        temporal_reward (Some d2) <= temporal_reward (Some d1))
  /\ temporal_reward (Some 1000) == 1
  /\ temporal_reward (Some 5000) == 0.
Proof.
  split; [reflexivity |].
  split; [reflexivity |].
  split.
  { intros d H1 H2. rewrite temporal_reward_window by assumption. qlra. }
  split.
  { intros d H. rewrite temporal_reward_fast by assumption. reflexivity. }
  split.
  { intros d H. rewrite temporal_reward_slow by assumption.
    apply Q.max_compat; qlra. }
  split; [exact temporal_reward_window_antitone |].
  split; reflexivity.
Qed.

Lemma temporal_component_piecewise_witness :
  temporal_reward (Some 2000) == 1 - (2000 - 1000) / 4000
  /\ temporal_reward (Some 500) == 0.5
  /\ temporal_reward (Some 7000) == Qmax 0 (1 - (7000 - 5000) / 10000)
  /\ temporal_reward (Some 3000) <= temporal_reward (Some 2000).
Proof.
  destruct temporal_component_piecewise
    as (_ & _ & Hwin & Hfast & Hslow & Hmono & _).
  split; [apply Hwin; discriminate |].
  split; [apply Hfast; reflexivity |].
  split; [apply Hslow; reflexivity |].
  apply Hmono; discriminate.
Defined.

Lemma step_unreset (self : DesignEnvironment) (action : Action)
    (user_response : UserResponse) (changes : option (list pydict))
    (duration_ms : option Q) (next_observation : option Observation) :
  current_observation self = None ->
  step self action user_response changes duration_ms next_observation
  = (Raise (ValueError "Environment not reset. Call reset() first."), self).
Proof. intros H. unfold step. rewrite H. reflexivity. Qed.

Lemma step_observed (self : DesignEnvironment) (action : Action)
    (user_response : UserResponse) (changes : option (list pydict))
    (duration_ms : option Q) (next_observation : option Observation) :
  current_observation self <> None ->
  exists result self',
    step self action user_response changes duration_ms next_observation
    = (Ok result, self')
    /\ current_observation self' <> None.
Proof.
  intros H. unfold step.
  destruct (current_observation self) as [cur |]; [| congruence].
  eexists _, _. split; [reflexivity |]. simpl. discriminate.
Qed.

Lemma run_calls_no_reset (cs : list call) (self : DesignEnvironment) :
  forallb (fun c => negb (is_reset c)) cs = true ->
  current_observation self = None ->
  run_calls self cs = self.
Proof.
  revert self. induction cs as [| c cs IH]; intros self Hcs Hnone.
  - reflexivity.
  - simpl in Hcs. apply andb_prop in Hcs. destruct Hcs as [Hc Hcs].
    destruct c as [o | a u ch d n]; [discriminate |].
    unfold run_calls. simpl. rewrite step_unreset by assumption. simpl.
    apply IH; assumption.
Qed.

Lemma run_calls_observed (cs : list call) (self : DesignEnvironment) :
  current_observation self <> None ->
  current_observation (run_calls self cs) <> None.
Proof.
  revert self. induction cs as [| c cs IH]; intros self H.
  - exact H.
  - unfold run_calls. simpl. apply IH.
    destruct c as [o | a u ch d n]; simpl.
    + discriminate.
    + destruct (step_observed self a u ch d n H) as (r & s' & E & Hs').
      rewrite E. exact Hs'.
Qed.

Lemma run_calls_after_reset (cs : list call) (self : DesignEnvironment) :
  existsb is_reset cs = true ->
  current_observation (run_calls self cs) <> None.
Proof.
  revert self. induction cs as [| c cs IH]; intros self H.
  - discriminate.
  - unfold run_calls. simpl.
    destruct c as [o | a u ch d n]; simpl in H.
    + apply run_calls_observed. simpl. discriminate.
    + apply IH. exact H.
Qed.

(** C8. On an environment that was constructed and on which [reset] was
    never called (whatever [step] calls were attempted), [step] raises the
    invalid-state error and leaves the environment as it was; once [reset]
    has been called with an observation, every later [step] returns a
    result. *)
Theorem step_requires_reset
    (pw cw tw : Q) (ms : Z) (cs : list call)
    (action : Action) (user_response : UserResponse)
    (changes : option (list pydict)) (duration_ms : option Q)
    (next_observation : option Observation) :
  let self := run_calls (__init__ pw cw tw ms) cs in
  (forallb (fun c => negb (is_reset c)) cs = true ->
   step self action user_response changes duration_ms next_observation
   = (Raise (ValueError "Environment not reset. Call reset() first."), self)
   /\ self = __init__ pw cw tw ms)
  /\ (existsb is_reset cs = true ->
      exists result self',
        step self action user_response changes duration_ms next_observation
        = (Ok result, self')).
Proof.
  cbv zeta. split.
  - intros Hcs.
    rewrite (run_calls_no_reset cs (__init__ pw cw tw ms) Hcs eq_refl).
    split; [apply step_unreset |]; reflexivity.
  - intros Hcs.
    destruct (step_observed (run_calls (__init__ pw cw tw ms) cs)
                action user_response changes duration_ms next_observation
                (run_calls_after_reset cs (__init__ pw cw tw ms) Hcs))
      as (r & s' & E & _).
    eauto.
Qed.

Lemma step_requires_reset_witness :
  (step (run_calls default_environment
           [CallStep sample_action REJECTED None None None])
     sample_action ACCEPTED None (Some 2000) None
   = (Raise (ValueError "Environment not reset. Call reset() first."),
      run_calls default_environment
        [CallStep sample_action REJECTED None None None]))
  /\ (exists result self',
        step (run_calls default_environment
                [CallReset sample_observation;
                 CallStep sample_action REJECTED None None None])
          sample_action ACCEPTED None (Some 2000) None
        = (Ok result, self')).
Proof.
  split.
  - apply (proj1 (step_requires_reset 1.0 0.5 0.2 5
                    [CallStep sample_action REJECTED None None None]
                    sample_action ACCEPTED None (Some 2000) None)).
    reflexivity.
  - apply (proj2 (step_requires_reset 1.0 0.5 0.2 5
                    [CallReset sample_observation;
                     CallStep sample_action REJECTED None None None]
                    sample_action ACCEPTED None (Some 2000) None)).
    reflexivity.
Defined.

End EnvironmentProofs.

(* ===================================================================== *)
(** ** Properties of the synthetic preference generator *)
(* ===================================================================== *)

Module GeneratorProofs.
Import Py PyFacts Generator.
Local Open Scope Q_scope.

(** *** The strategies *)

Lemma cross_pairs_spec (mk : IntentRule -> IntentRule -> PreferencePair)
    (preferred_rules rejected_rules : list IntentRule) (p : PreferencePair) :
  In p (cross_pairs mk preferred_rules rejected_rules) <->
  exists a b,
    In a preferred_rules /\ In b rejected_rules
    /\ rule_id a <> rule_id b /\ p = mk a b.
Proof.
  unfold cross_pairs. rewrite List.in_flat_map. split.
  - intros (a & Ha & Hp). apply List.in_flat_map in Hp.
    destruct Hp as (b & Hb & Hp).
    destruct (String.eqb_spec (rule_id a) (rule_id b)) as [E | N];
      simpl in Hp; [contradiction |].
    destruct Hp as [<- | []]. eauto 6.
  - intros (a & b & Ha & Hb & N & ->). exists a. split; [exact Ha |].
    apply List.in_flat_map. exists b. split; [exact Hb |].
    destruct (String.eqb_spec (rule_id a) (rule_id b)) as [E | _];
      [contradiction | left; reflexivity].
Qed.

Lemma cross_pairs_emitted (self : SyntheticPreferenceGenerator)
    (src : string) (w : Q) (ctx : option pydict)
    (grp : option string * option string * option string)
    (preferred_rules rejected_rules : list IntentRule) :
  (In src plain_sources /\ w = synthetic_weight self)
  \/ (src = "constitutional"%string /\ w = synthetic_weight self * 1.2) ->
  Forall (emitted self)
    (cross_pairs (make_pair src w ctx grp) preferred_rules rejected_rules).
Proof.
  intros Hsrc. apply List.Forall_forall. intros p Hp.
  apply cross_pairs_spec in Hp. destruct Hp as (a & b & _ & _ & N & ->).
  unfold emitted. simpl. auto.
Qed.

Ltac plain_source :=
  left; split; [unfold plain_sources; simpl; tauto | reflexivity].

Lemma confidence_pairs_emitted self rules ctx key :
  Forall (emitted self) (_generate_confidence_pairs self rules ctx key).
Proof. apply cross_pairs_emitted. plain_source. Qed.

Lemma quality_pairs_emitted self rules ctx key pairs :
  _generate_quality_pairs self rules ctx key = Ok pairs ->
  Forall (emitted self) pairs.
Proof.
  unfold _generate_quality_pairs, rbind.
  destruct (sort_rules _ rules [] []); [| discriminate].
  intros E. injection E as <-. apply cross_pairs_emitted. plain_source.
Qed.

Lemma completeness_pairs_emitted self rules ctx key pairs :
  _generate_completeness_pairs self rules ctx key = Ok pairs ->
  Forall (emitted self) pairs.
Proof.
  unfold _generate_completeness_pairs, rbind.
  destruct (sort_rules _ rules [] []); [| discriminate].
  intros E. injection E as <-. apply cross_pairs_emitted. plain_source.
Qed.

Lemma novelty_pairs_emitted self rules ctx key pairs :
  _generate_novelty_pairs self rules ctx key = Ok pairs ->
  Forall (emitted self) pairs.
Proof.
  unfold _generate_novelty_pairs, rbind.
  destruct (sort_rules _ rules [] []); [| discriminate].
  intros E. injection E as <-. apply cross_pairs_emitted. plain_source.
Qed.

Lemma frequency_pairs_emitted self rules ctx key pairs :
  _generate_frequency_pairs self rules ctx key = Ok pairs ->
  Forall (emitted self) pairs.
Proof.
  unfold _generate_frequency_pairs, rbind.
  destruct (sort_rules _ rules [] []); [| discriminate].
  intros E. injection E as <-. apply cross_pairs_emitted. plain_source.
Qed.

Lemma constitutional_pairs_emitted self rules ctx key pairs :
  _generate_constitutional_pairs self rules ctx key = Ok pairs ->
  Forall (emitted self) pairs.
Proof.
  unfold _generate_constitutional_pairs, rbind.
  destruct (sort_rules _ rules [] []); [| discriminate].
  intros E. injection E as <-. apply cross_pairs_emitted.
  right. split; reflexivity.
Qed.

Lemma extend_if_emitted self strategies name strategy pairs pairs' :
  (forall more, strategy = Ok more -> Forall (emitted self) more) ->
  Forall (emitted self) pairs ->
  extend_if strategies name strategy pairs = Ok pairs' ->
  Forall (emitted self) pairs'.
Proof.
  intros Hs Hp. unfold extend_if, rbind.
  destruct (str_in name strategies).
  - destruct strategy as [more | e]; [| discriminate].
    intros E. injection E as <-. apply List.Forall_app. split; auto.
  - intros E. injection E as <-. exact Hp.
Qed.

Lemma group_pairs_emitted self ctx strategies key rules pairs :
  group_pairs self ctx strategies key rules = Ok pairs ->
  Forall (emitted self) pairs.
Proof.
  unfold group_pairs. unfold rbind at 1 2 3 4 5.
  destruct (extend_if strategies "confidence" _ []) as [p1 |] eqn:E1;
    [| discriminate].
  destruct (extend_if strategies "quality" _ p1) as [p2 |] eqn:E2;
    [| discriminate].
  destruct (extend_if strategies "completeness" _ p2) as [p3 |] eqn:E3;
    [| discriminate].
  destruct (extend_if strategies "novelty" _ p3) as [p4 |] eqn:E4;
    [| discriminate].
  destruct (extend_if strategies "frequency" _ p4) as [p5 |] eqn:E5;
    [| discriminate].
  intros E6.
  assert (H1 : Forall (emitted self) p1).
  { apply (extend_if_emitted self _ _ _ _ _) with (3 := E1);
      [| constructor].
    intros more Em. injection Em as <-. apply confidence_pairs_emitted. }
  assert (H2 : Forall (emitted self) p2).
  { apply (extend_if_emitted self _ _ _ _ _) with (3 := E2); [| exact H1].
    intros more. apply quality_pairs_emitted. }
  assert (H3 : Forall (emitted self) p3).
  { apply (extend_if_emitted self _ _ _ _ _) with (3 := E3); [| exact H2].
    intros more. apply completeness_pairs_emitted. }
  assert (H4 : Forall (emitted self) p4).
  { apply (extend_if_emitted self _ _ _ _ _) with (3 := E4); [| exact H3].
    intros more. apply novelty_pairs_emitted. }
  assert (H5 : Forall (emitted self) p5).
  { apply (extend_if_emitted self _ _ _ _ _) with (3 := E5); [| exact H4].
    intros more. apply frequency_pairs_emitted. }
  apply (extend_if_emitted self _ _ _ _ _) with (3 := E6); [| exact H5].
  intros more. apply constitutional_pairs_emitted.
Qed.

Lemma collect_pairs_emitted self ctx strategies groups :
  forall all_pairs out,
    Forall (emitted self) all_pairs ->
    collect_pairs self ctx strategies groups all_pairs = Ok out ->
    Forall (emitted self) out.
Proof.
  induction groups as [| [key rules] rest IH]; intros all_pairs out Hall.
  - simpl. intros E. injection E as <-. exact Hall.
  - simpl. destruct (length rules <? 2)%nat.
    + apply IH. exact Hall.
    + unfold rbind.
      destruct (group_pairs self ctx strategies key rules) as [pairs |] eqn:Eg;
        [| discriminate].
      apply IH. apply List.Forall_app. split; [exact Hall |].
      apply (group_pairs_emitted _ _ _ _ _ _ Eg).
Qed.

(** *** Deduplication *)

Lemma first_with_key_app key (l1 l2 : list PreferencePair) :
  first_with_key key (l1 ++ l2)
  = match first_with_key key l1 with
    | Some p => Some p
    | None => first_with_key key l2
    end.
Proof.
  unfold first_with_key. induction l1 as [| q l1 IH]; simpl.
  - reflexivity.
  - destruct (bool_decide (pair_key q = key)); [reflexivity | exact IH].
Qed.

Lemma first_with_key_absent key (l : list PreferencePair) :
  ~ In key (map pair_key l) -> first_with_key key l = None.
Proof.
  unfold first_with_key. induction l as [| q l IH]; simpl; intros H.
  - reflexivity.
  - destruct (bool_decide_reflect (pair_key q = key)) as [E | N].
    + exfalso. apply H. left. exact E.
    + apply IH. intros Hin. apply H. right. exact Hin.
Qed.

(** The loop invariant of [_deduplicate_pairs], after the pairs [pairs]
    have been visited. *)
Lemma dedup_invariant (pairs : list PreferencePair) :
  let st := fold_left dedup_step pairs (∅, []) in
  (forall k, k ∈ fst st <-> In k (map pair_key pairs))
  /\ (forall k, In k (map pair_key (snd st)) <-> In k (map pair_key pairs))
  /\ NoDup (map pair_key (snd st))
  /\ (forall p, In p (snd st) -> first_with_key (pair_key p) pairs = Some p)
  /\ sublist (snd st) pairs.
Proof.
  induction pairs as [| x pairs IH] using rev_ind; cbv zeta.
  - simpl. split; [intros k; set_solver |].
    split; [tauto |]. split; [constructor |].
    split; [intros p [] | constructor].
  - rewrite fold_left_app. simpl.
    destruct (fold_left dedup_step pairs (∅, [])) as [seen uniq].
    simpl in IH. destruct IH as (Hseen & Hkeys & Hnd & Hfirst & Hsub).
    unfold dedup_step. simpl.
    destruct (decide (pair_key x ∈ seen)) as [Hin | Hout]; simpl.
    + assert (Hx : In (pair_key x) (map pair_key pairs))
        by (apply Hseen; exact Hin).
      split.
      { intros k. rewrite map_app, List.in_app_iff, Hseen. simpl.
        split; [auto | intros [H | [<- | []]]; auto]. }
      split.
      { intros k. rewrite map_app, List.in_app_iff, Hkeys. simpl.
        split; [auto | intros [H | [<- | []]]; auto]. }
      split; [exact Hnd |].
      split.
      { intros p Hp. rewrite first_with_key_app, (Hfirst p Hp).
        reflexivity. }
      apply sublist_inserts_r. exact Hsub.
    + assert (Hx : ~ In (pair_key x) (map pair_key pairs))
        by (intros H; apply Hout, Hseen; exact H).
      split.
      { intros k. rewrite map_app, List.in_app_iff, elem_of_union,
          elem_of_singleton, Hseen. simpl.
        split; [intros [-> | H]; auto | intros [H | [<- | []]]; auto]. }
      split.
      { intros k. rewrite !map_app, !List.in_app_iff, Hkeys. reflexivity. }
      split.
      { rewrite map_app. apply NoDup_app. split; [exact Hnd |].
        split; [| apply NoDup_singleton].
        intros k Hk Hk'. apply list_elem_of_In in Hk.
        apply list_elem_of_singleton in Hk'. subst k.
        apply Hx, Hkeys, Hk. }
      split.
      { intros p Hp. apply List.in_app_iff in Hp.
        rewrite first_with_key_app. destruct Hp as [Hp | [<- | []]].
        - rewrite (Hfirst p Hp). reflexivity.
        - rewrite (first_with_key_absent _ _ Hx).
          unfold first_with_key. simpl.
          rewrite bool_decide_eq_true_2 by reflexivity. reflexivity. }
      apply sublist_app; [exact Hsub | reflexivity].
Qed.

Lemma deduplicate_sublist (pairs : list PreferencePair) :
  sublist (_deduplicate_pairs pairs) pairs.
Proof. apply dedup_invariant. Qed.

Lemma deduplicate_In (pairs : list PreferencePair) (p : PreferencePair) :
  In p (_deduplicate_pairs pairs) -> In p pairs.
Proof.
  intros H. apply list_elem_of_In.
  apply (sublist_subseteq _ _ (deduplicate_sublist pairs)).
  apply list_elem_of_In. exact H.
Qed.

(** *** The run of [generate_preferences] *)

Lemma generate_preferences_inv self rules ctx strategies st out st' :
  generate_preferences self rules ctx strategies st = (Ok out, st') ->
  exists classified all_pairs,
    _classify_rules self rules st = (Ok classified, st')
    /\ collect_pairs self ctx
         (match strategies with
          | None => default_strategies
          | Some s => s
          end) classified []
       = Ok all_pairs
    /\ out = _deduplicate_pairs all_pairs.
Proof.
  unfold generate_preferences, Classifier.bind, Classifier.lift,
    Classifier.ret.
  destruct (_classify_rules self rules st) as [[classified | e] st1];
    [| discriminate].
  destruct (collect_pairs self ctx _ classified []) as [all_pairs | e]
    eqn:Ec; [| discriminate].
  intros E. injection E as <- <-.
  exists classified, all_pairs.
  split; [reflexivity |]. split; [exact Ec | reflexivity].
Qed.

Lemma generate_preferences_emitted self rules ctx strategies st out st' :
  generate_preferences self rules ctx strategies st = (Ok out, st') ->
  Forall (emitted self) out.
Proof.
  intros H. apply generate_preferences_inv in H.
  destruct H as (classified & all_pairs & _ & Hc & ->).
  apply List.Forall_forall. intros p Hp. apply deduplicate_In in Hp.
  assert (Hall : Forall (emitted self) all_pairs).
  { apply (collect_pairs_emitted _ _ _ _ [] all_pairs) with (2 := Hc).
    constructor. }
  apply (proj1 (List.Forall_forall _ _) Hall p Hp).
Qed.

(** *** The classifier is only read *)

Lemma read_only_ret {A} (a : A) : Classifier.read_only (Classifier.ret a).
Proof. intros self. reflexivity. Qed.

Lemma read_only_lift {A} (r : res A) :
  Classifier.read_only (Classifier.lift r).
Proof. intros self. reflexivity. Qed.

Lemma read_only_bind {A B} (m : Classifier.M A) (k : A -> Classifier.M B) :
  Classifier.read_only m -> (forall a, Classifier.read_only (k a)) ->
  Classifier.read_only (Classifier.bind m k).
Proof.
  intros Hm Hk self. unfold Classifier.bind. specialize (Hm self).
  destruct (m self) as [[a | e] self1]; simpl in Hm; subst self1.
  - apply Hk.
  - reflexivity.
Qed.

Lemma read_only_classify_dimension description scope explicit platform :
  Classifier.read_only
    (Classifier.classify_dimension description scope explicit platform).
Proof.
  intros self.
  destruct (ClassifierProofs.classify_dimension_never_tracks
              Classifier._track_performance description scope explicit
              platform self) as [result E].
  unfold Classifier.classify_dimension. rewrite E. reflexivity.
Qed.

Lemma read_only_classify_design_dimension rule :
  Classifier.read_only (_classify_design_dimension rule).
Proof.
  unfold _classify_design_dimension.
  apply read_only_bind; [apply read_only_lift |]. intros platform.
  apply read_only_bind; [apply read_only_classify_dimension |].
  intros result. apply read_only_ret.
Qed.

Lemma read_only_classify_rules_loop self rules :
  forall groups, Classifier.read_only (classify_rules_loop self rules groups).
Proof.
  induction rules as [| rule rest IH]; intros groups; simpl.
  - apply read_only_ret.
  - apply read_only_bind; [apply read_only_classify_design_dimension |].
    intros dimension.
    apply read_only_bind; [apply read_only_lift |]. intros platform.
    apply IH.
Qed.

Lemma read_only_generate_preferences self rules ctx strategies :
  Classifier.read_only (generate_preferences self rules ctx strategies).
Proof.
  unfold generate_preferences.
  apply read_only_bind; [apply read_only_classify_rules_loop |].
  intros classified.
  apply read_only_bind; [apply read_only_lift |]. intros all_pairs.
  apply read_only_ret.
Qed.

(** *** Well-typed rules never raise *)

Lemma get_default_number (tm : pydict) (default : Q) :
  match dict_get tm "novelty_score" with
  | Some v => match as_number v with Some _ => true | None => false end
  | None => true
  end = true ->
  exists n, as_number (get_default tm "novelty_score" (VNum default)) = Some n.
Proof.
  unfold get_default. destruct (dict_get tm "novelty_score") as [v |].
  - destruct (as_number v) as [n |]; [eauto | discriminate].
  - simpl. eauto.
Qed.

Lemma get_default_not_number (tm : pydict) (default : Q) :
  match dict_get tm "novelty_score" with
  | Some v => match as_number v with Some _ => true | None => false end
  | None => true
  end = false ->
  as_number (get_default tm "novelty_score" (VNum default)) = None.
Proof.
  unfold get_default. destruct (dict_get tm "novelty_score") as [v |].
  - destruct (as_number v) as [n |]; [discriminate | reflexivity].
  - discriminate.
Qed.


Lemma dict_get_Forall {V} (P : V -> Prop) (d : list (string * V))
    (k : string) (v : V) :
  Forall (fun kv => P (snd kv)) d -> dict_get d k = Some v -> P v.
Proof.
  induction 1 as [| [k' v'] rest Hv _ IH]; simpl; [discriminate |].
  destruct (String.eqb k' k); [| exact IH].
  intros E. injection E as <-. exact Hv.
Qed.

Lemma dict_set_Forall {V} (P : V -> Prop) (d : list (string * V))
    (k : string) (v : V) :
  Forall (fun kv => P (snd kv)) d -> P v ->
  Forall (fun kv => P (snd kv)) (dict_set d k v).
Proof.
  intros Hd Hv. induction Hd as [| [k' v'] rest Hv' Hrest IH]; simpl.
  - constructor; [exact Hv | constructor].
  - destruct (String.eqb k' k); constructor; assumption.
Qed.

Lemma groups_append_Forall (P : IntentRule -> Prop)
    (groups : list (string * list IntentRule)) (key : string)
    (rule : IntentRule) :
  Forall (fun g => Forall P (snd g)) groups -> P rule ->
  Forall (fun g => Forall P (snd g)) (groups_append groups key rule).
Proof.
  intros Hg Hr. unfold groups_append, dd_getitem.
  destruct (dict_get groups key) as [members |] eqn:E.
  - apply (dict_set_Forall (Forall P)); [exact Hg |].
    apply List.Forall_app. split.
    + apply (dict_get_Forall (Forall P) _ _ _ Hg E).
    + constructor; [exact Hr | constructor].
  - apply (dict_set_Forall (Forall P)).
    + apply (dict_set_Forall (Forall P)); [exact Hg | constructor].
    + constructor; [exact Hr | constructor].
Qed.

Lemma classify_platform_returns rule :
  well_typed_rule rule = true -> exists p, _classify_platform rule = Ok p.
Proof.
  unfold well_typed_rule, _classify_platform. intros H.
  apply andb_prop in H. destruct H as [H _].
  apply andb_prop in H. destruct H as [H _].
  destruct (platform_context rule) as [[| kv pc] |]; eauto.
  unfold get, get_default.
  destruct (dict_get (kv :: pc) "platform") as [v |]; [| simpl; eauto].
  destruct v as [| b | q | s | l | d |]; cbn [truthy] in *.
  - eauto.
  - destruct b; [discriminate | eauto].
  - destruct (negb (Qeqb0 q)); [discriminate | eauto].
  - destruct (negb (String.eqb s "")); eauto.
  - destruct l; [eauto | discriminate].
  - destruct d; [eauto | discriminate].
  - discriminate.
Qed.

Lemma sort_rules_returns (test : IntentRule -> res side) rules :
  Forall (fun r => exists s, test r = Ok s) rules ->
  forall a b, exists sorted, sort_rules test rules a b = Ok sorted.
Proof.
  induction 1 as [| r rest [s Es] _ IH]; intros a b; simpl.
  - eauto.
  - rewrite Es. simpl. destruct s; apply IH.
Qed.

Lemma quality_score_returns self rule :
  well_typed_rule rule = true ->
  exists q, _compute_quality_score self rule = Ok q.
Proof.
  unfold well_typed_rule, novelty_score_is_number, _compute_quality_score.
  intros H. apply andb_prop in H. destruct H as [H _].
  apply andb_prop in H. destruct H as [_ H].
  destruct (training_metadata rule) as [[| kv tm] |]; eauto.
  destruct (get_default_number (kv :: tm) 0 H) as [n En].
  destruct (get_default (kv :: tm) "novelty_score" (VNum 0)) eqn:Ev;
    try discriminate En; cbn [as_number]; eauto.
Qed.

Lemma novelty_test_returns rule :
  well_typed_rule rule = true ->
  exists s,
    match training_metadata rule with
    | Some ((_ :: _) as tm) =>
        match get_default tm "novelty_score" (VNum 0.5) with
        | VNaN => Ok Neither
        | novelty_score =>
            match as_number novelty_score with
            | Some novelty =>
                Ok (if Qle_bool 0.7 novelty then Preferred
                    else if Qle_bool novelty 0.3 then Rejected
                    else Neither)
            | None => Raise TypeError
            end
        end
    | _ => Ok Neither
    end = Ok s.
Proof.
  unfold well_typed_rule, novelty_score_is_number.
  intros H. apply andb_prop in H. destruct H as [H _].
  apply andb_prop in H. destruct H as [_ H].
  destruct (training_metadata rule) as [[| kv tm] |]; eauto.
  destruct (get_default_number (kv :: tm) 0.5 H) as [n En].
  destruct (get_default (kv :: tm) "novelty_score" (VNum 0.5)) eqn:Ev;
    try discriminate En; cbn [as_number]; eauto.
Qed.

Lemma constitutional_score_returns rule :
  well_typed_rule rule = true ->
  exists q, _compute_constitutional_score rule = Ok q.
Proof.
  unfold well_typed_rule, _compute_constitutional_score.
  intros H. apply andb_prop in H. destruct H as [_ H].
  destruct (training_metadata rule) as [[| kv tm] |]; simpl; eauto.
  unfold get_default.
  destruct (dict_get (kv :: tm) "constitutional_signals") as [v |];
    [| simpl; eauto].
  destruct v; simpl in *; eauto;
    try (apply negb_true_iff in H; rewrite H; simpl; eauto).
  - destruct (negb (String.eqb s "")); simpl; eauto.
  - destruct l; simpl; eauto.
  - destruct d; simpl; eauto.
  - discriminate H.
Qed.

Lemma group_pairs_returns self ctx strategies key rules :
  Forall (fun r => well_typed_rule r = true) rules ->
  exists pairs, group_pairs self ctx strategies key rules = Ok pairs.
Proof.
  intros Hwt.
  assert (Hq : exists ps, _generate_quality_pairs self rules ctx (Some key)
                          = Ok ps).
  { unfold _generate_quality_pairs.
    destruct (sort_rules_returns
                (fun rule =>
                   try quality_score := _compute_quality_score self rule in
                   Ok (if PrimFloat.leb 0.8%float quality_score
                       then Preferred
                       else if PrimFloat.leb quality_score 0.5%float
                       then Rejected
                       else Neither)) rules) with (a := @nil IntentRule)
      (b := @nil IntentRule) as [sorted Es].
    - apply (Forall_impl _ _ _ Hwt). intros r Hr.
      destruct (quality_score_returns self r Hr) as [q Eq].
      rewrite Eq. simpl. eauto.
    - rewrite Es. simpl. eauto. }
  assert (Hc : exists ps, _generate_completeness_pairs self rules ctx
                            (Some key) = Ok ps).
  { unfold _generate_completeness_pairs.
    destruct (sort_rules_returns
                (fun rule =>
                   Ok (if _is_complete rule then Preferred else Rejected))
                rules) with (a := @nil IntentRule) (b := @nil IntentRule)
      as [sorted Es].
    - apply (Forall_impl _ _ _ Hwt). intros r Hr. eauto.
    - rewrite Es. simpl. eauto. }
  assert (Hn : exists ps, _generate_novelty_pairs self rules ctx (Some key)
                          = Ok ps).
  { unfold _generate_novelty_pairs.
    match goal with
    | |- context [sort_rules ?t rules [] []] =>
        destruct (sort_rules_returns t rules) with (a := @nil IntentRule)
          (b := @nil IntentRule) as [sorted Es]
    end.
    - apply (Forall_impl _ _ _ Hwt). intros r Hr.
      apply novelty_test_returns. exact Hr.
    - rewrite Es. simpl. eauto. }
  assert (Hf : exists ps, _generate_frequency_pairs self rules ctx (Some key)
                          = Ok ps).
  { unfold _generate_frequency_pairs.
    match goal with
    | |- context [sort_rules ?t rules [] []] =>
        destruct (sort_rules_returns t rules) with (a := @nil IntentRule)
          (b := @nil IntentRule) as [sorted Es]
    end.
    - apply (Forall_impl _ _ _ Hwt). intros r Hr.
      destruct (training_metadata r) as [[| kv tm] |]; eauto.
    - rewrite Es. simpl. eauto. }
  assert (Hk : exists ps, _generate_constitutional_pairs self rules ctx
                            (Some key) = Ok ps).
  { unfold _generate_constitutional_pairs.
    match goal with
    | |- context [sort_rules ?t rules [] []] =>
        destruct (sort_rules_returns t rules) with (a := @nil IntentRule)
          (b := @nil IntentRule) as [sorted Es]
    end.
    - apply (Forall_impl _ _ _ Hwt). intros r Hr.
      destruct (constitutional_score_returns r Hr) as [q Eq].
      rewrite Eq. simpl. eauto.
    - rewrite Es. simpl. eauto. }
  destruct Hq as [pq Eq], Hc as [pc Ec], Hn as [pn En], Hf as [pf Ef],
    Hk as [pk Ek].
  unfold group_pairs, extend_if. rewrite Eq, Ec, En, Ef, Ek.
  destruct (str_in "confidence" strategies),
    (str_in "quality" strategies), (str_in "completeness" strategies),
    (str_in "novelty" strategies), (str_in "frequency" strategies),
    (str_in "constitutional" strategies); simpl; eauto.
Qed.

Lemma collect_pairs_returns self ctx strategies groups :
  Forall (fun g => Forall (fun r => well_typed_rule r = true) (snd g))
    groups ->
  forall all_pairs,
    exists out,
      collect_pairs self ctx strategies groups all_pairs = Ok out.
Proof.
  induction 1 as [| [key rules] rest Hg _ IH]; intros all_pairs; simpl.
  - eauto.
  - destruct (length rules <? 2)%nat; [apply IH |].
    destruct (group_pairs_returns self ctx strategies key rules Hg)
      as [pairs Ep].
    rewrite Ep. simpl. apply IH.
Qed.

Lemma classify_rules_loop_returns self rules :
  Forall (fun r => well_typed_rule r = true) rules ->
  forall groups st,
    Forall (fun g => Forall (fun r => well_typed_rule r = true) (snd g))
      groups ->
    exists groups',
      classify_rules_loop self rules groups st = (Ok groups', st)
      /\ Forall (fun g => Forall (fun r => well_typed_rule r = true) (snd g))
           groups'.
Proof.
  induction 1 as [| rule rest Hr _ IH]; intros groups st Hg; simpl.
  - exists groups. split; [reflexivity | exact Hg].
  - destruct (classify_platform_returns rule Hr) as [p Ep].
    unfold _classify_design_dimension, Classifier.bind, Classifier.lift,
      Classifier.ret.
    rewrite Ep.
    match goal with
    | |- context [Classifier.classify_dimension ?d ?sc ?e ?pl st] =>
        destruct (ClassifierProofs.classify_dimension_never_tracks
                    Classifier._track_performance d sc e pl st)
          as [result Er];
        unfold Classifier.classify_dimension; rewrite Er
    end.
    apply IH. apply groups_append_Forall; assumption.
Qed.

(** On well-typed rules [generate_preferences] returns a list of pairs and
    leaves the classifier unchanged. *)
Lemma generate_preferences_returns self rules ctx strategies st :
  Forall (fun r => well_typed_rule r = true) rules ->
  exists out, generate_preferences self rules ctx strategies st = (Ok out, st).
Proof.
  intros Hwt. unfold generate_preferences, _classify_rules.
  destruct (classify_rules_loop_returns self rules Hwt [] st (Forall_nil_2 _))
    as (groups & Eg & Hg).
  unfold Classifier.bind at 1. rewrite Eg.
  destruct (collect_pairs_returns self ctx
              (match strategies with
               | None => default_strategies
               | Some s => s
               end) groups Hg []) as [all_pairs Ea].
  unfold Classifier.bind, Classifier.lift, Classifier.ret. rewrite Ea.
  eauto.
Qed.

(** *** The claims *)

(** C3. Whatever the rules, the trace context and the strategies, no pair
    returned by [generate_preferences] prefers a rule over a rule with the
    same [rule_id]. *)
Theorem no_pair_against_same_rule_id self rules ctx strategies st out st' :
  generate_preferences self rules ctx strategies st = (Ok out, st') ->
  forall p, In p out -> rule_id (preferred p) <> rule_id (rejected p).
Proof.
  intros H p Hp. apply generate_preferences_emitted in H.
  apply (proj1 (List.Forall_forall _ _) H p Hp).
Qed.

(** With overlapping thresholds both rules are high and low at once; the
    guard leaves the two pairs of distinct rules. *)
Lemma no_pair_against_same_rule_id_witness :
  rule_id (preferred
             (sample_pair "confidence" 0.3 (middling_rule "m1" 0.5)
                (middling_rule "m2" 0.6)))
  <> rule_id (rejected
                (sample_pair "confidence" 0.3 (middling_rule "m1" 0.5)
                   (middling_rule "m2" 0.6))).
Proof.
  apply (no_pair_against_same_rule_id overlapping_generator
           [middling_rule "m1" 0.5; middling_rule "m2" 0.6] None
           (Some ["confidence"%string]) Classifier.__init__
           [sample_pair "confidence" 0.3 (middling_rule "m1" 0.5)
              (middling_rule "m2" 0.6);
            sample_pair "confidence" 0.3 (middling_rule "m2" 0.6)
              (middling_rule "m1" 0.5)]
           Classifier.__init__).
  - vm_compute. reflexivity.
  - left. reflexivity.
Defined.

Lemma first_with_key_split key (l : list PreferencePair) p :
  first_with_key key l = Some p ->
  exists before after,
    l = before ++ p :: after
    /\ pair_key p = key
    /\ forall q, In q before -> pair_key q <> key.
Proof.
  unfold first_with_key. induction l as [| x l IH]; simpl; [discriminate |].
  destruct (bool_decide_reflect (pair_key x = key)) as [E | N].
  - intros H. injection H as <-. exists [], l.
    split; [reflexivity |]. split; [exact E | intros q []].
  - intros H. destruct (IH H) as (before & after & -> & Hp & Hb).
    exists (x :: before), after. split; [reflexivity |].
    split; [exact Hp |]. intros q [<- | Hq]; [exact N | exact (Hb q Hq)].
Qed.

(** C4. In the list returned by [generate_preferences] no two pairs have
    the same preferred rule id together with the same rejected rule id;
    two pairs that differ in either id, or that swap the two, are both
    kept. The pair kept for the two ids is the first pair with them in
    [all_pairs], the list in generation order across groups and
    strategies: no pair before it in that list has both ids, so later
    pairs with the same ids, also from other strategies, are dropped.
    Every pair of [all_pairs] has a kept pair with its two ids, and the
    order of generation is preserved. *)
Theorem deduplication_keeps_first_pair self rules ctx strategies st out st' :
  generate_preferences self rules ctx strategies st = (Ok out, st') ->
  exists classified all_pairs,
    _classify_rules self rules st = (Ok classified, st')
    /\ collect_pairs self ctx
         (match strategies with
          | None => default_strategies
          | Some s => s
          end) classified []
       = Ok all_pairs
    /\ NoDup (map (fun p => (rule_id (preferred p), rule_id (rejected p)))
                out)
    /\ (forall p,
          In p out ->
          exists before after,
            all_pairs = before ++ p :: after
            /\ forall q,
                 In q before ->
                 ~ (rule_id (preferred q) = rule_id (preferred p)
                    /\ rule_id (rejected q) = rule_id (rejected p)))
    /\ (forall q,
          In q all_pairs ->
          exists p,
            In p out
            /\ rule_id (preferred p) = rule_id (preferred q)
            /\ rule_id (rejected p) = rule_id (rejected q))
    /\ sublist out all_pairs.
Proof.
  intros H. apply generate_preferences_inv in H.
  destruct H as (classified & all_pairs & Hc & Hp & ->).
  exists classified, all_pairs.
  destruct (dedup_invariant all_pairs) as (_ & Hkeys & Hnd & Hfirst & Hsub).
  split; [exact Hc |]. split; [exact Hp |]. split; [exact Hnd |].
  split; [| split; [| exact Hsub]].
  - intros p Hin. apply Hfirst in Hin.
    apply first_with_key_split in Hin.
    destruct Hin as (before & after & E & _ & Hb).
    exists before, after. split; [exact E |].
    intros q Hq [E1 E2]. apply (Hb q Hq). unfold pair_key.
    rewrite E1, E2. reflexivity.
  - intros q Hq.
    assert (Hk : In (pair_key q) (map pair_key (_deduplicate_pairs all_pairs)))
      by (apply Hkeys; apply List.in_map; exact Hq).
    apply in_map_iff in Hk. destruct Hk as (p & E & Hin).
    exists p. split; [exact Hin |]. unfold pair_key in E.
    injection E as E1 E2. auto.
Qed.

(** The confidence strategy pairs [test_rule_1] with [test_rule_2] and
    with a third rule, and the novelty strategy pairs it with
    [test_rule_2] again: the two confidence pairs are kept, which share
    the preferred rule, and the novelty pair is dropped. *)
Lemma deduplication_keeps_first_pair_witness :
  exists classified all_pairs,
    _classify_rules (ungrouped_generator 0.3)
      [test_rule_1; test_rule_2; middling_rule "m3" 0.3]
      Classifier.__init__
    = (Ok classified, Classifier.__init__)
    /\ collect_pairs (ungrouped_generator 0.3) None
         ["confidence"; "novelty"]%string classified []
       = Ok all_pairs
    /\ NoDup
         (map (fun p => (rule_id (preferred p), rule_id (rejected p)))
            [sample_pair "confidence" 0.3 test_rule_1 test_rule_2;
             sample_pair "confidence" 0.3 test_rule_1
               (middling_rule "m3" 0.3)])
    /\ (forall p,
          In p [sample_pair "confidence" 0.3 test_rule_1 test_rule_2;
                sample_pair "confidence" 0.3 test_rule_1
                  (middling_rule "m3" 0.3)] ->
          exists before after,
            all_pairs = before ++ p :: after
            /\ forall q,
                 In q before ->
                 ~ (rule_id (preferred q) = rule_id (preferred p)
                    /\ rule_id (rejected q) = rule_id (rejected p)))
    /\ (forall q,
          In q all_pairs ->
          exists p,
            In p [sample_pair "confidence" 0.3 test_rule_1 test_rule_2;
                  sample_pair "confidence" 0.3 test_rule_1
                    (middling_rule "m3" 0.3)]
            /\ rule_id (preferred p) = rule_id (preferred q)
            /\ rule_id (rejected p) = rule_id (rejected q))
    /\ sublist
         [sample_pair "confidence" 0.3 test_rule_1 test_rule_2;
          sample_pair "confidence" 0.3 test_rule_1
            (middling_rule "m3" 0.3)]
         all_pairs.
Proof.
  apply (deduplication_keeps_first_pair (ungrouped_generator 0.3)
           [test_rule_1; test_rule_2; middling_rule "m3" 0.3] None
           (Some ["confidence"; "novelty"]%string) Classifier.__init__
           [sample_pair "confidence" 0.3 test_rule_1 test_rule_2;
            sample_pair "confidence" 0.3 test_rule_1
              (middling_rule "m3" 0.3)]
           Classifier.__init__).
  vm_compute. reflexivity.
Defined.

(** C5, as stated, fails: with [synthetic_weight] 0.9 the constitutional
    pair of [refined_rule] over [test_rule_2] carries the weight 1.08. *)
Lemma weight_in_unit_interval_counterexample :
  generate_preferences (ungrouped_generator 0.9) [refined_rule; test_rule_2]
    None (Some ["constitutional"%string]) Classifier.__init__
  = (Ok [sample_pair "constitutional" (0.9 * 1.2) refined_rule test_rule_2],
     Classifier.__init__)
  /\ weight (sample_pair "constitutional" (0.9 * 1.2) refined_rule
               test_rule_2)
     == 1.08
  /\ ~ (weight (sample_pair "constitutional" (0.9 * 1.2) refined_rule
                  test_rule_2)
        <= 1).
Proof.
  split; [vm_compute; reflexivity |].
  split; [reflexivity |].
  intros H. vm_compute in H. apply H. reflexivity.
Qed.

(** C5, amended. Every pair returned by [generate_preferences] is flagged
    synthetic; a pair of the confidence, quality, completeness, novelty or
    frequency strategy carries exactly the configured [synthetic_weight], a
    constitutional pair exactly [synthetic_weight * 1.2]. The weight is not
    clamped: it lies in [0, 1] for the five plain strategies when
    [synthetic_weight] does, and for every pair when [synthetic_weight] lies
    in [0, 5/6]. *)
Theorem emitted_pairs_synthetic_and_weighted
    self rules ctx strategies st out st' :
  generate_preferences self rules ctx strategies st = (Ok out, st') ->
  forall p, In p out ->
    synthetic p = true
    /\ ((In (source p) plain_sources /\ weight p = synthetic_weight self)
        \/ (source p = "constitutional"%string
            /\ weight p = synthetic_weight self * 1.2))
    /\ (0 <= synthetic_weight self -> synthetic_weight self <= 1 ->
        source p <> "constitutional"%string ->
        0 <= weight p /\ weight p <= 1)
    /\ (0 <= synthetic_weight self -> synthetic_weight self <= 5 # 6 ->
        0 <= weight p /\ weight p <= 1).
Proof.
  intros H p Hp. apply generate_preferences_emitted in H.
  destruct (proj1 (List.Forall_forall _ _) H p Hp) as (_ & Hs & Hw).
  split; [exact Hs |]. split; [exact Hw |]. split.
  - intros H0 H1 Hsrc. destruct Hw as [[_ ->] | [Hc _]]; [lra | contradiction].
  - intros H0 H1. destruct Hw as [[_ ->] | [_ ->]]; lra.
Qed.

Lemma emitted_pairs_synthetic_and_weighted_witness :
  synthetic (sample_pair "confidence" 0.3 test_rule_1 test_rule_2) = true
  /\ ((In (source (sample_pair "confidence" 0.3 test_rule_1 test_rule_2))
         plain_sources
       /\ weight (sample_pair "confidence" 0.3 test_rule_1 test_rule_2)
          = synthetic_weight (ungrouped_generator 0.3))
      \/ (source (sample_pair "confidence" 0.3 test_rule_1 test_rule_2)
          = "constitutional"%string
          /\ weight (sample_pair "confidence" 0.3 test_rule_1 test_rule_2)
             = synthetic_weight (ungrouped_generator 0.3) * 1.2))
  /\ (0 <= synthetic_weight (ungrouped_generator 0.3) ->
      synthetic_weight (ungrouped_generator 0.3) <= 1 ->
      source (sample_pair "confidence" 0.3 test_rule_1 test_rule_2)
      <> "constitutional"%string ->
      0 <= weight (sample_pair "confidence" 0.3 test_rule_1 test_rule_2)
      /\ weight (sample_pair "confidence" 0.3 test_rule_1 test_rule_2) <= 1)
  /\ (0 <= synthetic_weight (ungrouped_generator 0.3) ->
      synthetic_weight (ungrouped_generator 0.3) <= 5 # 6 ->
      0 <= weight (sample_pair "confidence" 0.3 test_rule_1 test_rule_2)
      /\ weight (sample_pair "confidence" 0.3 test_rule_1 test_rule_2) <= 1).
Proof.
  apply (emitted_pairs_synthetic_and_weighted (ungrouped_generator 0.3)
           [test_rule_1; test_rule_2] None (Some ["confidence"%string])
           Classifier.__init__
           [sample_pair "confidence" 0.3 test_rule_1 test_rule_2]
           Classifier.__init__).
  - vm_compute. reflexivity.
  - left. reflexivity.
Defined.

(** C7. A run of [generate_preferences] leaves the classifier as it found
    it, so a second run with the same rules, trace context, strategies and
    generator returns the same result: the same pairs, hence the same set
    of (preferred id, rejected id, source) triples. *)
Theorem generate_preferences_repeatable self rules ctx strategies st :
  let first_run := generate_preferences self rules ctx strategies st in
  let second_run :=
    generate_preferences self rules ctx strategies (snd first_run) in
  snd first_run = st
  /\ second_run = first_run
  /\ (forall out1 out2,
        fst first_run = Ok out1 -> fst second_run = Ok out2 ->
        forall t,
          In t (map pair_triple out1) <-> In t (map pair_triple out2)).
Proof.
  cbv zeta.
  pose proof (read_only_generate_preferences self rules ctx strategies st)
    as Hst.
  rewrite Hst. split; [reflexivity |]. split; [reflexivity |].
  intros out1 out2 E1 E2. rewrite E1 in E2. injection E2 as <-.
  intros t. reflexivity.
Qed.

Lemma generate_preferences_repeatable_witness :
  In ("test_rule_1", "test_rule_2", "confidence")%string
    (map pair_triple
       [sample_pair "confidence" 0.3 test_rule_1 test_rule_2])
  <-> In ("test_rule_1", "test_rule_2", "confidence")%string
        (map pair_triple
           [sample_pair "confidence" 0.3 test_rule_1 test_rule_2]).
Proof.
  apply (proj2 (proj2 (generate_preferences_repeatable
                         (ungrouped_generator 0.3)
                         [test_rule_1; test_rule_2] None
                         (Some ["confidence"; "novelty"]%string)
                         Classifier.__init__))).
  - vm_compute. reflexivity.
  - vm_compute. reflexivity.
Defined.

(** *** The quality score *)

Ltac case_conditions :=
  repeat match goal with
    | |- context [if ?b then _ else _] => destruct b
    end.

(** C6. The code breaks the claim on a rule whose platform context names
    a data source and no API endpoints. [data_source_rule] earns every
    other term, so the claim gives it 1.0; [_compute_quality_score]
    returns 0.9, what it returns for [test_rule_1], the same rule without
    the data source. With API endpoints in place of the data source the
    bonus is granted, and [_compute_constitutional_score] grants its own
    bonus of 0.1 for the data source of this very rule. *)
Theorem quality_score_ignores_data_source :
  _compute_quality_score default_generator data_source_rule = Ok 0.9%float
  /\ _compute_quality_score default_generator test_rule_1 = Ok 0.9%float
  /\ _compute_quality_score default_generator endpoint_rule
     = Ok 1.0000000000000002%float
  /\ quality_score_spec ["api_endpoints"; "data_source"]%string
       default_generator data_source_rule
     == 1.0
  /\ exists c c0,
       _compute_constitutional_score data_source_rule = Ok c
       /\ _compute_constitutional_score test_rule_1 = Ok c0
       /\ c == c0 + 0.1.
Proof.
  split; [reflexivity |]. split; [reflexivity |]. split; [reflexivity |].
  split; [reflexivity |].
  eexists _, _. split; [vm_compute; reflexivity |].
  split; [vm_compute; reflexivity |]. reflexivity.
Qed.

End GeneratorProofs.

(* ===================================================================== *)
(** ** Properties of rule validation *)
(* ===================================================================== *)

Module ValidatorProofs.
Import Py PyFacts Validator.
Local Open Scope Q_scope.

Lemma confidence_in_range_valid (c : Q) :
  Qle_bool 0 c && Qle_bool c 1 = true -> confidence_invalid (VNum c) = false.
Proof.
  intros H. apply andb_prop in H. destruct H as [H0 H1].
  apply Qle_bool_iff in H0. apply Qle_bool_iff in H1.
  unfold confidence_invalid, as_number, Qltb.
  assert (E0 : Qle_bool 0.0 c = true) by (apply Qle_bool_iff; lra).
  assert (E1 : Qle_bool c 1.0 = true) by (apply Qle_bool_iff; lra).
  rewrite E0, E1. reflexivity.
Qed.

(** What [validate_rule] does on a record whose six fields are in order:
    only the platform context decides. *)
Lemma validate_rule_six_fields_ok (rule : pydict) :
  six_required_fields_ok rule = true ->
  validate_rule rule
  = match dict_get rule "platform_context" with
    | Some (VDict pc) =>
        Ok (Classifier.is_empty (context_errors pc), context_errors pc)
    | Some _ => Ok (false, [PlatformContextNotDict])
    | None => Ok (false, [MissingRequiredField "platform_context"])
    end.
Proof.
  unfold six_required_fields_ok. intros H.
  repeat (apply andb_prop in H; destruct H as [H ?]).
  destruct (dict_get rule "description") as [[| | | d | | |] |] eqn:Ed;
    try discriminate.
  destruct (dict_get rule "scope") as [[| | | sc | | |] |] eqn:Es;
    try discriminate.
  destruct (dict_get rule "abstraction_level") as [[| | | lv | | |] |]
    eqn:El; try discriminate.
  destruct (dict_get rule "confidence") as [[| | c | | | |] |] eqn:Ec;
    try discriminate.
  unfold validate_rule, required_fields. cbn [fold_left].
  rewrite H, (dict_get_contains _ _ _ Ed), (dict_get_contains _ _ _ Es),
    (dict_get_contains _ _ _ El), (dict_get_contains _ _ _ Ec).
  match goal with Hta : dict_contains rule "triggering_actions" = true |- _ =>
    rewrite Hta end.
  cbn [negb app]. rewrite Ec, Ed, Es, El.
  rewrite confidence_in_range_valid by assumption.
  unfold rbind.
  match goal with Hw : (length (split_ws d) <=? 20)%nat = true |- _ =>
    apply Nat.leb_le in Hw;
    rewrite (proj2 (Nat.ltb_ge 20 (length (split_ws d))) Hw)
  end.
  change (val_in (VStr sc) valid_scopes) with (str_in sc valid_scopes).
  change (val_in (VStr lv) valid_levels) with (str_in lv valid_levels).
  match goal with
    Hs : str_in sc valid_scopes = true,
    Hl : str_in lv valid_levels = true |- _ => rewrite Hs, Hl
  end.
  cbn [negb].
  destruct (dict_contains rule "platform_context") eqn:Epc.
  - apply dict_contains_get in Epc. destruct Epc as [v Ev]. rewrite Ev.
    cbn [app]. destruct v; try reflexivity.
    unfold context_errors.
    destruct (dict_contains d0 "platform"),
      (dict_contains d0 "extraction_method"); reflexivity.
  - rewrite (dict_not_contains_get _ _ Epc). reflexivity.
Qed.

(** C9, as stated, fails: the record with the six fields in order and no
    [platform_context] is reported invalid, with one error. *)
Lemma rule_without_context_counterexample :
  six_required_fields_ok rule_without_context = true
  /\ dict_contains rule_without_context "platform_context" = false
  /\ validate_rule rule_without_context
     = Ok (false, [MissingRequiredField "platform_context"])
  /\ validate_rule rule_without_context <> Ok (true, []).
Proof.
  split; [reflexivity |]. split; [reflexivity |].
  split; [reflexivity | discriminate].
Qed.

(** C9, amended. [platform_context] is the seventh required field. A record
    whose six other required fields are in order (confidence a number in
    [0, 1], description of at most 20 words, scope and abstraction level
    from their enumerations) is reported valid with no errors when its
    [platform_context] is a dictionary containing "platform" and
    "extraction_method"; when that dictionary lacks one of the two keys the
    record is invalid with one error per missing key; and with no
    [platform_context] field at all the record is invalid with the single
    error "Missing required field: platform_context". *)
Theorem validate_rule_requires_platform_context (rule : pydict) :
  six_required_fields_ok rule = true ->
  (forall pc,
      dict_get rule "platform_context" = Some (VDict pc) ->
      dict_contains pc "platform" = true ->
      dict_contains pc "extraction_method" = true ->
      validate_rule rule = Ok (true, []))
  /\ (forall pc,
        dict_get rule "platform_context" = Some (VDict pc) ->
        validate_rule rule
        = Ok (dict_contains pc "platform"
              && dict_contains pc "extraction_method",
              context_errors pc))
  /\ (dict_contains rule "platform_context" = false ->
      validate_rule rule
      = Ok (false, [MissingRequiredField "platform_context"])).
Proof.
  intros H. rewrite (validate_rule_six_fields_ok rule H).
  split; [| split].
  - intros pc E Hp He. rewrite E. unfold context_errors.
    rewrite Hp, He. reflexivity.
  - intros pc E. rewrite E. unfold context_errors.
    destruct (dict_contains pc "platform"),
      (dict_contains pc "extraction_method"); reflexivity.
  - intros E. rewrite (dict_not_contains_get _ _ E). reflexivity.
Qed.

Lemma validate_rule_requires_platform_context_witness :
  validate_rule rule_with_context = Ok (true, [])
  /\ validate_rule rule_without_context
     = Ok (false, [MissingRequiredField "platform_context"]).
Proof.
  split.
  - apply (proj1 (validate_rule_requires_platform_context rule_with_context
                    eq_refl)
             [("platform", VStr "figma");
              ("extraction_method", VStr "plugin_api")]%string);
      reflexivity.
  - apply (proj2 (proj2 (validate_rule_requires_platform_context
                           rule_without_context eq_refl))).
    reflexivity.
Defined.

End ValidatorProofs.

(* ===================================================================== *)
(** ** Further properties of the reward model and of the environment *)
(* ===================================================================== *)

Module EnvironmentExtras.
Import Py PyFacts Environment.
Local Open Scope Q_scope.

Lemma Qof_nat_nonneg (n : nat) : 0 <= Qof_nat n.
Proof.
  unfold Qof_nat, Qle. simpl. lia.
Qed.




Lemma temporal_reward_bounds (duration_ms : option Q) :
  0 <= temporal_reward duration_ms /\ temporal_reward duration_ms <= 1.
Proof.
  unfold temporal_reward. destruct duration_ms as [d |];
    [| split; discriminate].
  destruct (Qle_bool 1000 d) eqn:E1.
  - apply Qle_bool_iff in E1.
    destruct (Qle_bool d 5000) eqn:E5; simpl.
    + apply Qle_bool_iff in E5. split; qlra.
    + apply Qle_bool_false_lt in E5. split.
      * apply Qle_trans with 0.0; [discriminate | apply Q.le_max_l].
      * apply Q.max_lub; [discriminate | qlra].
  - simpl. split; discriminate.
Qed.


Lemma compute_reward_value
    (self : DesignEnvironment) (action : Action) (user_response : UserResponse)
    (changes : option (list pydict)) (duration_ms : option Q) :
  value (_compute_reward self action user_response changes duration_ms)
  == preference_reward user_response * preference_weight self
     + change_reward changes * change_weight self
     + temporal_reward duration_ms * temporal_weight self.
Proof.
  unfold _compute_reward, py_sum, dict_values. simpl. ring.
Qed.



(** X2. The temporal reward always lies in [0, 1]; it is 0 from 15 seconds
    on, and between 5 and 15 seconds it is 1 - (d - 5000)/10000, which is
    positive: just after 5000 ms the reward is higher than the 0 it has at
    exactly 5000 ms. *)
Theorem temporal_reward_range_and_tail (d : Q) :
  (0 <= temporal_reward (Some d) /\ temporal_reward (Some d) <= 1)
  /\ (15000 <= d -> temporal_reward (Some d) == 0)
  /\ (5000 < d -> d < 15000 ->
      temporal_reward (Some d) == 1 - (d - 5000) / 10000
      /\ temporal_reward (Some 5000) < temporal_reward (Some d)).
Proof.
  split; [apply temporal_reward_bounds |]. split.
  - intros H.
    rewrite EnvironmentProofs.temporal_reward_slow by lra.
    rewrite Q.max_l; [reflexivity | qlra].
  - intros H5 H15.
    rewrite EnvironmentProofs.temporal_reward_slow by exact H5.
    assert (E : Qmax 0.0 (1.0 - (d - 5000) / 10000.0)
                == 1 - (d - 5000) / 10000).
    { rewrite Q.max_r; qlra. }
    split; [exact E |].
    rewrite E. change (temporal_reward (Some 5000)) with
      (1.0 - (5000 - 1000) / 4000.0). qlra.
Qed.

Lemma temporal_reward_range_and_tail_witness :
  temporal_reward (Some 20000) == 0
  /\ temporal_reward (Some 5001) == 1 - (5001 - 5000) / 10000
  /\ temporal_reward (Some 5000) < temporal_reward (Some 5001).
Proof.
  split.
  - apply (proj1 (proj2 (temporal_reward_range_and_tail 20000))).
    discriminate.
  - apply (proj2 (proj2 (temporal_reward_range_and_tail 5001)));
      reflexivity.
Defined.

Lemma step_after_observation (self : DesignEnvironment) (cur : Observation)
    (action : Action) (user_response : UserResponse)
    (changes : option (list pydict)) (duration_ms : option Q)
    (next_observation : option Observation) :
  current_observation self = Some cur ->
  exists r self',
    step self action user_response changes duration_ms next_observation
    = (Ok r, self')
    /\ episode_step self' = (episode_step self + 1)%Z
    /\ episode_rewards self' = episode_rewards self ++ [value (reward r)]
    /\ reward r
       = _compute_reward self action user_response changes duration_ms
    /\ done r
       = UserResponse_eqb user_response ACCEPTED
         || (10 <=? episode_step self + 1)%Z
    /\ current_observation self' = Some (observation r)
    /\ observation r
       = match next_observation with Some o => o | None => cur end
    /\ preference_weight self' = preference_weight self
    /\ change_weight self' = change_weight self
    /\ temporal_weight self' = temporal_weight self.
Proof.
  intros E. unfold step. rewrite E. eexists _, _.
  split; [reflexivity |]. simpl. repeat split; reflexivity.
Qed.

(** The state after a reset followed by [step] calls only. *)
Lemma episode_invariant (self : DesignEnvironment) (o : Observation)
    (cs : list call) :
  steps_only cs = true ->
  let self' := run_calls (snd (reset self o)) cs in
  current_observation self' <> None
  /\ episode_step self' = Z.of_nat (length cs)
  /\ length (episode_rewards self') = length cs
  /\ preference_weight self' = preference_weight self
  /\ change_weight self' = change_weight self
  /\ temporal_weight self' = temporal_weight self.
Proof.
  induction cs as [| c cs IH] using rev_ind; intros Hcs; cbv zeta.
  - simpl. repeat split; discriminate.
  - unfold steps_only in Hcs. rewrite forallb_app in Hcs.
    apply andb_prop in Hcs. destruct Hcs as [Hcs Hc].
    specialize (IH Hcs). cbv zeta in IH.
    destruct IH as (Hobs & Hstep & Hlen & Hp & Hc' & Ht).
    unfold run_calls in *. rewrite fold_left_app.
    destruct c as [o' | a u ch d n]; [discriminate |].
    set (mid := fold_left run_call cs (snd (reset self o))) in *.
    destruct (current_observation mid) as [cur |] eqn:Ecur; [| congruence].
    destruct (step_after_observation mid cur a u ch d n Ecur)
      as (r & s' & Es & Hs1 & Hs2 & _ & _ & Hs3 & _ & Hs4 & Hs5 & Hs6).
    cbn [fold_left run_call]. rewrite Es. cbn [snd].
    rewrite Hs1, Hs2, Hs3, Hs4, Hs5, Hs6, Hstep.
    rewrite !List.length_app, Hlen. cbn [length].
    repeat split; try assumption; try discriminate; lia.
Qed.

(** X3. After a reset followed by n calls of [step], whatever their
    arguments, the episode counter is n, the reward history holds n
    rewards, and the three configured weights are those the environment had
    before the reset. *)
Theorem episode_bookkeeping (self : DesignEnvironment) (o : Observation)
    (cs : list call) :
  steps_only cs = true ->
  episode_step (run_calls (snd (reset self o)) cs) = Z.of_nat (length cs)
  /\ length (episode_rewards (run_calls (snd (reset self o)) cs))
     = length cs
  /\ preference_weight (run_calls (snd (reset self o)) cs)
     = preference_weight self
  /\ change_weight (run_calls (snd (reset self o)) cs) = change_weight self
  /\ temporal_weight (run_calls (snd (reset self o)) cs)
     = temporal_weight self.
Proof.
  intros Hcs. destruct (episode_invariant self o cs Hcs) as (_ & H).
  exact H.
Qed.

Lemma episode_bookkeeping_witness :
  episode_step
    (run_calls (snd (reset default_environment sample_observation))
       [CallStep sample_action REJECTED None None None;
        CallStep sample_action IGNORED None (Some 2000) None])
  = Z.of_nat 2
  /\ length
       (episode_rewards
          (run_calls (snd (reset default_environment sample_observation))
             [CallStep sample_action REJECTED None None None;
              CallStep sample_action IGNORED None (Some 2000) None]))
     = 2%nat
  /\ preference_weight
       (run_calls (snd (reset default_environment sample_observation))
          [CallStep sample_action REJECTED None None None;
           CallStep sample_action IGNORED None (Some 2000) None])
     = preference_weight default_environment
  /\ change_weight
       (run_calls (snd (reset default_environment sample_observation))
          [CallStep sample_action REJECTED None None None;
           CallStep sample_action IGNORED None (Some 2000) None])
     = change_weight default_environment
  /\ temporal_weight
       (run_calls (snd (reset default_environment sample_observation))
          [CallStep sample_action REJECTED None None None;
           CallStep sample_action IGNORED None (Some 2000) None])
     = temporal_weight default_environment.
Proof.
  apply (episode_bookkeeping default_environment sample_observation
           [CallStep sample_action REJECTED None None None;
            CallStep sample_action IGNORED None (Some 2000) None]).
  reflexivity.
Defined.

(** X4. The step that follows a reset and n earlier steps returns a result
    whose [done] flag is set exactly when the response is an acceptance or
    n is at least 9 (it is the tenth step or a later one); [step] itself
    never refuses to run after an episode is done. The reward of the step
    is the one [_compute_reward] gives with the configured weights. *)
Theorem done_on_acceptance_or_tenth_step
    (self : DesignEnvironment) (o : Observation) (cs : list call)
    (action : Action) (user_response : UserResponse)
    (changes : option (list pydict)) (duration_ms : option Q)
    (next_observation : option Observation) :
  steps_only cs = true ->
  exists r self',
    step (run_calls (snd (reset self o)) cs) action user_response changes
      duration_ms next_observation
    = (Ok r, self')
    /\ done r
       = UserResponse_eqb user_response ACCEPTED || (9 <=? length cs)%nat
    /\ value (reward r)
       == preference_reward user_response * preference_weight self
          + change_reward changes * change_weight self
          + temporal_reward duration_ms * temporal_weight self.
Proof.
  intros Hcs.
  destruct (episode_invariant self o cs Hcs)
    as (Hobs & Hstep & _ & Hp & Hc & Ht).
  set (mid := run_calls (snd (reset self o)) cs) in *.
  destruct (current_observation mid) as [cur |] eqn:Ecur; [| congruence].
  destruct (step_after_observation mid cur action user_response changes
              duration_ms next_observation Ecur)
    as (r & s' & Es & _ & _ & Hr & Hd & _).
  exists r, s'. split; [exact Es |]. split.
  - rewrite Hd, Hstep. f_equal.
    destruct (Nat.leb_spec 9 (length cs)); [apply Z.leb_le | apply Z.leb_gt];
      lia.
  - rewrite Hr, compute_reward_value, Hp, Hc, Ht. reflexivity.
Qed.

Lemma done_on_acceptance_or_tenth_step_witness :
  exists r self',
    step (run_calls (snd (reset default_environment sample_observation))
            (repeat (CallStep sample_action REJECTED None None None) 9))
      sample_action IGNORED None None None
    = (Ok r, self')
    /\ done r
       = UserResponse_eqb IGNORED ACCEPTED
         || (9 <=? length
                     (repeat (CallStep sample_action REJECTED None None None)
                        9))%nat
    /\ value (reward r)
       == preference_reward IGNORED * preference_weight default_environment
          + change_reward None * change_weight default_environment
          + temporal_reward None * temporal_weight default_environment.
Proof.
  apply (done_on_acceptance_or_tenth_step default_environment
           sample_observation
           (repeat (CallStep sample_action REJECTED None None None) 9)
           sample_action IGNORED None None None).
  reflexivity.
Defined.

End EnvironmentExtras.

(* ===================================================================== *)
(** ** Further properties of the synthetic preference generator *)
(* ===================================================================== *)

Module GeneratorExtras.
Import Py PyFacts Generator.
Local Open Scope Q_scope.

(** *** Sorting loops and strategies *)

Lemma sort_rules_In (test : IntentRule -> res side) (rules : list IntentRule) :
  forall a b a' b',
    sort_rules test rules a b = Ok (a', b') ->
    (forall r, In r a' -> In r a \/ (In r rules /\ test r = Ok Preferred))
    /\ (forall r, In r b' -> In r b \/ (In r rules /\ test r = Ok Rejected)).
Proof.
  induction rules as [| x rest IH]; intros a b a' b'; simpl.
  - intros E. injection E as <- <-. auto.
  - destruct (test x) as [s | e] eqn:Ex; simpl; [| discriminate].
    destruct s; intros E; apply IH in E; destruct E as [Ha Hb]; split;
      intros r Hr.
    + apply Ha in Hr. rewrite List.in_app_iff in Hr. simpl in Hr.
      destruct Hr as [[Hr | [<- | []]] | [Hr Et]]; auto.
    + apply Hb in Hr. destruct Hr as [Hr | [Hr Et]]; auto.
    + apply Ha in Hr. destruct Hr as [Hr | [Hr Et]]; auto.
    + apply Hb in Hr. rewrite List.in_app_iff in Hr. simpl in Hr.
      destruct Hr as [[Hr | [<- | []]] | [Hr Et]]; auto.
    + apply Ha in Hr. destruct Hr as [Hr | [Hr Et]]; auto.
    + apply Hb in Hr. destruct Hr as [Hr | [Hr Et]]; auto.
Qed.

(** The pairs of a strategy that sorts with [test]: both rules come from
    the group and were sorted to their side. *)
Lemma sorted_pairs_spec (test : IntentRule -> res side)
    (rules : list IntentRule) (src : string) (w : Q) (ctx : option pydict)
    (grp : option string * option string * option string)
    (sorted : list IntentRule * list IntentRule) (p : PreferencePair) :
  sort_rules test rules [] [] = Ok sorted ->
  In p (cross_pairs (make_pair src w ctx grp) (fst sorted) (snd sorted)) ->
  exists a b,
    p = make_pair src w ctx grp a b
    /\ In a rules /\ In b rules
    /\ test a = Ok Preferred /\ test b = Ok Rejected.
Proof.
  intros Es Hp. destruct sorted as [a' b'].
  apply sort_rules_In in Es. destruct Es as [Ha Hb].
  apply GeneratorProofs.cross_pairs_spec in Hp.
  destruct Hp as (a & b & Ina & Inb & _ & ->).
  apply Ha in Ina. apply Hb in Inb.
  destruct Ina as [[] | [Ina Ta]]. destruct Inb as [[] | [Inb Tb]].
  exists a, b. auto.
Qed.

Lemma threshold_preferred (m : res Q) (hi lo : Q) :
  rbind m (fun q => Ok (if Qle_bool hi q then Preferred
                         else if Qle_bool q lo then Rejected
                         else Neither))
  = Ok Preferred ->
  exists q, m = Ok q /\ hi <= q.
Proof.
  destruct m as [q | e]; simpl; [| discriminate].
  destruct (Qle_bool hi q) eqn:E.
  - intros _. exists q. split; [reflexivity | apply Qle_bool_iff, E].
  - destruct (Qle_bool q lo); discriminate.
Qed.

Lemma threshold_rejected (m : res Q) (hi lo : Q) :
  rbind m (fun q => Ok (if Qle_bool hi q then Preferred
                         else if Qle_bool q lo then Rejected
                         else Neither))
  = Ok Rejected ->
  exists q, m = Ok q /\ q <= lo.
Proof.
  destruct m as [q | e]; simpl; [| discriminate].
  destruct (Qle_bool hi q) eqn:E; [discriminate |].
  destruct (Qle_bool q lo) eqn:E'; [| discriminate].
  intros _. exists q. split; [reflexivity | apply Qle_bool_iff, E'].
Qed.

Lemma float_threshold_preferred (m : res float) (hi lo : float) :
  rbind m (fun q => Ok (if PrimFloat.leb hi q then Preferred
                         else if PrimFloat.leb q lo then Rejected
                         else Neither))
  = Ok Preferred ->
  exists q, m = Ok q /\ PrimFloat.leb hi q = true.
Proof.
  destruct m as [q | e]; simpl; [| discriminate].
  destruct (PrimFloat.leb hi q) eqn:E.
  - intros _. exists q. split; [reflexivity | exact E].
  - destruct (PrimFloat.leb q lo); discriminate.
Qed.

Lemma float_threshold_rejected (m : res float) (hi lo : float) :
  rbind m (fun q => Ok (if PrimFloat.leb hi q then Preferred
                         else if PrimFloat.leb q lo then Rejected
                         else Neither))
  = Ok Rejected ->
  exists q, m = Ok q /\ PrimFloat.leb q lo = true.
Proof.
  destruct m as [q | e]; simpl; [| discriminate].
  destruct (PrimFloat.leb hi q) eqn:E; [discriminate |].
  destruct (PrimFloat.leb q lo) eqn:E'; [| discriminate].
  intros _. exists q. split; [reflexivity | exact E'].
Qed.

Lemma group_labels (grp : option string * option string * option string) :
  (fst (fst grp), snd (fst grp), snd grp) = grp.
Proof. destruct grp as [[d p] a]. reflexivity. Qed.

Ltac built_fields Ina Inb :=
  unfold built_from; cbn [preferred rejected trace_context dimension_group
                            platform_group artifact_group make_pair];
  split; [exact Ina |]; split; [exact Inb |]; split; [reflexivity |];
  split; [apply group_labels |].

Lemma confidence_pairs_built self rules ctx key :
  Forall (built_from self ctx key rules)
    (_generate_confidence_pairs self rules ctx (Some key)).
Proof.
  apply List.Forall_forall. intros p Hp. unfold _generate_confidence_pairs in Hp.
  apply GeneratorProofs.cross_pairs_spec in Hp.
  destruct Hp as (a & b & Ina & Inb & _ & ->).
  apply List.filter_In in Ina. apply List.filter_In in Inb.
  destruct Ina as [Ina Ha], Inb as [Inb Hb].
  apply Qle_bool_iff in Ha. apply Qle_bool_iff in Hb.
  built_fields Ina Inb. left. simpl. auto.
Qed.

Lemma quality_pairs_built self rules ctx key pairs :
  _generate_quality_pairs self rules ctx (Some key) = Ok pairs ->
  Forall (built_from self ctx key rules) pairs.
Proof.
  unfold _generate_quality_pairs. unfold rbind at 1.
  destruct (sort_rules _ rules [] []) as [sorted |] eqn:Es; [| discriminate].
  intros E. injection E as <-. apply List.Forall_forall. intros p Hp.
  destruct (sorted_pairs_spec _ _ _ _ _ _ _ _ Es Hp)
    as (a & b & -> & Ina & Inb & Ta & Tb).
  apply float_threshold_preferred in Ta.
  apply float_threshold_rejected in Tb.
  destruct Ta as (qa & Ea & Ha), Tb as (qb & Eb & Hb).
  built_fields Ina Inb. right. left. simpl. eauto 8.
Qed.

Lemma completeness_pairs_built self rules ctx key pairs :
  _generate_completeness_pairs self rules ctx (Some key) = Ok pairs ->
  Forall (built_from self ctx key rules) pairs.
Proof.
  unfold _generate_completeness_pairs. unfold rbind at 1.
  destruct (sort_rules _ rules [] []) as [sorted |] eqn:Es; [| discriminate].
  intros E. injection E as <-. apply List.Forall_forall. intros p Hp.
  destruct (sorted_pairs_spec _ _ _ _ _ _ _ _ Es Hp)
    as (a & b & -> & Ina & Inb & Ta & Tb).
  cbv beta in Ta, Tb.
  built_fields Ina Inb. right. right. left. simpl.
  destruct (_is_complete a); [| discriminate].
  destruct (_is_complete b); [discriminate |]. auto.
Qed.

Lemma novelty_pairs_built self rules ctx key pairs :
  _generate_novelty_pairs self rules ctx (Some key) = Ok pairs ->
  Forall (built_from self ctx key rules) pairs.
Proof.
  unfold _generate_novelty_pairs. unfold rbind at 1.
  destruct (sort_rules _ rules [] []) as [sorted |] eqn:Es; [| discriminate].
  intros E. injection E as <-. apply List.Forall_forall. intros p Hp.
  destruct (sorted_pairs_spec _ _ _ _ _ _ _ _ Es Hp)
    as (a & b & -> & Ina & Inb & Ta & Tb).
  cbv beta in Ta, Tb.
  built_fields Ina Inb. right. right. right. left. simpl.
  split; [reflexivity |]. unfold novelty_read.
  destruct (training_metadata a) as [[| kva tma] |]; try discriminate.
  destruct (training_metadata b) as [[| kvb tmb] |]; try discriminate.
  destruct (get_default (kva :: tma) "novelty_score" (VNum 0.5)) as [| ba | qa | | | |];
    try discriminate Ta;
    destruct (get_default (kvb :: tmb) "novelty_score" (VNum 0.5)) as [| bb | qb | | | |];
    try discriminate Tb; cbn [as_number] in *;
    eexists _, _; (split; [reflexivity |]); (split; [reflexivity |]);
    match type of Ta with
    | Ok (if Qle_bool 0.7 ?na then _ else _) = _ =>
        match type of Tb with
        | Ok (if Qle_bool 0.7 ?nb then _ else _) = _ =>
            destruct (Qle_bool 0.7 na) eqn:Ha;
            [| destruct (Qle_bool na 0.3); discriminate];
            destruct (Qle_bool 0.7 nb) eqn:Hb; [discriminate |];
            destruct (Qle_bool nb 0.3) eqn:Hb'; [| discriminate];
            apply Qle_bool_iff in Ha; apply Qle_bool_iff in Hb'; auto
        end
    end.
Qed.

Lemma frequency_pairs_built self rules ctx key pairs :
  _generate_frequency_pairs self rules ctx (Some key) = Ok pairs ->
  Forall (built_from self ctx key rules) pairs.
Proof.
  unfold _generate_frequency_pairs. unfold rbind at 1.
  destruct (sort_rules _ rules [] []) as [sorted |] eqn:Es; [| discriminate].
  intros E. injection E as <-. apply List.Forall_forall. intros p Hp.
  destruct (sorted_pairs_spec _ _ _ _ _ _ _ _ Es Hp)
    as (a & b & -> & Ina & Inb & Ta & Tb).
  cbv beta zeta in Ta, Tb.
  built_fields Ina Inb. do 4 right. left. simpl.
  split; [reflexivity |]. unfold frequency_read.
  destruct (training_metadata a) as [[| kva tma] |]; try discriminate.
  destruct (training_metadata b) as [[| kvb tmb] |]; try discriminate.
  eexists _, _. split; [reflexivity |]. split; [reflexivity |].
  destruct (eq_str (get_default (kva :: tma) "pattern_frequency" _) "common");
    [| destruct (eq_str _ "rare"); discriminate].
  destruct (eq_str (get_default (kvb :: tmb) "pattern_frequency" _) "common");
    [discriminate |].
  destruct (eq_str (get_default (kvb :: tmb) "pattern_frequency" _) "rare");
    [auto | discriminate].
Qed.

Lemma constitutional_pairs_built self rules ctx key pairs :
  _generate_constitutional_pairs self rules ctx (Some key) = Ok pairs ->
  Forall (built_from self ctx key rules) pairs.
Proof.
  unfold _generate_constitutional_pairs. unfold rbind at 1.
  destruct (sort_rules _ rules [] []) as [sorted |] eqn:Es; [| discriminate].
  intros E. injection E as <-. apply List.Forall_forall. intros p Hp.
  destruct (sorted_pairs_spec _ _ _ _ _ _ _ _ Es Hp)
    as (a & b & -> & Ina & Inb & Ta & Tb).
  apply threshold_preferred in Ta. apply threshold_rejected in Tb.
  destruct Ta as (qa & Ea & Ha), Tb as (qb & Eb & Hb).
  built_fields Ina Inb. do 5 right. simpl. eauto 8.
Qed.

Lemma extend_if_built (P : PreferencePair -> Prop) strategies name strategy
    pairs pairs' :
  (forall more, strategy = Ok more -> Forall P more) ->
  Forall P pairs ->
  extend_if strategies name strategy pairs = Ok pairs' ->
  Forall P pairs'.
Proof.
  intros Hs Hp. unfold extend_if, rbind.
  destruct (str_in name strategies).
  - destruct strategy as [more | e]; [| discriminate].
    intros E. injection E as <-. apply List.Forall_app. split; auto.
  - intros E. injection E as <-. exact Hp.
Qed.

Lemma group_pairs_built self ctx strategies key rules pairs :
  group_pairs self ctx strategies key rules = Ok pairs ->
  Forall (built_from self ctx key rules) pairs.
Proof.
  unfold group_pairs. unfold rbind at 1 2 3 4 5.
  destruct (extend_if strategies "confidence" _ []) as [p1 |] eqn:E1;
    [| discriminate].
  destruct (extend_if strategies "quality" _ p1) as [p2 |] eqn:E2;
    [| discriminate].
  destruct (extend_if strategies "completeness" _ p2) as [p3 |] eqn:E3;
    [| discriminate].
  destruct (extend_if strategies "novelty" _ p3) as [p4 |] eqn:E4;
    [| discriminate].
  destruct (extend_if strategies "frequency" _ p4) as [p5 |] eqn:E5;
    [| discriminate].
  intros E6.
  assert (H1 : Forall (built_from self ctx key rules) p1).
  { apply (extend_if_built _ _ _ _ _ _) with (3 := E1); [| constructor].
    intros more Em. injection Em as <-. apply confidence_pairs_built. }
  assert (H2 : Forall (built_from self ctx key rules) p2).
  { apply (extend_if_built _ _ _ _ _ _) with (3 := E2); [| exact H1].
    intros more. apply quality_pairs_built. }
  assert (H3 : Forall (built_from self ctx key rules) p3).
  { apply (extend_if_built _ _ _ _ _ _) with (3 := E3); [| exact H2].
    intros more. apply completeness_pairs_built. }
  assert (H4 : Forall (built_from self ctx key rules) p4).
  { apply (extend_if_built _ _ _ _ _ _) with (3 := E4); [| exact H3].
    intros more. apply novelty_pairs_built. }
  assert (H5 : Forall (built_from self ctx key rules) p5).
  { apply (extend_if_built _ _ _ _ _ _) with (3 := E5); [| exact H4].
    intros more. apply frequency_pairs_built. }
  apply (extend_if_built _ _ _ _ _ _) with (3 := E6); [| exact H5].
  intros more. apply constitutional_pairs_built.
Qed.

(** Every pair collected over [groups] was built from one of them, a group
    of at least two rules. *)
Lemma collect_pairs_built self ctx strategies all_groups groups :
  (forall g, In g groups -> In g all_groups) ->
  forall all_pairs out,
    Forall (fun p => exists key members,
                In (key, members) all_groups
                /\ (2 <= length members)%nat
                /\ built_from self ctx key members p) all_pairs ->
    collect_pairs self ctx strategies groups all_pairs = Ok out ->
    Forall (fun p => exists key members,
                In (key, members) all_groups
                /\ (2 <= length members)%nat
                /\ built_from self ctx key members p) out.
Proof.
  induction groups as [| [key rules] rest IH]; intros Hsub all_pairs out Hall.
  - simpl. intros E. injection E as <-. exact Hall.
  - simpl. destruct (Nat.ltb_spec (length rules) 2) as [Hlt | Hge].
    + apply IH; [| exact Hall]. intros g Hg. apply Hsub. right. exact Hg.
    + unfold rbind.
      destruct (group_pairs self ctx strategies key rules) as [pairs |] eqn:Eg;
        [| discriminate].
      apply IH; [intros g Hg; apply Hsub; right; exact Hg |].
      apply List.Forall_app. split; [exact Hall |].
      apply group_pairs_built in Eg.
      apply (Forall_impl _ _ _ Eg). intros p Hp.
      exists key, rules. split; [apply Hsub; left; reflexivity |].
      split; [exact Hge | exact Hp].
Qed.

(** *** The partition into groups *)

Lemma dict_get_set_same {V} (d : list (string * V)) (k : string) (v : V) :
  dict_get (dict_set d k v) k = Some v.
Proof.
  induction d as [| [k' v'] rest IH]; simpl.
  - rewrite String.eqb_refl. reflexivity.
  - destruct (String.eqb k' k) eqn:E; simpl; rewrite E; auto.
Qed.

Lemma dict_set_set {V} (d : list (string * V)) (k : string) (v v' : V) :
  dict_set (dict_set d k v) k v' = dict_set d k v'.
Proof.
  induction d as [| [k' w] rest IH]; simpl.
  - rewrite String.eqb_refl. reflexivity.
  - destruct (String.eqb k' k) eqn:E; simpl; rewrite E; [| rewrite IH];
      reflexivity.
Qed.

Lemma dict_set_absent {V} (d : list (string * V)) (k : string) (v : V) :
  dict_get d k = None -> dict_set d k v = d ++ [(k, v)].
Proof.
  induction d as [| [k' w] rest IH]; simpl; [reflexivity |].
  destruct (String.eqb k' k); [discriminate |].
  intros E. rewrite IH by exact E. reflexivity.
Qed.

Lemma dict_get_absent_keys {V} (d : list (string * V)) (k : string) :
  dict_get d k = None -> ~ In k (map fst d).
Proof.
  induction d as [| [k' w] rest IH]; simpl; [tauto |].
  destruct (String.eqb_spec k' k) as [-> | N]; [discriminate |].
  intros E [H | H]; [contradiction | exact (IH E H)].
Qed.

Lemma dict_set_present_split {V} (d : list (string * V)) (k : string)
    (v v' : V) :
  dict_get d k = Some v ->
  exists before after,
    d = before ++ (k, v) :: after
    /\ dict_set d k v' = before ++ (k, v') :: after.
Proof.
  induction d as [| [k' w] rest IH]; simpl; [discriminate |].
  destruct (String.eqb_spec k' k) as [-> | N].
  - intros E. injection E as ->. exists [], rest. split; reflexivity.
  - intros E. destruct (IH E) as (before & after & -> & ->).
    exists ((k', w) :: before), after. split; reflexivity.
Qed.

(** What [groups[group_key].append(rule)] does to the groups: the rule is
    added at the end of its group, which is created at the end of the
    groups when it is new. *)
Lemma groups_append_spec (groups : list (string * list IntentRule))
    (key : string) (rule : IntentRule) :
  (exists before members after,
      groups = before ++ (key, members) :: after
      /\ groups_append groups key rule
         = before ++ (key, members ++ [rule]) :: after)
  \/ (~ In key (map fst groups)
      /\ groups_append groups key rule = groups ++ [(key, [rule])]).
Proof.
  unfold groups_append, dd_getitem.
  destruct (dict_get groups key) as [members |] eqn:E.
  - left. destruct (dict_set_present_split groups key members
                      (members ++ [rule]) E) as (before & after & E1 & E2).
    exists before, members, after. auto.
  - right. split; [apply dict_get_absent_keys; exact E |].
    rewrite dict_set_set. apply dict_set_absent. exact E.
Qed.

Lemma groups_append_perm groups key rule :
  Permutation (concat (map snd (groups_append groups key rule)))
    (concat (map snd groups) ++ [rule]).
Proof.
  destruct (groups_append_spec groups key rule)
    as [(before & members & after & -> & ->) | [_ ->]].
  - rewrite !map_app, !concat_app. simpl.
    rewrite <- !List.app_assoc. do 2 apply Permutation_app_head.
    apply Permutation_app_comm.
  - rewrite map_app, concat_app. simpl. reflexivity.
Qed.

Lemma groups_append_keys groups key rule :
  NoDup (map fst groups) ->
  NoDup (map fst (groups_append groups key rule)).
Proof.
  intros Hnd.
  destruct (groups_append_spec groups key rule)
    as [(before & members & after & E & ->) | [Hout ->]].
  - rewrite E in Hnd. rewrite map_app in *. exact Hnd.
  - rewrite map_app. simpl. apply NoDup_app. split; [exact Hnd |].
    split; [| apply NoDup_singleton].
    intros k Hk Hk'. apply list_elem_of_singleton in Hk'. subst k.
    apply Hout. apply list_elem_of_In. exact Hk.
Qed.

Lemma groups_append_members (P : string -> IntentRule -> Prop)
    groups key rule :
  (forall k members r, In (k, members) groups -> In r members -> P k r) ->
  P key rule ->
  forall k members r,
    In (k, members) (groups_append groups key rule) -> In r members ->
    members <> [] /\ P k r.
Proof.
  intros Hg Hr k members r Hin Hmem.
  split; [intros ->; destruct Hmem |].
  destruct (groups_append_spec groups key rule)
    as [(before & ms & after & E & E') | [_ E']]; rewrite E' in Hin.
  - apply List.in_app_iff in Hin. destruct Hin as [Hin | [Hin | Hin]].
    + apply (Hg k members r); [| exact Hmem].
      rewrite E. apply List.in_app_iff. auto.
    + injection Hin as <- <-. apply List.in_app_iff in Hmem.
      destruct Hmem as [Hmem | [<- | []]]; [| exact Hr].
      apply (Hg key ms r); [| exact Hmem].
      rewrite E. apply List.in_app_iff. right. left. reflexivity.
    + apply (Hg k members r); [| exact Hmem].
      rewrite E. apply List.in_app_iff. right. right. exact Hin.
  - apply List.in_app_iff in Hin. destruct Hin as [Hin | [Hin | []]].
    + apply (Hg k members r Hin Hmem).
    + injection Hin as <- <-. destruct Hmem as [<- | []]. exact Hr.
Qed.

Lemma classify_rules_loop_spec self rules :
  forall groups st groups' st',
    classify_rules_loop self rules groups st = (Ok groups', st') ->
    NoDup (map fst groups) ->
    (forall k members r,
        In (k, members) groups -> In r members ->
        members <> [] /\ keyed_by self st k r) ->
    st' = st
    /\ Permutation (concat (map snd groups'))
         (concat (map snd groups) ++ rules)
    /\ NoDup (map fst groups')
    /\ (forall k members r,
          In (k, members) groups' -> In r members ->
          members <> [] /\ keyed_by self st k r).
Proof.
  induction rules as [| rule rest IH]; intros groups st groups' st' E Hnd Hk.
  - simpl in E. injection E as <- <-. rewrite List.app_nil_r. auto.
  - simpl in E. unfold Classifier.bind at 1 in E.
    pose proof (GeneratorProofs.read_only_classify_design_dimension rule st)
      as Hro.
    destruct (_classify_design_dimension rule st) as [[dimension | e] st1]
      eqn:Ed; [| discriminate]. simpl in Hro. subst st1.
    unfold Classifier.bind at 1, Classifier.lift in E.
    destruct (_classify_platform rule) as [platform | e] eqn:Ep;
      [| discriminate].
    apply IH in E.
    + destruct E as (-> & Hperm & Hnd' & Hk').
      split; [reflexivity |]. split; [| auto].
      rewrite Hperm. rewrite groups_append_perm.
      rewrite <- List.app_assoc. reflexivity.
    + apply groups_append_keys. exact Hnd.
    + apply (groups_append_members (keyed_by self st)).
      * intros k members r Hin Hmem. apply (Hk k members r Hin Hmem).
      * exists dimension, platform. rewrite Ed. auto.
Qed.

Lemma classify_rules_spec self rules st groups st' :
  _classify_rules self rules st = (Ok groups, st') ->
  st' = st
  /\ Permutation (concat (map snd groups)) rules
  /\ NoDup (map fst groups)
  /\ (forall key members r,
        In (key, members) groups -> In r members ->
        members <> [] /\ keyed_by self st key r).
Proof.
  intros E. unfold _classify_rules in E.
  apply classify_rules_loop_spec in E.
  - exact E.
  - constructor.
  - intros k members r [].
Qed.

Lemma groups_append_nonempty groups key rule :
  (forall k members, In (k, members) groups -> members <> []) ->
  forall k members,
    In (k, members) (groups_append groups key rule) -> members <> [].
Proof.
  intros Hg k members Hin.
  destruct (groups_append_spec groups key rule)
    as [(before & ms & after & E & E') | [_ E']]; rewrite E' in Hin.
  - apply List.in_app_iff in Hin. destruct Hin as [Hin | [Hin | Hin]].
    + apply (Hg k). rewrite E. apply List.in_app_iff. auto.
    + injection Hin as <- <-. intros H. apply app_eq_nil in H.
      destruct H as [_ H]. discriminate H.
    + apply (Hg k). rewrite E. apply List.in_app_iff. right. right.
      exact Hin.
  - apply List.in_app_iff in Hin. destruct Hin as [Hin | [Hin | []]].
    + exact (Hg k members Hin).
    + injection Hin as <- <-. discriminate.
Qed.

Lemma classify_rules_loop_nonempty self rules :
  forall groups st groups' st',
    classify_rules_loop self rules groups st = (Ok groups', st') ->
    (forall k members, In (k, members) groups -> members <> []) ->
    forall k members, In (k, members) groups' -> members <> [].
Proof.
  induction rules as [| rule rest IH]; intros groups st groups' st' E Hg.
  - simpl in E. injection E as <- <-. exact Hg.
  - simpl in E. unfold Classifier.bind at 1 in E.
    destruct (_classify_design_dimension rule st) as [[dimension | e] st1];
      [| discriminate].
    unfold Classifier.bind at 1, Classifier.lift in E.
    destruct (_classify_platform rule) as [platform | e]; [| discriminate].
    apply (IH _ _ _ _ E). apply groups_append_nonempty. exact Hg.
Qed.

(** X5. When [_classify_rules] returns, the groups partition the rules:
    put end to end they are a rearrangement of the input list, the group
    keys are distinct, no group is empty, every rule sits in the group
    named by its own dimension, platform and artifact type, and the
    classifier is unchanged. *)
Theorem classify_rules_partitions self rules st groups st' :
  _classify_rules self rules st = (Ok groups, st') ->
  st' = st
  /\ Permutation (concat (map snd groups)) rules
  /\ NoDup (map fst groups)
  /\ (forall key members, In (key, members) groups -> members <> [])
  /\ (forall key members r,
        In (key, members) groups -> In r members ->
        keyed_by self st key r).
Proof.
  intros E.
  destruct (classify_rules_spec self rules st groups st' E)
    as (Hst & Hperm & Hnd & Hk).
  split; [exact Hst |]. split; [exact Hperm |]. split; [exact Hnd |].
  split.
  - unfold _classify_rules in E.
    apply (classify_rules_loop_nonempty _ _ _ _ _ _ E).
    intros k members [].
  - intros key members r Hin Hr. exact (proj2 (Hk key members r Hin Hr)).
Qed.

Lemma classify_rules_partitions_witness :
  Classifier.__init__ = Classifier.__init__
  /\ Permutation
       (concat (map snd [("spacing:figma:general"%string, [test_rule_1]);
                         ("layout:figma:general"%string, [test_rule_2])]))
       [test_rule_1; test_rule_2]
  /\ NoDup (map fst [("spacing:figma:general"%string, [test_rule_1]);
                     ("layout:figma:general"%string, [test_rule_2])])
  /\ (forall key members,
        In (key, members)
          [("spacing:figma:general"%string, [test_rule_1]);
           ("layout:figma:general"%string, [test_rule_2])] ->
        members <> [])
  /\ (forall key members r,
        In (key, members)
          [("spacing:figma:general"%string, [test_rule_1]);
           ("layout:figma:general"%string, [test_rule_2])] ->
        In r members ->
        keyed_by default_generator Classifier.__init__ key r).
Proof.
  apply (classify_rules_partitions default_generator
           [test_rule_1; test_rule_2] Classifier.__init__
           [("spacing:figma:general"%string, [test_rule_1]);
            ("layout:figma:general"%string, [test_rule_2])]
           Classifier.__init__).
  vm_compute. reflexivity.
Defined.

(** *** Where the returned pairs come from *)

Lemma group_within_pool (groups : list (string * list IntentRule))
    (rules : list IntentRule) (key : string) (members : list IntentRule) :
  Permutation (concat (map snd groups)) rules ->
  In (key, members) groups ->
  (forall r, In r members -> In r rules)
  /\ (length members <= length rules)%nat.
Proof.
  intros Hperm Hin.
  apply List.in_split in Hin. destruct Hin as (before & after & ->).
  rewrite map_app, concat_app in Hperm. simpl in Hperm. split.
  - intros r Hr. apply (Permutation_in _ Hperm).
    apply List.in_app_iff. right. apply List.in_app_iff. left. exact Hr.
  - apply Permutation_length in Hperm. rewrite <- Hperm.
    rewrite !List.length_app. lia.
Qed.

(** Every returned pair was built from one group of the partition. *)
Lemma generate_preferences_built self rules ctx strategies st out st' :
  generate_preferences self rules ctx strategies st = (Ok out, st') ->
  exists classified,
    _classify_rules self rules st = (Ok classified, st')
    /\ Forall (fun p => exists key members,
                   In (key, members) classified
                   /\ (2 <= length members)%nat
                   /\ built_from self ctx key members p) out.
Proof.
  intros H. apply GeneratorProofs.generate_preferences_inv in H.
  destruct H as (classified & all_pairs & Hc & Hp & ->).
  exists classified. split; [exact Hc |].
  apply (collect_pairs_built self ctx _ classified classified) in Hp;
    [| auto | constructor].
  apply List.Forall_forall. intros p Hin.
  apply GeneratorProofs.deduplicate_In in Hin.
  apply (proj1 (List.Forall_forall _ _) Hp p Hin).
Qed.

(** X6. Both rules of every pair returned by [generate_preferences] are
    rules of the input list and members of one and the same group of the
    partition, a group of at least two rules; the pair carries the trace
    context that was passed in and the labels parsed from the key of that
    group. *)
Theorem pairs_stay_within_one_group self rules ctx strategies st out st' :
  generate_preferences self rules ctx strategies st = (Ok out, st') ->
  exists classified,
    _classify_rules self rules st = (Ok classified, st')
    /\ forall p, In p out ->
         In (preferred p) rules
         /\ In (rejected p) rules
         /\ trace_context p = ctx
         /\ exists key members,
             In (key, members) classified
             /\ (2 <= length members)%nat
             /\ In (preferred p) members
             /\ In (rejected p) members
             /\ (dimension_group p, platform_group p, artifact_group p)
                = _parse_group_key (Some key).
Proof.
  intros H. destruct (generate_preferences_built _ _ _ _ _ _ _ H)
    as (classified & Hc & Hb).
  exists classified. split; [exact Hc |]. intros p Hp.
  destruct (proj1 (List.Forall_forall _ _) Hb p Hp)
    as (key & members & Hin & Hlen & Ha & Hr & Hctx & Hlab & _).
  destruct (classify_rules_spec _ _ _ _ _ Hc) as (_ & Hperm & _).
  destruct (group_within_pool _ _ _ _ Hperm Hin) as [Hsub _].
  split; [apply Hsub, Ha |]. split; [apply Hsub, Hr |].
  split; [exact Hctx |]. exists key, members. auto 8.
Qed.

Lemma pairs_stay_within_one_group_witness :
  exists classified,
    _classify_rules (ungrouped_generator 0.3) [test_rule_1; test_rule_2]
      Classifier.__init__
    = (Ok classified, Classifier.__init__)
    /\ forall p,
         In p [sample_pair "confidence" 0.3 test_rule_1 test_rule_2] ->
         In (preferred p) [test_rule_1; test_rule_2]
         /\ In (rejected p) [test_rule_1; test_rule_2]
         /\ trace_context p = None
         /\ exists key members,
             In (key, members) classified
             /\ (2 <= length members)%nat
             /\ In (preferred p) members
             /\ In (rejected p) members
             /\ (dimension_group p, platform_group p, artifact_group p)
                = _parse_group_key (Some key).
Proof.
  apply (pairs_stay_within_one_group (ungrouped_generator 0.3)
           [test_rule_1; test_rule_2] None (Some ["confidence"%string])
           Classifier.__init__
           [sample_pair "confidence" 0.3 test_rule_1 test_rule_2]
           Classifier.__init__).
  vm_compute. reflexivity.
Defined.

(** X7. The source tag of every returned pair is backed by the test of the
    strategy it names: a confidence pair has a preferred rule at or above
    the high threshold and a rejected rule at or below the low one, a
    quality pair scores at least 0.8 against at most 0.5, a completeness
    pair sets a complete platform context against an incomplete one, a
    novelty pair a novelty of at least 0.7 against at most 0.3, a frequency
    pair a common pattern against a rare one, and a constitutional pair a
    score of at least 0.7 against at most 0.4. *)
Theorem source_tag_is_backed self rules ctx strategies st out st' :
  generate_preferences self rules ctx strategies st = (Ok out, st') ->
  forall p, In p out -> criterion self p.
Proof.
  intros H p Hp. destruct (generate_preferences_built _ _ _ _ _ _ _ H)
    as (classified & _ & Hb).
  destruct (proj1 (List.Forall_forall _ _) Hb p Hp)
    as (key & members & _ & _ & _ & _ & _ & _ & Hcrit).
  exact Hcrit.
Qed.

Lemma source_tag_is_backed_witness :
  criterion (ungrouped_generator 0.3)
    (sample_pair "confidence" 0.3 test_rule_1 test_rule_2).
Proof.
  apply (source_tag_is_backed (ungrouped_generator 0.3)
           [test_rule_1; test_rule_2] None
           (Some ["confidence"; "novelty"]%string) Classifier.__init__
           [sample_pair "confidence" 0.3 test_rule_1 test_rule_2]
           Classifier.__init__).
  - vm_compute. reflexivity.
  - left. reflexivity.
Defined.

Lemma collect_pairs_small_groups self ctx strategies groups :
  Forall (fun g => (length (snd g) < 2)%nat) groups ->
  forall all_pairs,
    collect_pairs self ctx strategies groups all_pairs = Ok all_pairs.
Proof.
  induction 1 as [| [key rules] rest Hlt _ IH]; intros all_pairs; simpl.
  - reflexivity.
  - simpl in Hlt. apply Nat.ltb_lt in Hlt. rewrite Hlt. apply IH.
Qed.

(** X8. From fewer than two rules [generate_preferences] returns no pair,
    whatever the strategies: every group is then too small to be paired. *)
Theorem fewer_than_two_rules_no_pairs self rules ctx strategies st out st' :
  (length rules < 2)%nat ->
  generate_preferences self rules ctx strategies st = (Ok out, st') ->
  out = [].
Proof.
  intros Hlen H. apply GeneratorProofs.generate_preferences_inv in H.
  destruct H as (classified & all_pairs & Hc & Hp & ->).
  destruct (classify_rules_spec _ _ _ _ _ Hc) as (_ & Hperm & _).
  rewrite collect_pairs_small_groups in Hp.
  - injection Hp as <-. reflexivity.
  - apply List.Forall_forall. intros [key members] Hin.
    destruct (group_within_pool _ _ _ _ Hperm Hin) as [_ Hle].
    simpl. lia.
Qed.

Lemma fewer_than_two_rules_no_pairs_witness :
  @nil PreferencePair = [].
Proof.
  apply (fewer_than_two_rules_no_pairs default_generator [test_rule_1] None
           None Classifier.__init__ [] Classifier.__init__).
  - simpl. lia.
  - vm_compute. reflexivity.
Defined.

(** *** Batches of traces *)





(** *** Strategy names *)

Lemma extend_if_same_known s1 s2 name strategy pairs :
  same_known_strategies s1 s2 -> In name default_strategies ->
  extend_if s1 name strategy pairs = extend_if s2 name strategy pairs.
Proof.
  intros Hs Hn. unfold extend_if. rewrite (Hs name Hn). reflexivity.
Qed.

Lemma group_pairs_same_known self ctx s1 s2 key rules :
  same_known_strategies s1 s2 ->
  group_pairs self ctx s1 key rules = group_pairs self ctx s2 key rules.
Proof.
  intros Hs. unfold group_pairs.
  rewrite (extend_if_same_known s1 s2 "confidence")
    by (auto; unfold default_strategies; simpl; tauto).
  destruct (extend_if s2 "confidence" _ []) as [p1 |]; [| reflexivity].
  cbn [rbind].
  rewrite (extend_if_same_known s1 s2 "quality")
    by (auto; unfold default_strategies; simpl; tauto).
  destruct (extend_if s2 "quality" _ p1) as [p2 |]; [| reflexivity].
  cbn [rbind].
  rewrite (extend_if_same_known s1 s2 "completeness")
    by (auto; unfold default_strategies; simpl; tauto).
  destruct (extend_if s2 "completeness" _ p2) as [p3 |]; [| reflexivity].
  cbn [rbind].
  rewrite (extend_if_same_known s1 s2 "novelty")
    by (auto; unfold default_strategies; simpl; tauto).
  destruct (extend_if s2 "novelty" _ p3) as [p4 |]; [| reflexivity].
  cbn [rbind].
  rewrite (extend_if_same_known s1 s2 "frequency")
    by (auto; unfold default_strategies; simpl; tauto).
  destruct (extend_if s2 "frequency" _ p4) as [p5 |]; [| reflexivity].
  cbn [rbind].
  apply extend_if_same_known;
    [exact Hs | unfold default_strategies; simpl; tauto].
Qed.

Lemma collect_pairs_same_known self ctx s1 s2 groups :
  same_known_strategies s1 s2 ->
  forall all_pairs,
    collect_pairs self ctx s1 groups all_pairs
    = collect_pairs self ctx s2 groups all_pairs.
Proof.
  intros Hs. induction groups as [| [key rules] rest IH]; intros all_pairs;
    simpl; [reflexivity |].
  rewrite (group_pairs_same_known self ctx s1 s2 key rules Hs).
  destruct (length rules <? 2)%nat; [apply IH |].
  destruct (group_pairs self ctx s2 key rules); simpl; [apply IH |].
  reflexivity.
Qed.

Lemma group_pairs_no_known self ctx s key rules :
  same_known_strategies s [] -> group_pairs self ctx s key rules = Ok [].
Proof.
  intros Hs. rewrite (group_pairs_same_known self ctx s [] key rules Hs).
  reflexivity.
Qed.

(** X9. Only the six known strategy names count. Two strategy lists that
    request the same known names give the same result, so unknown names,
    repetitions and the order of the list are ignored; a list with no known
    name gives no pair, and no list at all stands for the six names. *)
Theorem unknown_strategies_are_ignored self rules ctx s1 s2 st :
  same_known_strategies s1 s2 ->
  generate_preferences self rules ctx (Some s1) st
  = generate_preferences self rules ctx (Some s2) st
  /\ generate_preferences self rules ctx None st
     = generate_preferences self rules ctx (Some default_strategies) st
  /\ (same_known_strategies s1 [] ->
      forall out st',
        generate_preferences self rules ctx (Some s1) st = (Ok out, st') ->
        out = []).
Proof.
  intros Hs. split; [| split].
  - unfold generate_preferences, Classifier.bind.
    destruct (_classify_rules self rules st) as [[classified | e] st1];
      [| reflexivity].
    rewrite (collect_pairs_same_known self ctx s1 s2 classified Hs).
    reflexivity.
  - reflexivity.
  - intros Hnone out st' H.
    apply GeneratorProofs.generate_preferences_inv in H.
    destruct H as (classified & all_pairs & _ & Hp & ->).
    rewrite (collect_pairs_same_known self ctx s1 [] classified Hnone) in Hp.
    assert (Hnil : forall groups acc,
               collect_pairs self ctx [] groups acc = Ok acc).
    { induction groups as [| [k r] rest IH]; intros acc; simpl;
        [reflexivity |].
      destruct (length r <? 2)%nat; [apply IH |].
      change (group_pairs self ctx [] k r) with (@Ok (list PreferencePair) []).
      simpl. rewrite List.app_nil_r. apply IH. }
    rewrite Hnil in Hp. injection Hp as <-. reflexivity.
Qed.

Lemma unknown_strategies_are_ignored_witness :
  generate_preferences (ungrouped_generator 0.3) [test_rule_1; test_rule_2]
    None (Some ["novelty"; "popularity"; "confidence"; "novelty"]%string)
    Classifier.__init__
  = generate_preferences (ungrouped_generator 0.3) [test_rule_1; test_rule_2]
      None (Some ["confidence"; "novelty"]%string) Classifier.__init__.
Proof.
  apply (proj1 (unknown_strategies_are_ignored (ungrouped_generator 0.3)
                  [test_rule_1; test_rule_2] None
                  ["novelty"; "popularity"; "confidence"; "novelty"]%string
                  ["confidence"; "novelty"]%string Classifier.__init__
                  ltac:(intros name Hn; simpl in Hn;
                        repeat (destruct Hn as [<- | Hn];
                                [reflexivity |]); destruct Hn))).
Defined.

(** *** Group keys and labels *)

Lemma append_snoc (cur : string) (c : ascii) (rest : string) :
  String.append (snoc_char cur c) rest = String.append cur (String c rest).
Proof.
  unfold snoc_char. induction cur as [| a cur IH].
  - reflexivity.
  - exact (f_equal (String a) IH).
Qed.

Lemma append_empty_r (s : string) : String.append s "" = s.
Proof.
  induction s as [| a s IH]; [reflexivity | exact (f_equal (String a) IH)].
Qed.

Lemma split_on_from_free (sep : ascii) (s : string) :
  mentions sep s = false ->
  forall cur, split_on_from sep cur s = [String.append cur s].
Proof.
  induction s as [| c rest IH]; simpl; intros H cur.
  - rewrite append_empty_r. reflexivity.
  - apply orb_false_elim in H. destruct H as [Hc Hrest]. rewrite Hc.
    rewrite (IH Hrest). rewrite append_snoc. reflexivity.
Qed.

Lemma split_on_from_field (sep : ascii) (s1 s2 : string) :
  mentions sep s1 = false ->
  forall cur,
    split_on_from sep cur (String.append s1 (String sep s2))
    = String.append cur s1 :: split_on_from sep "" s2.
Proof.
  induction s1 as [| c rest IH]; simpl; intros H cur.
  - rewrite Ascii.eqb_refl, append_empty_r. reflexivity.
  - apply orb_false_elim in H. destruct H as [Hc Hrest]. rewrite Hc.
    rewrite (IH Hrest). rewrite append_snoc. reflexivity.
Qed.

Lemma colon_key_not_plain (a b : string) :
  truthy_str (colon a b) = true /\ String.eqb (colon a b) "all" = false.
Proof.
  unfold colon, truthy_str. split.
  - destruct a; reflexivity.
  - destruct (String.eqb_spec (String.append a (String.append ":" b)) "all")
      as [E | _]; [| reflexivity].
    exfalso.
    destruct a as [| c1 [| c2 [| c3 [| c4 a]]]];
      cbv beta iota delta [String.append] in E; discriminate E.
Qed.

Lemma parse_two (a b : string) :
  colon_free a = true -> colon_free b = true ->
  _parse_group_key (Some (colon a b)) = (Some a, Some b, None).
Proof.
  unfold colon_free. intros Ha Hb.
  apply negb_true_iff in Ha. apply negb_true_iff in Hb.
  unfold _parse_group_key. cbn [truthy_ostr ostr_value].
  destruct (colon_key_not_plain a b) as [-> ->]. cbn [negb orb].
  unfold split_on, colon. change (String.append ":" b) with (String ":" b).
  rewrite (split_on_from_field ":" a b Ha).
  rewrite (split_on_from_free ":" b Hb). reflexivity.
Qed.

Lemma parse_three (a b c : string) :
  colon_free a = true -> colon_free b = true -> colon_free c = true ->
  _parse_group_key (Some (colon a (colon b c))) = (Some a, Some b, Some c).
Proof.
  unfold colon_free. intros Ha Hb Hc.
  apply negb_true_iff in Ha. apply negb_true_iff in Hb.
  apply negb_true_iff in Hc.
  unfold _parse_group_key. cbn [truthy_ostr ostr_value].
  destruct (colon_key_not_plain a (colon b c)) as [-> ->]. cbn [negb orb].
  unfold split_on, colon.
  change (String.append ":" (String.append b (String.append ":" c)))
    with (String ":" (String.append b (String ":" c))).
  rewrite (split_on_from_field ":" a _ Ha).
  rewrite (split_on_from_field ":" b c Hb).
  rewrite (split_on_from_free ":" c Hc). reflexivity.
Qed.

Lemma parse_one (a : string) :
  colon_free a = true -> _parse_group_key (Some a) = single_label a.
Proof.
  unfold colon_free. intros Ha. apply negb_true_iff in Ha.
  unfold _parse_group_key, single_label, truthy_str.
  cbn [truthy_ostr ostr_value]. unfold truthy_str.
  rewrite negb_involutive.
  destruct (String.eqb a "" || String.eqb a "all"); [reflexivity |].
  unfold split_on. rewrite (split_on_from_free ":" a Ha). reflexivity.
Qed.

(** X10. Parsing the key that [_classify_rules] makes from a dimension, a
    platform and an artifact type without colons gives back the names that
    went into the key, filled into the dimension, platform and artifact
    slots from the left: all three names when all three groupings are on,
    and with fewer groupings the names shift left, so that grouping by
    platform and artifact alone reports the platform as the dimension. The
    key "all" of no grouping, and a single name that is empty or "all",
    give no labels. *)
Theorem group_key_round_trip self dimension platform artifact :
  colon_free dimension = true -> colon_free platform = true ->
  colon_free artifact = true ->
  _parse_group_key (Some (make_group_key self dimension platform artifact))
  = positional_labels self dimension platform artifact.
Proof.
  intros Hd Hp Ha. unfold make_group_key, positional_labels.
  destruct (group_by_dimension self), (group_by_platform self),
    (group_by_artifact self); cbn [andb];
    auto using parse_three, parse_two, parse_one.
Qed.

Lemma group_key_round_trip_witness :
  _parse_group_key
    (Some (make_group_key default_generator "spacing" "figma" "text"))
  = positional_labels default_generator "spacing" "figma" "text".
Proof.
  apply (group_key_round_trip default_generator "spacing" "figma" "text");
    reflexivity.
Defined.

(** *** Score ranges *)

Lemma constitutional_score_range rule c :
  _compute_constitutional_score rule = Ok c -> 0 <= c /\ c <= 1.
Proof.
  unfold _compute_constitutional_score.
  set (s0 := if existsb _ iteration_keywords then _ else _).
  set (s1 := if existsb _ semantic_keywords then _ else _).
  set (s2 := match platform_context rule with Some (_ :: _) => _ | _ => _
             end).
  assert (H2 : 0 <= s2 /\ s2 <= 0.75).
  { subst s2 s1 s0. destruct (platform_context rule) as [[| kv pc] |];
      GeneratorProofs.case_conditions; split; discriminate. }
  clearbody s2. clear s0 s1. destruct H2 as [H20 H21].
  destruct (training_metadata rule) as [[| kv tm] |]; cbn [rbind].
  + intros E. injection E as <-. split.
    * apply Q.min_glb; [discriminate | exact H20].
    * apply Qle_trans with 1.0; [apply Q.le_min_l | discriminate].
  + destruct (truthy (get_default (kv :: tm) "constitutional_signals" _)).
    * destruct (py_len _) as [n | e]; cbn [rbind]; [| discriminate].
      pose proof (EnvironmentExtras.Qof_nat_nonneg (Nat.min n 2)) as Hn.
      intros E. injection E as <-. split.
      -- apply Q.min_glb; [discriminate |].
         destruct (truthy (get (kv :: tm) "iteration_detected")); lra.
      -- apply Qle_trans with 1.0; [apply Q.le_min_l | discriminate].
    * cbn [rbind]. intros E. injection E as <-. split.
      -- apply Q.min_glb; [discriminate |].
         destruct (truthy (get (kv :: tm) "iteration_detected")); lra.
      -- apply Qle_trans with 1.0; [apply Q.le_min_l | discriminate].
  + intros E. injection E as <-. split.
    * apply Q.min_glb; [discriminate | exact H20].
    * apply Qle_trans with 1.0; [apply Q.le_min_l | discriminate].
Qed.

(** X11. When it returns, the quality score, which the code adds up in
    binary64, lies between 0 and 1.0000000000000002, and it is above 1
    exactly for a rule that earns all six terms: the sum of the six
    constants rounds to the next number after 1. The constitutional
    score, which the code cuts off at 1, lies in [0, 1]. *)
Theorem quality_score_can_exceed_one self rule :
  (forall q,
      _compute_quality_score self rule = Ok q ->
      PrimFloat.leb 0%float q = true
      /\ PrimFloat.leb q 1.0000000000000002%float = true
      /\ PrimFloat.ltb 1%float q = earns_every_term self rule)
  /\ (forall c,
        _compute_constitutional_score rule = Ok c -> 0 <= c /\ c <= 1).
Proof.
  split; [| intros c; apply constitutional_score_range].
  destruct rule as [rid desc sc lvl acts props conf pc tm dim].
  intros q. unfold _compute_quality_score, earns_every_term,
    novelty_at_least, has_truthy.
  cbn [rule_id description scope platform_context training_metadata].
  destruct pc as [[| kv pc] |]; destruct tm as [[| kv' tm] |];
    try change (truthy (get [] ?k)) with false;
    try (destruct (get_default (kv' :: tm) "novelty_score" (VNum 0))
           as [| b | n | | | |]; cbn [as_number]);
    intros E; try discriminate E; injection E as <-;
    rewrite ?andb_false_r;
    GeneratorProofs.case_conditions;
    repeat split; reflexivity.
Qed.

Lemma quality_score_can_exceed_one_witness :
  PrimFloat.leb 0%float 1.0000000000000002%float = true
  /\ PrimFloat.leb 1.0000000000000002%float 1.0000000000000002%float = true
  /\ PrimFloat.ltb 1%float 1.0000000000000002%float
     = earns_every_term default_generator endpoint_rule.
Proof.
  apply (proj1 (quality_score_can_exceed_one default_generator
                  endpoint_rule)).
  reflexivity.
Defined.

End GeneratorExtras.

(* ===================================================================== *)
(** ** Further properties of validation and of the export *)
(* ===================================================================== *)

Module ValidatorExtras.
Import Py PyFacts Validator.
Local Open Scope Q_scope.

Lemma is_empty_nil {A} (l : list A) : Classifier.is_empty l = true -> l = [].
Proof. destruct l; [reflexivity | discriminate]. Qed.

Lemma is_empty_snoc {A} (l : list A) (x : A) :
  Classifier.is_empty (l ++ [x]) = false.
Proof. destruct l; reflexivity. Qed.

Lemma step_if_empty {A} (c : bool) (l : list A) (x : A) :
  Classifier.is_empty (if c then l ++ [x] else l) = true ->
  c = false /\ Classifier.is_empty l = true.
Proof.
  destruct c; [rewrite is_empty_snoc; discriminate | auto].
Qed.

Lemma missing_fold_empty {E} (has : string -> bool) (mk : string -> E)
    (fields : list string) :
  forall acc,
    Classifier.is_empty
      (fold_left
         (fun errors field =>
            if negb (has field) then errors ++ [mk field] else errors)
         fields acc)
    = true ->
    Classifier.is_empty acc = true /\ forallb has fields = true.
Proof.
  induction fields as [| f rest IH]; intros acc H; simpl in *.
  - auto.
  - apply IH in H. destruct H as [H Hrest].
    apply step_if_empty in H. destruct H as [Hf Hacc].
    apply negb_false_iff in Hf. rewrite Hf, Hrest. auto.
Qed.

Lemma str_in_In (x : string) (xs : list string) :
  str_in x xs = true -> In x xs.
Proof.
  unfold str_in. intros H. apply existsb_exists in H.
  destruct H as (y & Hy & E). apply String.eqb_eq in E. subst. exact Hy.
Qed.

Lemma In_str_in (x : string) (xs : list string) :
  In x xs -> str_in x xs = true.
Proof.
  unfold str_in. intros H. apply existsb_exists. exists x.
  split; [exact H | apply String.eqb_refl].
Qed.

Lemma val_in_string (v : pyval) (xs : list string) :
  val_in v xs = true -> exists s, v = VStr s /\ In s xs.
Proof.
  unfold val_in. intros H. apply existsb_exists in H.
  destruct H as (y & Hy & E). destruct v; try discriminate.
  simpl in E. apply String.eqb_eq in E. subst. eauto.
Qed.

Lemma confidence_valid_range (v : pyval) :
  confidence_invalid v = false -> passes_range_test v.
Proof.
  unfold confidence_invalid, passes_range_test, Qltb.
  destruct v as [| b | q | s | l | d |]; cbn [as_number];
    try discriminate; try (left; reflexivity);
    intros H; right; apply orb_false_elim in H; destruct H as [H0 H1];
    apply negb_false_iff in H0; apply negb_false_iff in H1;
    apply Qle_bool_iff in H0; apply Qle_bool_iff in H1;
    eexists; (split; [reflexivity |]); split; lra.
Qed.

(** The verdict is the emptiness of the error list, and a record reported
    valid has every required field in order. *)
Lemma validate_rule_sound (rule : pydict) (verdict : bool)
    (errs : list rule_error) :
  validate_rule rule = Ok (verdict, errs) ->
  verdict = Classifier.is_empty errs
  /\ (verdict = true -> accepted_rule rule).
Proof.
  unfold validate_rule.
  set (e0 := fold_left _ required_fields []).
  set (e1 := match dict_get rule "confidence" with
             | Some conf => _ | None => e0 end).
  unfold rbind at 1.
  destruct (match dict_get rule "description" with
            | Some (VStr desc) => _ | Some _ => _ | None => Ok e1 end)
    as [e2 | ex] eqn:E2; [| discriminate].
  set (e3 := match dict_get rule "scope" with
             | Some scope => _ | None => e2 end).
  set (e4 := match dict_get rule "abstraction_level" with
             | Some level => _ | None => e3 end).
  set (e5 := match dict_get rule "platform_context" with
             | Some (VDict pc) => _ | Some _ => _ | None => e4 end).
  intros H. injection H as <- <-. split; [reflexivity |].
  intros H5.
  (* platform context *)
  assert (H4 : Classifier.is_empty e4 = true
               /\ (forall v, dict_get rule "platform_context" = Some v ->
                     exists pc, v = VDict pc
                       /\ dict_contains pc "platform" = true
                       /\ dict_contains pc "extraction_method" = true)).
  { subst e5. destruct (dict_get rule "platform_context") as [v |].
    - destruct v as [| b | q | s | l | pc |];
        try (rewrite is_empty_snoc in H5; discriminate).
      apply step_if_empty in H5. destruct H5 as [Hm H5].
      apply step_if_empty in H5. destruct H5 as [Hp H5].
      apply negb_false_iff in Hm. apply negb_false_iff in Hp.
      split; [exact H5 |]. intros v Ev. injection Ev as <-. eauto.
    - split; [exact H5 | discriminate]. }
  destruct H4 as [H4 Hpc].
  assert (H3 : Classifier.is_empty e3 = true
               /\ (forall v, dict_get rule "abstraction_level" = Some v ->
                     val_in v valid_levels = true)).
  { subst e4. destruct (dict_get rule "abstraction_level") as [v |].
    - apply step_if_empty in H4. destruct H4 as [Hc H4].
      apply negb_false_iff in Hc. split; [exact H4 |].
      intros v' Ev. injection Ev as <-. exact Hc.
    - split; [exact H4 | discriminate]. }
  destruct H3 as [H3 Hlv].
  assert (H2 : Classifier.is_empty e2 = true
               /\ (forall v, dict_get rule "scope" = Some v ->
                     val_in v valid_scopes = true)).
  { subst e3. destruct (dict_get rule "scope") as [v |].
    - apply step_if_empty in H3. destruct H3 as [Hc H3].
      apply negb_false_iff in Hc. split; [exact H3 |].
      intros v' Ev. injection Ev as <-. exact Hc.
    - split; [exact H3 | discriminate]. }
  destruct H2 as [H2 Hsc].
  assert (H1 : Classifier.is_empty e1 = true
               /\ (forall v, dict_get rule "description" = Some v ->
                     exists d, v = VStr d
                       /\ (length (split_ws d) <= 20)%nat)).
  { destruct (dict_get rule "description") as [v |].
    - destruct v as [| b | q | d | l | pc |]; try discriminate E2.
      injection E2 as <-. apply step_if_empty in H2.
      destruct H2 as [Hc H2]. apply Nat.ltb_ge in Hc.
      split; [exact H2 |]. intros v Ev. injection Ev as <-. eauto.
    - injection E2 as <-. split; [exact H2 | discriminate]. }
  destruct H1 as [H1 Hd].
  assert (H0 : Classifier.is_empty e0 = true
               /\ (forall v, dict_get rule "confidence" = Some v ->
                     confidence_invalid v = false)).
  { subst e1. destruct (dict_get rule "confidence") as [v |].
    - apply step_if_empty in H1. destruct H1 as [Hc H1].
      split; [exact H1 |]. intros v' Ev. injection Ev as <-. exact Hc.
    - split; [exact H1 | discriminate]. }
  destruct H0 as [H0 Hconf].
  subst e0. apply missing_fold_empty in H0. destruct H0 as [_ Hall].
  assert (Hfields : Forall (fun field => dict_contains rule field = true)
                      required_fields).
  { apply List.Forall_forall. intros f Hf.
    apply (proj1 (List.forallb_forall _ _) Hall f Hf). }
  assert (Hget : forall f, In f required_fields ->
                   exists v, dict_get rule f = Some v).
  { intros f Hf. apply dict_contains_get.
    apply (proj1 (List.Forall_forall _ _) Hfields f Hf). }
  unfold accepted_rule. split; [exact Hfields |].
  split.
  { destruct (Hget "confidence"%string) as [v Ev];
      [unfold required_fields; simpl; tauto |].
    exists v. split; [exact Ev |].
    exact (confidence_valid_range v (Hconf v Ev)). }
  split.
  { destruct (Hget "description"%string) as [v Ev];
      [unfold required_fields; simpl; tauto |].
    destruct (Hd v Ev) as (d & -> & Hw). eauto. }
  split.
  { destruct (Hget "scope"%string) as [v Ev];
      [unfold required_fields; simpl; tauto |].
    destruct (val_in_string v _ (Hsc v Ev)) as (sc & -> & Hin). eauto. }
  split.
  { destruct (Hget "abstraction_level"%string) as [v Ev];
      [unfold required_fields; simpl; tauto |].
    destruct (val_in_string v _ (Hlv v Ev)) as (lv & -> & Hin). eauto. }
  destruct (Hget "platform_context"%string) as [v Ev];
    [unfold required_fields; simpl; tauto |].
  destruct (Hpc v Ev) as (pc & -> & Hp & He). eauto.
Qed.

Lemma confidence_range_valid (v : pyval) (c : Q) :
  as_number v = Some c -> 0 <= c -> c <= 1 -> confidence_invalid v = false.
Proof.
  intros E H0 H1.
  assert (E0 : Qle_bool 0.0 c = true) by (apply Qle_bool_iff; lra).
  assert (E1 : Qle_bool c 1.0 = true) by (apply Qle_bool_iff; lra).
  unfold confidence_invalid, Qltb.
  destruct v; try discriminate E; rewrite E, E0, E1; reflexivity.
Qed.

Lemma passes_range_valid (v : pyval) :
  passes_range_test v -> confidence_invalid v = false.
Proof.
  intros [-> | (c & E & H0 & H1)]; [reflexivity |].
  exact (confidence_range_valid v c E H0 H1).
Qed.

Lemma In_val_in (s : string) (xs : list string) :
  In s xs -> val_in (VStr s) xs = true.
Proof.
  intros H. unfold val_in. apply existsb_exists. exists s.
  split; [exact H | apply String.eqb_refl].
Qed.

Lemma validate_rule_complete (rule : pydict) :
  accepted_rule rule -> validate_rule rule = Ok (true, []).
Proof.
  intros (Hf & (v & Ev & Hv) & (d & Ed & Hw) & (sc & Es & Hs)
          & (lv & El & Hl) & (pc & Ep & Hp & He)).
  unfold required_fields in Hf.
  repeat match goal with
    | H : Forall _ (_ :: _) |- _ =>
        let Hx := fresh "Hx" in
        apply Forall_cons_1 in H; destruct H as [Hx H]
    end.
  unfold validate_rule, required_fields. cbn [fold_left].
  repeat match goal with Hx : dict_contains rule _ = true |- _ =>
    rewrite Hx; clear Hx end.
  cbn [negb]. rewrite Ev, Ed, Es, El, Ep.
  rewrite (passes_range_valid v Hv).
  rewrite (proj2 (Nat.ltb_ge 20 (length (split_ws d))) Hw).
  rewrite (In_val_in sc _ Hs), (In_val_in lv _ Hl), Hp, He.
  reflexivity.
Qed.

(** X12. [validate_rule] reports a record valid exactly when the seven
    required fields are there, the confidence passes the range test, the
    description is a string of at most 20 words, the scope and the
    abstraction level are in their enumerations, and the platform context
    is a dictionary with "platform" and "extraction_method". The range
    test is passed by a number in [0, 1] and also by the float NaN, with
    which neither comparison of the test holds: a record with a NaN
    confidence is reported valid. Whatever the record, the verdict is true
    exactly when the error list is empty. *)
Theorem validate_rule_accepts_exactly (rule : pydict) :
  (validate_rule rule = Ok (true, []) <-> accepted_rule rule)
  /\ (forall verdict errs,
        validate_rule rule = Ok (verdict, errs) ->
        verdict = Classifier.is_empty errs).
Proof.
  split; [split |].
  - intros H. apply (proj2 (validate_rule_sound rule true [] H)).
    reflexivity.
  - apply validate_rule_complete.
  - intros verdict errs H. apply (validate_rule_sound rule verdict errs H).
Qed.

Lemma validate_rule_accepts_exactly_witness :
  accepted_rule rule_with_context
  /\ validate_rule rule_with_nan_confidence = Ok (true, []).
Proof.
  split.
  - apply (proj1 (proj1 (validate_rule_accepts_exactly rule_with_context))).
    reflexivity.
  - apply (proj2 (proj1 (validate_rule_accepts_exactly
                           rule_with_nan_confidence))).
    split; [repeat constructor |].
    split; [exists VNaN; split; [reflexivity | left; reflexivity] |].
    split; [eexists; split; [reflexivity | vm_compute; lia] |].
    split; [eexists; split; [reflexivity | vm_compute; auto] |].
    split; [eexists; split; [reflexivity | vm_compute; auto] |].
    eexists. split; [reflexivity |]. split; reflexivity.
Defined.

Lemma validate_rule_returns_on_string (rule : pydict) (d : string) :
  dict_get rule "description" = Some (VStr d) ->
  exists verdict errs, validate_rule rule = Ok (verdict, errs).
Proof.
  intros E. unfold validate_rule. rewrite E. cbn [rbind].
  eexists _, _. reflexivity.
Qed.

(** X13. [validate_rule] raises only on a description that is not a
    string, and then with an attribute error; on every other record it
    returns a verdict with its error list. *)
Theorem validate_rule_raises_on_description_only (rule : pydict) :
  match dict_get rule "description" with
  | Some (VStr _) | None =>
      exists verdict errs, validate_rule rule = Ok (verdict, errs)
  | Some _ => validate_rule rule = Raise AttributeError
  end.
Proof.
  unfold validate_rule.
  destruct (dict_get rule "description") as [[| b | q | d | l | pc |] |];
    cbn [rbind]; try reflexivity; eexists _, _; reflexivity.
Qed.

(** *** Exported rules and pairs *)

Lemma exported_rule_verdict (rule : Generator.IntentRule) :
  exists errs,
    validate_rule (Generator._rule_to_dict rule)
    = Ok (rule_conforms rule, errs)
    /\ Classifier.is_empty errs = rule_conforms rule.
Proof.
  destruct (validate_rule_returns_on_string (Generator._rule_to_dict rule)
              (Generator.description rule) eq_refl)
    as (verdict & errs & E).
  destruct (validate_rule_sound _ _ _ E) as [Hv Hacc].
  exists errs. rewrite E. rewrite <- Hv.
  enough (verdict = rule_conforms rule) as ->; [split; reflexivity |].
  destruct verdict.
  - specialize (Hacc eq_refl).
    destruct Hacc as (_ & (conf & Ev & Hconf) & (d & Ed & Hw)
                      & (sc & Es & Hs) & (lv & El & Hl)
                      & (pc & Ep & Hp & He)).
    injection Ev as <-.
    destruct Hconf as [Hnan | (c & Ec & Hc0 & Hc1)]; [discriminate Hnan |].
    injection Ec as <-. injection Ed as <-. injection Es as <-.
    injection El as <-. injection Ep as Ep.
    unfold rule_conforms.
    rewrite (proj2 (Qle_bool_iff _ _) Hc0), (proj2 (Qle_bool_iff _ _) Hc1),
      (proj2 (Nat.leb_le _ _) Hw), (In_str_in _ _ Hs), (In_str_in _ _ Hl).
    destruct (Generator.platform_context rule) as [pc' |].
    + subst pc'. rewrite Hp, He. reflexivity.
    + subst pc. discriminate Hp.
  - destruct (rule_conforms rule) eqn:Hc; [| reflexivity].
    exfalso. unfold rule_conforms in Hc.
    repeat (apply andb_prop in Hc; destruct Hc as [Hc ?]).
    destruct (Generator.platform_context rule) as [pc |] eqn:Epc;
      [| discriminate].
    match goal with Hk : dict_contains pc "platform" && _ = true |- _ =>
      apply andb_prop in Hk; destruct Hk as [Hp He] end.
    rewrite validate_rule_complete in E; [discriminate |].
    unfold accepted_rule.
    split.
    { unfold required_fields. repeat constructor. }
    split.
    { exists (VNum (Generator.confidence rule)). split; [reflexivity |].
      right. exists (Generator.confidence rule). split; [reflexivity |].
      split; apply Qle_bool_iff; assumption. }
    split.
    { eexists. split; [reflexivity |]. apply Nat.leb_le. assumption. }
    split.
    { eexists. split; [reflexivity |]. apply str_in_In. assumption. }
    split.
    { eexists. split; [reflexivity |]. apply str_in_In. assumption. }
    exists pc. split; [| auto].
    change (dict_get (Generator._rule_to_dict rule) "platform_context")
      with (Some (VDict match Generator.platform_context rule with
                        | Some pc => pc
                        | None => []
                        end)).
    rewrite Epc. reflexivity.
Qed.

Lemma is_empty_app {A} (l m : list A) :
  Classifier.is_empty (l ++ m)
  = Classifier.is_empty l && Classifier.is_empty m.
Proof. destruct l, m; reflexivity. Qed.

Lemma is_empty_map {A B} (f : A -> B) (l : list A) :
  Classifier.is_empty (map f l) = Classifier.is_empty l.
Proof. destruct l; reflexivity. Qed.

Lemma format_pair_fields (iw ig : bool) (pair : Generator.PreferencePair) :
  dict_contains (Generator.format_pair iw ig pair) "input" = true
  /\ dict_contains (Generator.format_pair iw ig pair) "preferred" = true
  /\ dict_contains (Generator.format_pair iw ig pair) "rejected" = true
  /\ dict_get (Generator.format_pair iw ig pair) "preferred"
     = Some (VDict (Generator._rule_to_dict (Generator.preferred pair)))
  /\ dict_get (Generator.format_pair iw ig pair) "rejected"
     = Some (VDict (Generator._rule_to_dict (Generator.rejected pair)))
  /\ dict_get (Generator.format_pair iw ig pair) "weight"
     = (if iw && Generator.synthetic pair
        then Some (VNum (Generator.weight pair)) else None)
  /\ dict_get (Generator.format_pair iw ig pair) "source"
     = Some (VStr (if Generator.synthetic pair then "synthetic"
                   else "production")).
Proof.
  unfold Generator.format_pair, Generator.set_if_truthy.
  destruct iw, ig, (Generator.synthetic pair),
    (truthy_ostr (Generator.dimension_group pair)),
    (truthy_ostr (Generator.platform_group pair)),
    (truthy_ostr (Generator.artifact_group pair));
    repeat split; reflexivity.
Qed.

Lemma exported_pair_verdict (iw ig : bool)
    (pair : Generator.PreferencePair) :
  validate_preference_pair (Generator.format_pair iw ig pair)
  = Ok (true, [])
  <-> rule_conforms (Generator.preferred pair) = true
      /\ rule_conforms (Generator.rejected pair) = true
      /\ (iw && Generator.synthetic pair = true ->
          0 <= Generator.weight pair /\ Generator.weight pair <= 1).
Proof.
  destruct (format_pair_fields iw ig pair)
    as (Hi & Hp & Hr & Gp & Gr & Gw & _).
  destruct (exported_rule_verdict (Generator.preferred pair))
    as (ep & Ep & Hep).
  destruct (exported_rule_verdict (Generator.rejected pair))
    as (er & Er & Her).
  unfold validate_preference_pair. cbn [fold_left].
  rewrite Hi, Hp, Hr, Gp, Gr, Gw. cbn [negb validate_rule_value].
  rewrite Ep, Er. cbn [rbind fst snd app].
  assert (Hw : confidence_invalid (VNum (Generator.weight pair)) = false
               <-> 0 <= Generator.weight pair /\ Generator.weight pair <= 1).
  { split.
    - intros H. apply confidence_valid_range in H.
      destruct H as [H | (c & Ec & Hc)]; [discriminate H |].
      injection Ec as <-. exact Hc.
    - intros [H0 H1].
      apply (confidence_range_valid _ (Generator.weight pair));
        [reflexivity | exact H0 | exact H1]. }
  destruct (rule_conforms (Generator.preferred pair)) eqn:Cp;
    destruct (rule_conforms (Generator.rejected pair)) eqn:Cr;
    destruct ep as [| xp ep]; try discriminate Hep;
    destruct er as [| xr er]; try discriminate Her;
    destruct (iw && Generator.synthetic pair);
    destruct (confidence_invalid (VNum (Generator.weight pair))) eqn:Ei;
    cbn [negb app map Classifier.is_empty];
    (split;
     [ intros H;
       first
         [ discriminate H
         | split; [reflexivity |]; split; [reflexivity |]; intros Hb;
           first [discriminate Hb | apply Hw; reflexivity] ]
     | intros (H1 & H2 & H3);
       first
         [ discriminate H1
         | discriminate H2
         | reflexivity
         | exfalso; specialize (H3 eq_refl); apply Hw in H3;
           discriminate H3 ] ]).
Qed.

(** *** Any example *)

Lemma missing_fields_need_confidence (has : string -> bool) :
  has "confidence"%string = false ->
  Classifier.is_empty (missing_fields has) = false.
Proof.
  intros Hc. unfold missing_fields.
  destruct (Classifier.is_empty (fold_left _ required_fields [])) eqn:Em;
    [| reflexivity].
  apply missing_fold_empty in Em. destruct Em as [_ Em].
  unfold required_fields in Em. cbn [forallb] in Em.
  rewrite Hc, !andb_false_r in Em. discriminate Em.
Qed.

Lemma subscripted_confidence (has : string -> bool) :
  existsb has subscripted_fields = false -> has "confidence"%string = false.
Proof.
  unfold subscripted_fields. cbn [existsb]. intros H.
  apply orb_false_elim in H. exact (proj1 H).
Qed.

Lemma validate_rule_value_sound (v : pyval) (verdict : bool)
    (errs : list rule_error) :
  validate_rule_value v = Ok (verdict, errs) ->
  verdict = Classifier.is_empty errs
  /\ (verdict = true -> exists rule, v = VDict rule /\ accepted_rule rule).
Proof.
  destruct v as [| b | q | s | l | rule |]; cbn [validate_rule_value];
    try discriminate.
  - destruct (existsb _ subscripted_fields) eqn:Ex; [discriminate |].
    intros E. injection E as <- <-. split; [reflexivity |].
    rewrite (missing_fields_need_confidence _
               (subscripted_confidence _ Ex)).
    discriminate.
  - destruct (existsb _ subscripted_fields) eqn:Ex; [discriminate |].
    intros E. injection E as <- <-. split; [reflexivity |].
    rewrite (missing_fields_need_confidence _
               (subscripted_confidence _ Ex)).
    discriminate.
  - intros E. destruct (validate_rule_sound _ _ _ E) as [Hv Hacc].
    split; [exact Hv |]. intros Ht. exists rule. auto.
Qed.

Lemma checked_rule_step {E} (wrap : rule_error -> E) (v : pyval)
    (errors errors' : list E) :
  rbind (validate_rule_value v)
    (fun checked =>
       Ok (if negb (fst checked)
           then errors ++ map wrap (snd checked) else errors))
  = Ok errors' ->
  Classifier.is_empty errors' = true ->
  Classifier.is_empty errors = true
  /\ exists rule, v = VDict rule /\ accepted_rule rule.
Proof.
  destruct (validate_rule_value v) as [[verdict errs] | e] eqn:Ev;
    cbn [rbind fst snd]; [| discriminate].
  destruct (validate_rule_value_sound v verdict errs Ev) as [Hv Hacc].
  intros Hok He. injection Hok as <-.
  destruct verdict; cbn [negb] in He.
  - split; [exact He | apply Hacc; reflexivity].
  - rewrite is_empty_app, is_empty_map, <- Hv in He.
    rewrite andb_false_r in He. discriminate He.
Qed.

Lemma validate_pair_sound (pair : pydict) (verdict : bool)
    (errs : list pair_error) :
  validate_preference_pair pair = Ok (verdict, errs) ->
  verdict = Classifier.is_empty errs
  /\ (verdict = true -> accepted_pair pair).
Proof.
  unfold validate_preference_pair.
  set (e0 := fold_left _ ["input"; "preferred"; "rejected"]%string []).
  unfold rbind at 1.
  destruct (match dict_get pair "preferred" with
            | Some v => _ | None => Ok e0 end) as [e1 | ex] eqn:E1;
    [| discriminate].
  unfold rbind at 1.
  destruct (match dict_get pair "rejected" with
            | Some v => _ | None => Ok e1 end) as [e2 | ex] eqn:E2;
    [| discriminate].
  set (e3 := match dict_get pair "weight" with
             | Some weight => _ | None => e2 end).
  intros H. injection H as <- <-. split; [reflexivity |]. intros H3.
  assert (H2 : Classifier.is_empty e2 = true
               /\ forall w, dict_get pair "weight" = Some w ->
                     passes_range_test w).
  { subst e3. destruct (dict_get pair "weight") as [w |].
    - apply step_if_empty in H3. destruct H3 as [Hc H3].
      split; [exact H3 |]. intros w' Ew. injection Ew as <-.
      exact (confidence_valid_range w Hc).
    - split; [exact H3 | discriminate]. }
  destruct H2 as [H2 Hw].
  assert (Hrej : Classifier.is_empty e1 = true
                 /\ forall v, dict_get pair "rejected" = Some v ->
                       exists rule, v = VDict rule /\ accepted_rule rule).
  { destruct (dict_get pair "rejected") as [v |].
    - destruct (checked_rule_step RejectedRule v e1 e2 E2 H2) as [H1 Hr].
      split; [exact H1 |]. intros v' Ev. injection Ev as <-. exact Hr.
    - injection E2 as <-. split; [exact H2 | discriminate]. }
  destruct Hrej as [H1 Hr].
  assert (Hpref : Classifier.is_empty e0 = true
                  /\ forall v, dict_get pair "preferred" = Some v ->
                        exists rule, v = VDict rule /\ accepted_rule rule).
  { destruct (dict_get pair "preferred") as [v |].
    - destruct (checked_rule_step PreferredRule v e0 e1 E1 H1) as [H0 Hp].
      split; [exact H0 |]. intros v' Ev. injection Ev as <-. exact Hp.
    - injection E1 as <-. split; [exact H1 | discriminate]. }
  destruct Hpref as [H0 Hp].
  subst e0. apply missing_fold_empty in H0. destruct H0 as [_ Hall].
  cbn [forallb] in Hall.
  apply andb_prop in Hall. destruct Hall as [Hin Hall].
  apply andb_prop in Hall. destruct Hall as [Hpc Hall].
  apply andb_prop in Hall. destruct Hall as [Hrc _].
  apply dict_contains_get in Hpc. apply dict_contains_get in Hrc.
  destruct Hpc as [vp Evp]. destruct Hrc as [vr Evr].
  destruct (Hp vp Evp) as (rp & -> & Hap).
  destruct (Hr vr Evr) as (rr & -> & Har).
  unfold accepted_pair. eauto 10.
Qed.

Lemma validate_pair_complete (pair : pydict) :
  accepted_pair pair -> validate_preference_pair pair = Ok (true, []).
Proof.
  intros (Hi & (rp & Ep & Hp) & (rr & Er & Hr) & Hw).
  unfold validate_preference_pair. cbn [fold_left].
  rewrite Hi, (dict_get_contains _ _ _ Ep), (dict_get_contains _ _ _ Er).
  cbn [negb]. rewrite Ep, Er. cbn [validate_rule_value].
  rewrite (validate_rule_complete rp Hp), (validate_rule_complete rr Hr).
  cbn [rbind fst snd negb].
  destruct (dict_get pair "weight") as [w |]; [| reflexivity].
  rewrite (passes_range_valid w (Hw w eq_refl)). reflexivity.
Qed.

(** X14. [validate_preference_pair] reports an example valid exactly when
    it has an input, its preferred and its rejected entry are records
    that [validate_rule] accepts, and its weight, when there is one,
    passes the range test: a number in [0, 1], or NaN, which the test
    lets through for a weight as for a confidence. For a pair of the
    generator, whose confidences and weight are finite numbers, the
    example that [format_for_dpo] writes is reported valid exactly when
    both rules conform (confidence in [0, 1], at most 20 words, scope and
    abstraction level from their enumerations, a platform context with
    platform and extraction method) and, when the weight is exported, the
    weight lies in [0, 1]; the export never lacks a field that validation
    requires. *)
Theorem exported_pair_validates_exactly (example : pydict)
    (iw ig : bool) (pair : Generator.PreferencePair) :
  (validate_preference_pair example = Ok (true, [])
   <-> accepted_pair example)
  /\ (validate_preference_pair (Generator.format_pair iw ig pair)
      = Ok (true, [])
      <-> rule_conforms (Generator.preferred pair) = true
          /\ rule_conforms (Generator.rejected pair) = true
          /\ (iw && Generator.synthetic pair = true ->
              0 <= Generator.weight pair /\ Generator.weight pair <= 1)).
Proof.
  split; [split |].
  - intros H. apply (proj2 (validate_pair_sound example true [] H)).
    reflexivity.
  - apply validate_pair_complete.
  - apply exported_pair_verdict.
Qed.

Lemma exported_pair_validates_exactly_witness :
  accepted_pair pair_with_nan_weight
  /\ validate_preference_pair
       (Generator.format_pair true true
          (Generator.sample_pair "confidence" 0.3 conforming_rule
             conforming_rule))
     = Ok (true, []).
Proof.
  split.
  - apply (proj1 (proj1 (exported_pair_validates_exactly
                           pair_with_nan_weight true true
                           (Generator.sample_pair "confidence" 0.3
                              conforming_rule conforming_rule)))).
    reflexivity.
  - apply (proj2 (proj2 (exported_pair_validates_exactly
                           pair_with_nan_weight true true
                           (Generator.sample_pair "confidence" 0.3
                              conforming_rule conforming_rule)))).
    split; [reflexivity |]. split; [reflexivity |].
    intros _. split; discriminate.
Defined.

(** *** Batches *)

Lemma validate_batch_loop_spec {A E : Type}
    (validator_func : A -> res (bool * list E)) (items : list A) :
  forall i results out,
    validate_batch_loop validator_func items i results = Ok out ->
    total out = total results
    /\ (valid out + invalid out
        = valid results + invalid results + length items)%nat
    /\ exists added,
        errors out = errors results ++ added
        /\ (invalid out = invalid results + length added)%nat
        /\ Forall (fun e =>
                     exists k item,
                       fst e = (i + k)%nat
                       /\ nth_error items k = Some item
                       /\ validator_func item = Ok (false, snd e)) added.
Proof.
  induction items as [| item rest IH]; intros i results out; simpl.
  - intros E0. injection E0 as <-. split; [reflexivity |].
    split; [lia |]. exists []. rewrite List.app_nil_r.
    split; [reflexivity |]. split; [simpl; lia | constructor].
  - destruct (validator_func item) as [[verdict errs] | e] eqn:Ev;
      simpl; [| discriminate].
    intros H. apply IH in H.
    destruct H as (Ht & Hc & added & Ea & Hi & Hall).
    assert (Hshift : Forall (fun e =>
                       exists k item0,
                         fst e = (i + k)%nat
                         /\ nth_error (item :: rest) k = Some item0
                         /\ validator_func item0 = Ok (false, snd e))
                       added).
    { apply (Forall_impl _ _ _ Hall). intros e (k & it & Hk & Hn & Hf).
      exists (S k), it. split; [lia |]. auto. }
    destruct verdict; simpl in *.
    + split; [exact Ht |]. split; [lia |].
      exists added. auto.
    + split; [exact Ht |]. split; [lia |].
      exists ((i, errs) :: added). rewrite <- List.app_assoc in Ea.
      split; [exact Ea |]. split; [simpl; lia |].
      constructor; [| exact Hshift].
      exists 0%nat, item. simpl. split; [lia |]. auto.
Qed.

(** X15. When [validate_batch] returns, its counts add up: the total is the
    number of items, valid and invalid together make the total, and there
    is one error entry per invalid item, each carrying the index of an item
    that the validator reported invalid together with that item's
    errors. *)
Theorem validate_batch_counts {A E : Type} (items : list A)
    (validator_func : A -> res (bool * list E)) (out : batch_results E) :
  validate_batch items validator_func = Ok out ->
  total out = length items
  /\ (valid out + invalid out)%nat = length items
  /\ length (errors out) = invalid out
  /\ Forall (fun e =>
               exists item,
                 nth_error items (fst e) = Some item
                 /\ validator_func item = Ok (false, snd e))
       (errors out).
Proof.
  unfold validate_batch. intros H. apply validate_batch_loop_spec in H.
  simpl in H. destruct H as (Ht & Hc & added & Ea & Hi & Hall).
  split; [exact Ht |]. split; [exact Hc |].
  rewrite Ea. split; [simpl; lia |].
  apply (Forall_impl _ _ _ Hall). intros e (k & item & Hk & Hn & Hf).
  exists item. rewrite Hk. auto.
Qed.

Lemma validate_batch_counts_witness :
  total {| total := 2; valid := 1; invalid := 1;
           errors :=
             [(1%nat, [MissingRequiredField "platform_context"])] |}
  = length [rule_with_context; rule_without_context]
  /\ (valid {| total := 2; valid := 1; invalid := 1;
               errors :=
                 [(1%nat, [MissingRequiredField "platform_context"])] |}
      + invalid {| total := 2; valid := 1; invalid := 1;
                   errors :=
                     [(1%nat, [MissingRequiredField "platform_context"])] |})%nat
     = length [rule_with_context; rule_without_context]
  /\ length (errors {| total := 2; valid := 1; invalid := 1;
                       errors :=
                         [(1%nat,
                           [MissingRequiredField "platform_context"])] |})
     = invalid {| total := 2; valid := 1; invalid := 1;
                  errors :=
                    [(1%nat, [MissingRequiredField "platform_context"])] |}
  /\ Forall (fun e =>
               exists item,
                 nth_error [rule_with_context; rule_without_context] (fst e)
                 = Some item
                 /\ validate_rule item = Ok (false, snd e))
       (errors {| total := 2; valid := 1; invalid := 1;
                  errors :=
                    [(1%nat,
                      [MissingRequiredField "platform_context"])] |}).
Proof.
  apply (validate_batch_counts [rule_with_context; rule_without_context]
           validate_rule).
  reflexivity.
Defined.

End ValidatorExtras.

(** * The keyword classifier: learning and rewarding *)

Module ClassifierExtras.
Import Py Classifier PyFacts.
Local Open Scope Q_scope.

(** *** Reading a dict after a write *)

Lemma dict_get_after_set {V} (d : list (string * V)) (k k2 : string)
    (v : V) :
  dict_get (dict_set d k v) k2
  = if String.eqb k k2 then Some v else dict_get d k2.
Proof.
  induction d as [| [k' v'] rest IH]; simpl; [reflexivity |].
  destruct (String.eqb k' k) eqn:E; simpl.
  - apply String.eqb_eq in E. subst k'.
    destruct (String.eqb k k2); reflexivity.
  - rewrite IH. destruct (String.eqb k k2) eqn:E2; [| reflexivity].
    apply String.eqb_eq in E2. subst k2. rewrite E. reflexivity.
Qed.

Lemma dict_get_after_pop {V} (d : list (string * V)) (k k2 : string) :
  dict_get (dict_pop d k) k2
  = if String.eqb k k2 then None else dict_get d k2.
Proof.
  unfold dict_pop.
  induction d as [| [k' v'] rest IH]; simpl.
  - destruct (String.eqb k k2); reflexivity.
  - destruct (String.eqb k' k) eqn:E; simpl.
    + apply String.eqb_eq in E. subst k'. rewrite IH.
      destruct (String.eqb k k2); reflexivity.
    + rewrite IH. destruct (String.eqb k k2) eqn:E2; [| reflexivity].
      apply String.eqb_eq in E2. subst k2. rewrite E. reflexivity.
Qed.

Lemma dict_contains_as_get {V} (d : list (string * V)) (k : string) :
  dict_contains d k
  = match dict_get d k with Some _ => true | None => false end.
Proof.
  induction d as [| [k' v'] rest IH]; simpl; [reflexivity |].
  destruct (String.eqb k' k); [reflexivity | exact IH].
Qed.

(** Case analysis on a comparison of strings, replacing equals. *)
Ltac eqb_cases :=
  repeat match goal with
    | |- context [String.eqb ?a ?b] =>
        let E := fresh "E" in
        destruct (String.eqb a b) eqn:E;
        [apply String.eqb_eq in E; subst | ]
    | H : String.eqb ?a ?a = false |- _ =>
        rewrite String.eqb_refl in H; discriminate H
    end.

(** Close a goal about lookups by the equations at hand. *)
Ltac lookup_done :=
  repeat first
    [ reflexivity
    | rewrite String.eqb_refl
    | progress cbn [dict_get dict_set andb negb]
    | match goal with
      | H : String.eqb _ _ = false |- _ => rewrite H
      | H : dict_get _ _ = _ |- _ => rewrite H
      end ].

(** *** One learned word *)

Lemma stored_reward_learn_word (p d : string)
    (pk : list (string * list (string * list (string * Q))))
    (w p2 d2 k2 : string) :
  stored_reward (learn_word p d pk w) p2 d2 k2
  = if String.eqb p p2 && String.eqb d d2 && String.eqb w k2
    then match stored_reward pk p d w with
         | Some r => Some r
         | None => Some 0.0
         end
    else stored_reward pk p2 d2 k2.
Proof.
  unfold learn_word, dd_getitem, stored_reward.
  destruct (dict_get pk p) as [by_dim |] eqn:Ep;
    [destruct (dict_get by_dim d) as [table |] eqn:Ed;
     [rewrite dict_contains_as_get;
      destruct (dict_get table w) as [r |] eqn:Ew |] |];
    cbn [negb dict_get dict_contains dict_set];
    rewrite ?dict_get_after_set;
    (destruct (String.eqb p p2) eqn:E1;
     [apply String.eqb_eq in E1; subst p2 |]);
    cbn [andb]; rewrite ?Ep; rewrite ?dict_get_after_set;
    try reflexivity;
    (destruct (String.eqb d d2) eqn:E2;
     [apply String.eqb_eq in E2; subst d2 |]);
    cbn [andb dict_get]; rewrite ?Ed; rewrite ?dict_get_after_set;
    try reflexivity;
    (destruct (String.eqb w k2) eqn:E3;
     [apply String.eqb_eq in E3; subst k2 |]);
    lookup_done.
Qed.

Lemma stored_reward_new_platform
    (pk : list (string * list (string * list (string * Q))))
    (p p2 d2 k2 : string) :
  stored_reward
    (if negb (dict_contains pk p) then dict_set pk p [] else pk) p2 d2 k2
  = stored_reward pk p2 d2 k2.
Proof.
  unfold stored_reward. rewrite dict_contains_as_get.
  destruct (dict_get pk p) eqn:Ep; cbn [negb]; [reflexivity |].
  rewrite dict_get_after_set.
  destruct (String.eqb p p2) eqn:E1; [| reflexivity].
  apply String.eqb_eq in E1. subst p2. rewrite Ep. reflexivity.
Qed.

Lemma stored_reward_learn_words (p d : string) (ws : list string) :
  forall (pk : list (string * list (string * list (string * Q))))
         (p2 d2 k2 : string),
    stored_reward (fold_left (learn_word p d) ws pk) p2 d2 k2
    = if String.eqb p p2 && String.eqb d d2 && str_in k2 ws
      then match stored_reward pk p2 d2 k2 with
           | Some r => Some r
           | None => Some 0.0
           end
      else stored_reward pk p2 d2 k2.
Proof.
  induction ws as [| w ws IH]; intros pk p2 d2 k2; cbn [fold_left].
  - unfold str_in. cbn [existsb]. rewrite !andb_false_r. reflexivity.
  - rewrite IH. rewrite !stored_reward_learn_word.
    unfold str_in. cbn [existsb]. fold (str_in k2 ws).
    rewrite (String.eqb_sym k2 w).
    destruct (String.eqb p p2) eqn:E1; cbn [andb]; [| reflexivity].
    destruct (String.eqb d d2) eqn:E2; cbn [andb]; [| reflexivity].
    apply String.eqb_eq in E1. apply String.eqb_eq in E2. subst p2 d2.
    destruct (String.eqb w k2) eqn:E3; cbn [orb].
    + apply String.eqb_eq in E3. subst k2.
      destruct (str_in w ws), (stored_reward pk p d w); reflexivity.
    + reflexivity.
Qed.

(** *** The words that are learned *)

Lemma keep_word_length (cur w : string) :
  In w (keep_word cur) -> (3 <= String.length w)%nat.
Proof.
  unfold keep_word.
  destruct (3 <=? String.length cur)%nat eqn:E; [| intros []].
  intros [<- | []]. apply Nat.leb_le. exact E.
Qed.

Lemma findall_words_from_length (s cur w : string) :
  In w (findall_words_from cur s) -> (3 <= String.length w)%nat.
Proof.
  revert cur. induction s as [| c rest IH]; intros cur; cbn [findall_words_from].
  - apply keep_word_length.
  - destruct (is_word_char c); [apply IH |].
    intros H. apply in_app_or in H. destruct H as [H | H].
    + exact (keep_word_length _ _ H).
    + exact (IH _ H).
Qed.

Lemma to_set_In (x : string) (xs : list string) :
  In x (to_set xs) -> In x xs.
Proof.
  induction xs as [| y rest IH]; cbn [to_set]; [intros [] |].
  intros [E | H]; [left; exact E |].
  apply List.filter_In in H. right. apply IH. exact (proj1 H).
Qed.

Lemma significant_words_spec (description w : string) :
  In w (significant_words description) ->
  (3 <= String.length w)%nat /\ ~ In w STOP_WORDS.
Proof.
  unfold significant_words. intros H.
  apply List.filter_In in H. destruct H as [H Hs]. split.
  - apply to_set_In in H. exact (findall_words_from_length _ _ _ H).
  - intros Hin. apply ValidatorExtras.In_str_in in Hin.
    rewrite Hin in Hs. discriminate Hs.
Qed.

Lemma significant_words_empty : significant_words "" = [].
Proof. reflexivity. Qed.

(** *** One rule *)

Lemma learn_from_rule_result (rule : rule_dict)
    (self : PlatformKeywordClassifier) :
  fst (learn_from_rule rule self)
  = if readable rule then Ok tt else Raise AttributeError.
Proof.
  unfold learn_from_rule, readable, learn_platform.
  destruct (dict_get _ "platform") as [[| | | | | |] |]; cbn;
    try reflexivity;
    destruct (negb (truthy_ostr (get_design_dimension rule))
              || negb (truthy_str (ostr_value (get_description rule))));
    reflexivity.
Qed.

Lemma learn_from_rule_spec (rule : rule_dict)
    (self : PlatformKeywordClassifier) :
  let self' := snd (learn_from_rule rule self) in
  keyword_performance self' = keyword_performance self
  /\ (forall p d k r,
        stored_reward (platform_keywords self) p d k = Some r ->
        stored_reward (platform_keywords self') p d k = Some r)
  /\ (forall p d k r,
        stored_reward (platform_keywords self') p d k = Some r ->
        stored_reward (platform_keywords self) p d k = Some r
        \/ (r = 0.0 /\ teaches rule p d k))
  /\ (forall p d k,
        teaches rule p d k ->
        exists r, stored_reward (platform_keywords self') p d k = Some r).
Proof.
  unfold learn_from_rule, teaches.
  destruct (learn_platform rule) as [platform | e] eqn:Ep; cbn zeta.
  2: { cbn [snd]. repeat split; auto.
       intros p d k (E & _). discriminate E. }
  destruct (negb (truthy_ostr (get_design_dimension rule))
            || negb (truthy_str (ostr_value (get_description rule))))
    eqn:Eskip; cbn [snd platform_keywords keyword_performance].
  - repeat split; auto.
    intros p d k (_ & Ed & Hd & Hin). exfalso.
    apply orb_true_iff in Eskip. destruct Eskip as [E | E];
      apply negb_true_iff in E.
    + rewrite Ed in E. cbn in E. apply negb_false_iff in E.
      apply String.eqb_eq in E. exact (Hd E).
    + unfold truthy_str in E. apply negb_false_iff in E.
      apply String.eqb_eq in E. rewrite E in Hin. exact Hin.
  - apply orb_false_iff in Eskip. destruct Eskip as [Ed _].
    apply negb_false_iff in Ed.
    destruct (get_design_dimension rule) as [dm |] eqn:Edm;
      [| discriminate Ed].
    cbn [ostr_value]. cbn in Ed. apply negb_true_iff in Ed.
    assert (Hdm : dm <> ""%string)
      by (intros ->; discriminate Ed).
    repeat split.
    + intros p d k r Hr.
      rewrite stored_reward_learn_words, stored_reward_new_platform.
      rewrite Hr. destruct (_ && _); reflexivity.
    + intros p d k r Hr.
      rewrite stored_reward_learn_words, stored_reward_new_platform in Hr.
      destruct (String.eqb platform p) eqn:E1; cbn [andb] in Hr;
        [| left; exact Hr].
      destruct (String.eqb dm d) eqn:E2; cbn [andb] in Hr;
        [| left; exact Hr].
      destruct (str_in k _) eqn:E3; [| left; exact Hr].
      apply String.eqb_eq in E1. apply String.eqb_eq in E2. subst p d.
      destruct (stored_reward (platform_keywords self) platform dm k);
        [left; exact Hr |].
      right. injection Hr as <-.
      apply ValidatorExtras.str_in_In in E3. auto.
    + intros p d k (E1 & E2 & _ & Hin).
      injection E1 as <-. injection E2 as <-.
      rewrite stored_reward_learn_words, stored_reward_new_platform.
      rewrite !String.eqb_refl. cbn [andb].
      rewrite (ValidatorExtras.In_str_in _ _ Hin).
      destruct (stored_reward (platform_keywords self) platform dm k);
        eauto.
Qed.

(** *** A list of rules *)

Lemma learn_from_rules_cons (rule : rule_dict) (rest : list rule_dict)
    (mc : Q) (self : PlatformKeywordClassifier) :
  learn_from_rules (rule :: rest) mc self
  = if readable rule
    then learn_from_rules rest mc (snd (learn_from_rule rule self))
    else (Raise AttributeError, snd (learn_from_rule rule self)).
Proof.
  cbn [learn_from_rules]. unfold bind.
  pose proof (learn_from_rule_result rule self) as H.
  destruct (learn_from_rule rule self) as [[[] | e] self1];
    cbn [fst snd] in *; destruct (readable rule);
    try discriminate H; try reflexivity.
  injection H as ->. reflexivity.
Qed.

Lemma learn_from_rules_spec (rules : list rule_dict) (mc : Q) :
  forall self : PlatformKeywordClassifier,
    let self' := snd (learn_from_rules rules mc self) in
    keyword_performance self' = keyword_performance self
    /\ (forall p d k r,
          stored_reward (platform_keywords self) p d k = Some r ->
          stored_reward (platform_keywords self') p d k = Some r)
    /\ (forall p d k r,
          stored_reward (platform_keywords self') p d k = Some r ->
          stored_reward (platform_keywords self) p d k = Some r
          \/ (r = 0.0 /\ exists rule, In rule rules /\ teaches rule p d k)).
Proof.
  induction rules as [| rule rest IH]; intros self; cbn zeta.
  - cbn. repeat split; auto.
  - rewrite learn_from_rules_cons.
    destruct (learn_from_rule_spec rule self) as (K1 & P1 & N1 & _).
    cbn zeta in K1, P1, N1.
    destruct (readable rule).
    + destruct (IH (snd (learn_from_rule rule self))) as (K2 & P2 & N2).
      cbn zeta in K2, P2, N2. repeat split.
      * rewrite K2. exact K1.
      * intros p d k r Hr. apply P2, P1, Hr.
      * intros p d k r Hr. apply N2 in Hr.
        destruct Hr as [Hr | (Hz & rule' & Hin & Ht)].
        -- apply N1 in Hr. destruct Hr as [Hr | (Hz & Ht)];
             [left; exact Hr |].
           right. split; [exact Hz |]. exists rule. split;
             [left; reflexivity | exact Ht].
        -- right. split; [exact Hz |]. exists rule'. split;
             [right; exact Hin | exact Ht].
    + cbn [snd]. repeat split.
      * exact K1.
      * exact P1.
      * intros p d k r Hr. apply N1 in Hr.
        destruct Hr as [Hr | (Hz & Ht)]; [left; exact Hr |].
        right. split; [exact Hz |]. exists rule. split;
          [left; reflexivity | exact Ht].
Qed.

(** X17. [learn_from_rules] only ever adds candidates: it leaves the
    performance counters alone, keeps the reward of every keyword that is
    already stored, and every keyword it stores anew has reward [0.0], is
    at least three characters long, is no stop word and is a significant
    word of the description of one of the given rules, filed under that
    rule's dimension and its platform in lower case. This holds whether
    the call returns or raises. *)
Theorem learn_from_rules_only_adds_candidates (rules : list rule_dict)
    (min_confidence : Q) (self : PlatformKeywordClassifier) :
  let self' := snd (learn_from_rules rules min_confidence self) in
  keyword_performance self' = keyword_performance self
  /\ (forall p d k r,
        stored_reward (platform_keywords self) p d k = Some r ->
        stored_reward (platform_keywords self') p d k = Some r)
  /\ (forall p d k r,
        stored_reward (platform_keywords self') p d k = Some r ->
        stored_reward (platform_keywords self) p d k = Some r
        \/ (r = 0.0
            /\ (3 <= String.length k)%nat
            /\ ~ In k STOP_WORDS
            /\ exists rule, In rule rules /\ teaches rule p d k)).
Proof.
  destruct (learn_from_rules_spec rules min_confidence self)
    as (K & P & N).
  cbn zeta in *. repeat split; [exact K | exact P |].
  intros p d k r Hr. apply N in Hr.
  destruct Hr as [Hr | (Hz & rule & Hin & Ht)]; [left; exact Hr |].
  right. destruct (significant_words_spec _ _ (proj2 (proj2 (proj2 Ht))))
    as (Hl & Hs).
  repeat split; eauto.
Qed.

Lemma learn_from_rules_only_adds_candidates_witness :
  stored_reward (platform_keywords __init__) "figma" "spacing" "padding"
  = Some 0.0
  \/ (0.0 = 0.0
      /\ (3 <= String.length "padding")%nat
      /\ ~ In "padding"%string STOP_WORDS
      /\ exists rule,
           In rule [sample_rule_dict]
           /\ teaches rule "figma" "spacing" "padding").
Proof.
  apply (proj2 (proj2 (learn_from_rules_only_adds_candidates
                         [sample_rule_dict] 0.6 __init__))
           "figma" "spacing" "padding" 0.0)%string.
  reflexivity.
Defined.

Lemma learn_from_rules_complete (rules : list rule_dict) (mc : Q) :
  forall self : PlatformKeywordClassifier,
    forallb readable rules = true ->
    forall rule p d k,
      In rule rules -> teaches rule p d k ->
      exists r,
        stored_reward
          (platform_keywords (snd (learn_from_rules rules mc self))) p d k
        = Some r.
Proof.
  induction rules as [| rule0 rest IH]; intros self Hall rule p d k Hin Ht;
    [destruct Hin |].
  cbn [forallb] in Hall. apply andb_true_iff in Hall.
  destruct Hall as [H0 Hrest].
  rewrite learn_from_rules_cons, H0.
  destruct Hin as [-> | Hin].
  - destruct (learn_from_rule_spec rule self) as (_ & _ & _ & C).
    destruct (C p d k Ht) as (r & Hr).
    destruct (learn_from_rules_spec rest mc (snd (learn_from_rule rule self)))
      as (_ & P & _).
    exists r. apply P. exact Hr.
  - exact (IH _ Hrest rule p d k Hin Ht).
Qed.

Lemma learn_from_rules_result (rules : list rule_dict) (mc : Q) :
  forall self : PlatformKeywordClassifier,
    fst (learn_from_rules rules mc self)
    = if forallb readable rules then Ok tt else Raise AttributeError.
Proof.
  induction rules as [| rule rest IH]; intros self; [reflexivity |].
  rewrite learn_from_rules_cons. cbn [forallb].
  destruct (readable rule); cbn [andb]; [apply IH | reflexivity].
Qed.

(** X18. [learn_from_rules] returns exactly when the platform of every
    rule is a string or missing, and raises [AttributeError] otherwise
    (also for a rule it would skip). When it returns, every significant
    word of every rule that has a dimension is stored afterwards under
    the rule's platform and dimension. *)
Theorem learn_from_rules_learns_every_word (rules : list rule_dict)
    (min_confidence : Q) (self : PlatformKeywordClassifier) :
  fst (learn_from_rules rules min_confidence self)
  = (if forallb readable rules then Ok tt else Raise AttributeError)
  /\ (forallb readable rules = true ->
      forall rule p d k,
        In rule rules -> teaches rule p d k ->
        exists r,
          stored_reward
            (platform_keywords
               (snd (learn_from_rules rules min_confidence self))) p d k
          = Some r).
Proof.
  split.
  - apply learn_from_rules_result.
  - intros Hall. apply learn_from_rules_complete. exact Hall.
Qed.

Lemma learn_from_rules_learns_every_word_witness :
  exists r,
    stored_reward
      (platform_keywords
         (snd (learn_from_rules [sample_rule_dict] 0.6 __init__)))
      "figma" "spacing" "cards"
    = Some r.
Proof.
  apply (proj2 (learn_from_rules_learns_every_word [sample_rule_dict] 0.6
                  __init__)
           eq_refl sample_rule_dict "figma" "spacing" "cards")%string.
  - left. reflexivity.
  - unfold teaches. split; [reflexivity |]. split; [reflexivity |].
    split; [discriminate |]. vm_compute. auto.
Defined.

(** *** Rewarding one keyword *)

Lemma stored_reward_reward_keyword (min_accuracy : Q) (p d : string)
    (pk : list (string * list (string * list (string * Q))))
    (item : string * perf) (p2 d2 k2 : string) :
  stored_reward (reward_keyword min_accuracy p d pk item) p2 d2 k2
  = if String.eqb p p2 && String.eqb d d2 && String.eqb (fst item) k2
    then rewarded min_accuracy (snd item) (stored_reward pk p2 d2 k2)
    else stored_reward pk p2 d2 k2.
Proof.
  destruct item as [w pf]. cbn [fst snd].
  unfold reward_keyword, rewarded. cbn [fst snd].
  destruct (0 <? total pf)%Z.
  2: { destruct (_ && _); reflexivity. }
  destruct (Qle_bool min_accuracy (accuracy pf)).
  - unfold dd_getitem, stored_reward. rewrite dict_contains_as_get.
    destruct (dict_get pk p) as [by_dim |] eqn:Ep;
      [destruct (dict_get by_dim d) as [table |] eqn:Ed |];
      cbn [negb dict_get dict_contains dict_set];
      rewrite ?dict_get_after_set; rewrite ?String.eqb_refl;
      rewrite ?Ep; rewrite ?Ed;
      cbn [negb dict_get dict_contains dict_set];
      rewrite ?dict_get_after_set;
      (destruct (String.eqb p p2) eqn:E1;
       [apply String.eqb_eq in E1; subst p2 |]);
      cbn [andb]; rewrite ?Ep; rewrite ?dict_get_after_set;
      try reflexivity;
      (destruct (String.eqb d d2) eqn:E2;
       [apply String.eqb_eq in E2; subst d2 |]);
      cbn [andb dict_get]; rewrite ?Ed; rewrite ?dict_get_after_set;
      try reflexivity;
      (destruct (String.eqb w k2) eqn:E3;
       [apply String.eqb_eq in E3; subst k2 |]);
      lookup_done.
  - unfold stored_reward.
    destruct (dict_get pk p) as [by_dim |] eqn:Ep;
      [destruct (dict_get by_dim d) as [table |] eqn:Ed |];
      rewrite ?dict_get_after_set;
      (destruct (String.eqb p p2) eqn:E1;
       [apply String.eqb_eq in E1; subst p2 |]);
      cbn [andb]; rewrite ?Ep; rewrite ?dict_get_after_set;
      try reflexivity;
      (destruct (String.eqb d d2) eqn:E2;
       [apply String.eqb_eq in E2; subst d2 |]);
      cbn [andb]; rewrite ?Ed; rewrite ?dict_get_after_pop;
      try reflexivity;
      (destruct (String.eqb w k2) eqn:E3;
       [apply String.eqb_eq in E3; subst k2 |]);
      lookup_done.
Qed.

Lemma rewarded_twice (min_accuracy : Q) (p : perf) (old : option Q) :
  rewarded min_accuracy p (rewarded min_accuracy p old)
  = rewarded min_accuracy p old.
Proof.
  unfold rewarded. destruct (0 <? total p)%Z; [| reflexivity].
  destruct (Qle_bool min_accuracy (accuracy p)); reflexivity.
Qed.

(** *** The three loops as one *)

Lemma fold_left_flat_map {A B C} (f : A -> C -> A) (g : B -> list C)
    (l : list B) :
  forall a : A,
    fold_left f (flat_map g l) a
    = fold_left (fun a b => fold_left f (g b) a) l a.
Proof.
  induction l as [| b rest IH]; intros a; cbn [flat_map fold_left];
    [reflexivity |].
  rewrite fold_left_app. apply IH.
Qed.

Lemma fold_left_map_items {A B C} (f : A -> C -> A) (g : B -> C)
    (l : list B) :
  forall a : A,
    fold_left f (map g l) a = fold_left (fun a b => f a (g b)) l a.
Proof.
  induction l as [| b rest IH]; intros a; cbn [map fold_left];
    [reflexivity | apply IH].
Qed.

Lemma fold_left_ext_fun {A B} (f g : A -> B -> A) (l : list B) :
  (forall a b, f a b = g a b) ->
  forall a : A, fold_left f l a = fold_left g l a.
Proof.
  intros E. induction l as [| b rest IH]; intros a; cbn [fold_left];
    [reflexivity |].
  rewrite E. apply IH.
Qed.

Lemma reward_all_counters (min_accuracy : Q)
    (kp : list (string * list (string * list (string * perf))))
    (pk : list (string * list (string * list (string * Q)))) :
  reward_all min_accuracy kp pk
  = fold_left
      (fun pk (c : string * string * (string * perf)) =>
         reward_keyword min_accuracy (fst (fst c)) (snd (fst c)) pk (snd c))
      (counters kp) pk.
Proof.
  unfold reward_all, counters.
  rewrite fold_left_flat_map.
  apply fold_left_ext_fun. intros a [p dims]. cbn [fst snd].
  rewrite fold_left_flat_map.
  apply fold_left_ext_fun. intros a' [d kws]. cbn [fst snd].
  rewrite fold_left_map_items. reflexivity.
Qed.

Lemma stored_reward_counters (min_accuracy : Q) (p2 d2 k2 : string)
    (pf : perf) (cs : list (string * string * (string * perf))) :
  (forall pf', In (p2, d2, (k2, pf')) cs -> pf' = pf) ->
  forall pk : list (string * list (string * list (string * Q))),
    stored_reward
      (fold_left
         (fun pk (c : string * string * (string * perf)) =>
            reward_keyword min_accuracy (fst (fst c)) (snd (fst c)) pk
              (snd c))
         cs pk) p2 d2 k2
    = if existsb
           (fun c : string * string * (string * perf) =>
              String.eqb (fst (fst c)) p2 && String.eqb (snd (fst c)) d2
              && String.eqb (fst (snd c)) k2) cs
      then rewarded min_accuracy pf (stored_reward pk p2 d2 k2)
      else stored_reward pk p2 d2 k2.
Proof.
  induction cs as [| [[p d] [w pf0]] rest IH]; intros Hu pk;
    cbn [fold_left existsb fst snd]; [reflexivity |].
  rewrite IH by (intros pf' Hin; apply Hu; right; exact Hin).
  rewrite stored_reward_reward_keyword. cbn [fst snd].
  destruct (String.eqb p p2 && String.eqb d d2 && String.eqb w k2) eqn:E;
    cbn [orb]; [| reflexivity].
  apply andb_true_iff in E. destruct E as [E E3].
  apply andb_true_iff in E. destruct E as [E1 E2].
  apply String.eqb_eq in E1. apply String.eqb_eq in E2.
  apply String.eqb_eq in E3. subst p d w.
  rewrite (Hu pf0) by (left; reflexivity).
  rewrite rewarded_twice. destruct (existsb _ rest); reflexivity.
Qed.

(** *** Counters and lookups *)

Lemma dict_get_In {V} (d : list (string * V)) (k : string) (v : V) :
  dict_get d k = Some v -> In (k, v) d.
Proof.
  induction d as [| [k' v'] rest IH]; cbn [dict_get]; [discriminate |].
  destruct (String.eqb k' k) eqn:E.
  - apply String.eqb_eq in E. subst k'. intros H. injection H as ->.
    left. reflexivity.
  - intros H. right. exact (IH H).
Qed.

Lemma In_dict_get {V} (d : list (string * V)) (k : string) (v : V) :
  NoDup (map fst d) -> In (k, v) d -> dict_get d k = Some v.
Proof.
  induction d as [| [k' v'] rest IH]; cbn [dict_get map fst];
    intros Hn Hin; [destruct Hin |].
  apply NoDup_cons in Hn. destruct Hn as [Hk Hn].
  destruct Hin as [E | Hin].
  - injection E as -> ->. rewrite String.eqb_refl. reflexivity.
  - destruct (String.eqb k' k) eqn:E.
    + apply String.eqb_eq in E. subst k'. exfalso. apply Hk.
      apply list_elem_of_In. apply in_map_iff.
      exists (k, v). split; [reflexivity | exact Hin].
    + exact (IH Hn Hin).
Qed.

Lemma In_counters
    (kp : list (string * list (string * list (string * perf))))
    (p d k : string) (pf : perf) :
  In (p, d, (k, pf)) (counters kp)
  <-> exists by_dim table,
        In (p, by_dim) kp /\ In (d, table) by_dim /\ In (k, pf) table.
Proof.
  unfold counters. rewrite in_flat_map. split.
  - intros ([p' by_dim] & Hp & H). cbn [fst snd] in H.
    apply in_flat_map in H. destruct H as ([d' table] & Hd & H).
    cbn [fst snd] in H. apply in_map_iff in H.
    destruct H as ([k' pf'] & E & Hk). injection E as -> -> -> ->.
    eauto.
  - intros (by_dim & table & Hp & Hd & Hk).
    exists (p, by_dim). split; [exact Hp |]. cbn [fst snd].
    apply in_flat_map. exists (d, table). split; [exact Hd |].
    cbn [fst snd]. apply in_map_iff. exists (k, pf). auto.
Qed.

Lemma stored_perf_counters
    (kp : list (string * list (string * list (string * perf))))
    (p d k : string) (pf : perf) :
  stored_perf kp p d k = Some pf -> In (p, d, (k, pf)) (counters kp).
Proof.
  unfold stored_perf. intros H. apply In_counters.
  destruct (dict_get kp p) as [by_dim |] eqn:Ep; [| discriminate H].
  destruct (dict_get by_dim d) as [table |] eqn:Ed; [| discriminate H].
  exists by_dim, table.
  repeat split; apply dict_get_In; assumption.
Qed.

Lemma counters_stored_perf
    (kp : list (string * list (string * list (string * perf))))
    (p d k : string) (pf : perf) :
  unique_keys kp ->
  In (p, d, (k, pf)) (counters kp) -> stored_perf kp p d k = Some pf.
Proof.
  intros [Hn Hall] Hin. apply In_counters in Hin.
  destruct Hin as (by_dim & table & Hp & Hd & Hk).
  unfold stored_perf.
  rewrite (In_dict_get _ _ _ Hn Hp).
  rewrite List.Forall_forall in Hall.
  destruct (Hall _ Hp) as [Hnd Hd_all]. cbn [snd] in Hnd, Hd_all.
  rewrite (In_dict_get _ _ _ Hnd Hd).
  rewrite List.Forall_forall in Hd_all.
  pose proof (Hd_all _ Hd) as Hnk. cbn [snd] in Hnk.
  exact (In_dict_get _ _ _ Hnk Hk).
Qed.

Lemma counters_mention
    (p2 d2 k2 : string) (cs : list (string * string * (string * perf))) :
  existsb
    (fun c : string * string * (string * perf) =>
       String.eqb (fst (fst c)) p2 && String.eqb (snd (fst c)) d2
       && String.eqb (fst (snd c)) k2) cs = true
  <-> exists pf, In (p2, d2, (k2, pf)) cs.
Proof.
  rewrite existsb_exists. split.
  - intros ([[p d] [k pf]] & Hin & E). cbn [fst snd] in E.
    apply andb_true_iff in E. destruct E as [E E3].
    apply andb_true_iff in E. destruct E as [E1 E2].
    apply String.eqb_eq in E1. apply String.eqb_eq in E2.
    apply String.eqb_eq in E3. subst. eauto.
  - intros (pf & Hin). exists (p2, d2, (k2, pf)). split; [exact Hin |].
    cbn [fst snd]. rewrite !String.eqb_refl. reflexivity.
Qed.

Lemma update_rewards_lookup (min_accuracy : Q)
    (self : PlatformKeywordClassifier) (p d k : string) :
  unique_keys (keyword_performance self) ->
  stored_reward
    (platform_keywords (snd (update_rewards min_accuracy self))) p d k
  = match stored_perf (keyword_performance self) p d k with
    | Some pf =>
        rewarded min_accuracy pf
          (stored_reward (platform_keywords self) p d k)
    | None => stored_reward (platform_keywords self) p d k
    end.
Proof.
  intros Hu. unfold update_rewards.
  cbn [snd platform_keywords]. rewrite reward_all_counters.
  destruct (stored_perf (keyword_performance self) p d k) as [pf |] eqn:E.
  - rewrite (stored_reward_counters min_accuracy p d k pf).
    + apply stored_perf_counters in E.
      assert (M : existsb
                    (fun c : string * string * (string * perf) =>
                       String.eqb (fst (fst c)) p
                       && String.eqb (snd (fst c)) d
                       && String.eqb (fst (snd c)) k)
                    (counters (keyword_performance self)) = true)
        by (apply counters_mention; eauto).
      rewrite M. reflexivity.
    + intros pf' Hin. apply (counters_stored_perf _ _ _ _ _ Hu) in Hin.
      congruence.
  - rewrite (stored_reward_counters min_accuracy p d k fresh_perf).
    + destruct (existsb _ _) eqn:M; [| reflexivity].
      apply counters_mention in M. destruct M as (pf & Hin).
      apply (counters_stored_perf _ _ _ _ _ Hu) in Hin. congruence.
    + intros pf' Hin. apply (counters_stored_perf _ _ _ _ _ Hu) in Hin.
      congruence.
Qed.

(** X19. [update_rewards] returns, leaves the performance counters alone
    and, on a performance table with unique keys, decides every keyword by
    its own counter: with a positive total the stored reward becomes the
    accuracy when that reaches [min_accuracy] and the keyword is removed
    when it does not; a keyword without a counter, or with an empty one,
    keeps what it had. *)
Theorem update_rewards_decides_by_accuracy (min_accuracy : Q)
    (self : PlatformKeywordClassifier) :
  unique_keys (keyword_performance self) ->
  let self' := snd (update_rewards min_accuracy self) in
  fst (update_rewards min_accuracy self) = Ok tt
  /\ keyword_performance self' = keyword_performance self
  /\ (forall p d k pf,
        stored_perf (keyword_performance self) p d k = Some pf ->
        (0 < total pf)%Z ->
        (min_accuracy <= accuracy pf ->
         stored_reward (platform_keywords self') p d k
         = Some (accuracy pf))
        /\ (accuracy pf < min_accuracy ->
            stored_reward (platform_keywords self') p d k = None))
  /\ (forall p d k,
        match stored_perf (keyword_performance self) p d k with
        | Some pf => (total pf <= 0)%Z
        | None => True
        end ->
        stored_reward (platform_keywords self') p d k
        = stored_reward (platform_keywords self) p d k).
Proof.
  intros Hu. cbn zeta. split; [reflexivity |]. split; [reflexivity |].
  split.
  - intros p d k pf E Ht.
    rewrite (update_rewards_lookup _ _ _ _ _ Hu), E. unfold rewarded.
    apply Z.ltb_lt in Ht. rewrite Ht. split; intros H.
    + apply Qle_bool_iff in H. rewrite H. reflexivity.
    + destruct (Qle_bool min_accuracy (accuracy pf)) eqn:Eb;
        [| reflexivity].
      apply Qle_bool_iff in Eb. exfalso.
      exact (Qlt_not_le _ _ H Eb).
  - intros p d k H.
    rewrite (update_rewards_lookup _ _ _ _ _ Hu).
    destruct (stored_perf (keyword_performance self) p d k) as [pf |];
      [| reflexivity].
    unfold rewarded. apply Z.ltb_ge in H. rewrite H. reflexivity.
Qed.

Lemma accuracy_bounds (pf : perf) :
  (0 <= correct pf <= total pf)%Z -> (0 < total pf)%Z ->
  0 <= accuracy pf /\ accuracy pf <= 1.
Proof.
  intros [Hc Hct] Ht. unfold accuracy.
  assert (Hpos : 0 < inject_Z (total pf)).
  { change 0 with (inject_Z 0). rewrite <- Zlt_Qlt. exact Ht. }
  split.
  - apply Qle_shift_div_l; [exact Hpos |].
    rewrite Qmult_0_l. change 0 with (inject_Z 0).
    rewrite <- Zle_Qle. exact Hc.
  - apply Qle_shift_div_r; [exact Hpos |].
    rewrite Qmult_1_l. rewrite <- Zle_Qle. exact Hct.
Qed.

(** X20. After [update_rewards], a keyword whose counter has a positive
    total and [0 <= correct <= total] is either removed or carries a
    reward that is at least [min_accuracy] and lies in [0, 1]. *)
Theorem update_rewards_reward_in_range (min_accuracy : Q)
    (self : PlatformKeywordClassifier) (p d k : string) (pf : perf)
    (r : Q) :
  unique_keys (keyword_performance self) ->
  stored_perf (keyword_performance self) p d k = Some pf ->
  (0 <= correct pf <= total pf)%Z ->
  (0 < total pf)%Z ->
  stored_reward
    (platform_keywords (snd (update_rewards min_accuracy self))) p d k
  = Some r ->
  min_accuracy <= r /\ 0 <= r /\ r <= 1.
Proof.
  intros Hu E Ho Ht Hr.
  rewrite (update_rewards_lookup _ _ _ _ _ Hu), E in Hr.
  unfold rewarded in Hr.
  apply Z.ltb_lt in Ht. rewrite Ht in Hr. apply Z.ltb_lt in Ht.
  destruct (Qle_bool min_accuracy (accuracy pf)) eqn:Eb;
    [| discriminate Hr].
  injection Hr as <-. apply Qle_bool_iff in Eb.
  split; [exact Eb |]. exact (accuracy_bounds pf Ho Ht).
Qed.

(** *** Tracking one word *)

Lemma stored_perf_track_word (p d : string) (c : bool)
    (kp : list (string * list (string * list (string * perf))))
    (w p2 d2 k2 : string) :
  stored_perf (track_word p d c kp w) p2 d2 k2
  = if String.eqb p p2 && String.eqb d d2 && String.eqb w k2
    then Some (observed c
                 match stored_perf kp p d w with
                 | Some pf => pf
                 | None => fresh_perf
                 end)
    else stored_perf kp p2 d2 k2.
Proof.
  unfold track_word, dd_getitem, stored_perf, observed.
  destruct (dict_get kp p) as [by_dim |] eqn:Ep;
    [destruct (dict_get by_dim d) as [table |] eqn:Ed;
     [rewrite dict_contains_as_get;
      destruct (dict_get table w) as [pf |] eqn:Ew |] |];
    cbn [negb dict_get dict_contains dict_set];
    rewrite ?dict_get_after_set; rewrite ?String.eqb_refl; rewrite ?Ew;
    (destruct (String.eqb p p2) eqn:E1;
     [apply String.eqb_eq in E1; subst p2 |]);
    cbn [andb]; rewrite ?Ep; rewrite ?dict_get_after_set;
    try reflexivity;
    (destruct (String.eqb d d2) eqn:E2;
     [apply String.eqb_eq in E2; subst d2 |]);
    cbn [andb dict_get]; rewrite ?Ed; rewrite ?dict_get_after_set;
    try reflexivity;
    (destruct (String.eqb w k2) eqn:E3;
     [apply String.eqb_eq in E3; subst k2 |]);
    destruct c; cbn [correct total fresh_perf]; lookup_done.
Qed.

Lemma stored_perf_track_words (p d : string) (c : bool)
    (ws : list string) :
  NoDup ws ->
  forall (kp : list (string * list (string * list (string * perf))))
         (p2 d2 k2 : string),
    stored_perf (fold_left (track_word p d c) ws kp) p2 d2 k2
    = if String.eqb p p2 && String.eqb d d2 && str_in k2 ws
      then Some (observed c
                   match stored_perf kp p2 d2 k2 with
                   | Some pf => pf
                   | None => fresh_perf
                   end)
      else stored_perf kp p2 d2 k2.
Proof.
  induction ws as [| w ws IH]; intros Hn kp p2 d2 k2; cbn [fold_left].
  - unfold str_in. cbn [existsb]. rewrite !andb_false_r. reflexivity.
  - apply NoDup_cons in Hn. destruct Hn as [Hw Hn].
    rewrite (IH Hn). rewrite !stored_perf_track_word.
    unfold str_in. cbn [existsb]. fold (str_in k2 ws).
    rewrite (String.eqb_sym k2 w).
    destruct (String.eqb p p2) eqn:E1; cbn [andb]; [| reflexivity].
    destruct (String.eqb d d2) eqn:E2; cbn [andb]; [| reflexivity].
    apply String.eqb_eq in E1. apply String.eqb_eq in E2. subst p2 d2.
    destruct (String.eqb w k2) eqn:E3; cbn [orb]; [| reflexivity].
    apply String.eqb_eq in E3. subst k2.
    destruct (str_in w ws) eqn:E4; [| reflexivity].
    exfalso. apply Hw. apply list_elem_of_In.
    exact (ValidatorExtras.str_in_In _ _ E4).
Qed.

(** *** Keys stay unique *)

Lemma dict_set_keys {V} (d : list (string * V)) (k : string) (v : V) :
  map fst (dict_set d k v)
  = if dict_contains d k then map fst d else map fst d ++ [k].
Proof.
  induction d as [| [k' v'] rest IH]; cbn [dict_set dict_contains map fst];
    [reflexivity |].
  destruct (String.eqb k' k); cbn [map fst]; [reflexivity |].
  rewrite IH. destruct (dict_contains rest k); reflexivity.
Qed.

Lemma dict_contains_keys {V} (d : list (string * V)) (k : string) :
  dict_contains d k = false -> ~ In k (map fst d).
Proof.
  induction d as [| [k' v'] rest IH]; cbn [dict_contains map fst];
    [intros _ [] |].
  destruct (String.eqb k' k) eqn:E; [discriminate |].
  intros H [E' | Hin]; [| exact (IH H Hin)].
  subst k'. rewrite String.eqb_refl in E. discriminate E.
Qed.

Lemma NoDup_dict_set {V} (d : list (string * V)) (k : string) (v : V) :
  NoDup (map fst d) -> NoDup (map fst (dict_set d k v)).
Proof.
  intros Hn. rewrite dict_set_keys.
  destruct (dict_contains d k) eqn:E; [exact Hn |].
  apply NoDup_app. split; [exact Hn |].
  split; [| apply NoDup_singleton].
  intros x Hx Hx'. apply list_elem_of_singleton in Hx'. subst x.
  apply (dict_contains_keys _ _ E). apply list_elem_of_In. exact Hx.
Qed.

Lemma Forall_dict_set {V} (P : string * V -> Prop) (d : list (string * V))
    (k : string) (v : V) :
  Forall P d -> P (k, v) -> Forall P (dict_set d k v).
Proof.
  intros Hd Hv.
  induction d as [| [k' v'] rest IH]; cbn [dict_set].
  - constructor; [exact Hv | constructor].
  - apply List.Forall_cons_iff in Hd. destruct Hd as [H0 Hrest].
    destruct (String.eqb k' k) eqn:E.
    + apply String.eqb_eq in E. subst k'.
      constructor; [exact Hv | exact Hrest].
    + constructor; [exact H0 | exact (IH Hrest)].
Qed.

Lemma Forall_dict_get {V} (P : string * V -> Prop) (d : list (string * V))
    (k : string) (v : V) :
  Forall P d -> dict_get d k = Some v -> P (k, v).
Proof.
  intros Hd E. rewrite List.Forall_forall in Hd.
  apply Hd. exact (dict_get_In _ _ _ E).
Qed.

Lemma unique_keys_set {V}
    (t : list (string * list (string * list (string * V))))
    (p : string) (by_dim : list (string * list (string * V))) :
  unique_keys t ->
  NoDup (map fst by_dim) ->
  Forall (fun d => NoDup (map fst (snd d))) by_dim ->
  unique_keys (dict_set t p by_dim).
Proof.
  intros [Hn Ha] H1 H2. split.
  - apply NoDup_dict_set. exact Hn.
  - apply Forall_dict_set; [exact Ha |]. split; assumption.
Qed.

Lemma unique_keys_get {V}
    (t : list (string * list (string * list (string * V))))
    (p : string) (by_dim : list (string * list (string * V))) :
  unique_keys t ->
  dict_get t p = Some by_dim ->
  NoDup (map fst by_dim)
  /\ Forall (fun d => NoDup (map fst (snd d))) by_dim.
Proof.
  intros [_ Ha] E.
  exact (Forall_dict_get _ _ _ _ Ha E).
Qed.

Lemma track_word_unique (p d : string) (c : bool)
    (kp : list (string * list (string * list (string * perf))))
    (w : string) :
  unique_keys kp -> unique_keys (track_word p d c kp w).
Proof.
  intros Hu. unfold track_word, dd_getitem.
  destruct (dict_get kp p) as [by_dim |] eqn:Ep.
  - destruct (unique_keys_get _ _ _ Hu Ep) as [Hb1 Hb2].
    destruct (dict_get by_dim d) as [table |] eqn:Ed.
    + pose proof (Forall_dict_get _ _ _ _ Hb2 Ed) as Ht. cbn [snd] in Ht.
      apply unique_keys_set; [exact Hu | |].
      * apply NoDup_dict_set. exact Hb1.
      * apply Forall_dict_set; [exact Hb2 |]. cbn [snd].
        apply NoDup_dict_set.
        destruct (negb (dict_contains table w));
          [apply NoDup_dict_set |]; exact Ht.
    + apply unique_keys_set; [exact Hu | |].
      * do 2 apply NoDup_dict_set. exact Hb1.
      * apply Forall_dict_set;
          [apply Forall_dict_set; [exact Hb2 | constructor] |].
        cbn [snd]. apply NoDup_dict_set.
        destruct (negb (dict_contains [] w));
          [apply NoDup_dict_set |]; constructor.
  - cbn [dict_get]. apply unique_keys_set.
    + apply unique_keys_set; [exact Hu | constructor | constructor].
    + apply NoDup_dict_set. apply NoDup_dict_set. constructor.
    + apply Forall_dict_set;
        [apply Forall_dict_set; [constructor | constructor] |].
      cbn [snd]. apply NoDup_dict_set.
      destruct (negb (dict_contains [] w));
        [apply NoDup_dict_set |]; constructor.
Qed.

Lemma track_words_unique (p d : string) (c : bool) (ws : list string) :
  forall kp : list (string * list (string * list (string * perf))),
    unique_keys kp -> unique_keys (fold_left (track_word p d c) ws kp).
Proof.
  induction ws as [| w ws IH]; intros kp Hu; cbn [fold_left];
    [exact Hu |].
  apply IH. apply track_word_unique. exact Hu.
Qed.

Lemma track_word_in_order (p d : string) (c : bool)
    (kp : list (string * list (string * list (string * perf))))
    (w : string) :
  counters_in_order kp -> counters_in_order (track_word p d c kp w).
Proof.
  intros Ho p2 d2 k2 pf E. rewrite stored_perf_track_word in E.
  destruct (String.eqb p p2 && String.eqb d d2 && String.eqb w k2);
    [| exact (Ho _ _ _ _ E)].
  injection E as <-.
  destruct (stored_perf kp p d w) as [pf0 |] eqn:E0.
  - pose proof (Ho _ _ _ _ E0). unfold observed.
    destruct c; cbn [correct total]; lia.
  - unfold observed. destruct c; cbn; lia.
Qed.

Lemma track_words_in_order (p d : string) (c : bool) (ws : list string) :
  forall kp : list (string * list (string * list (string * perf))),
    counters_in_order kp ->
    counters_in_order (fold_left (track_word p d c) ws kp).
Proof.
  induction ws as [| w ws IH]; intros kp Ho; cbn [fold_left];
    [exact Ho |].
  apply IH. apply track_word_in_order. exact Ho.
Qed.

(** X21. [_track_performance] with a platform counts every word of the
    description once: under the platform and the predicted dimension,
    [total] of the word's counter goes up by one (starting from zero for a
    new word) and [correct] goes up by one exactly when the prediction is
    the ground truth. Every other counter and all learned keywords stay
    as they were. Without a platform nothing changes. *)
Theorem track_performance_counts (description_words : list string)
    (predicted_dimension ground_truth_dimension : string)
    (platform : option string) (self : PlatformKeywordClassifier) :
  NoDup description_words ->
  let run :=
    _track_performance description_words predicted_dimension
      ground_truth_dimension platform self in
  fst run = Ok tt
  /\ platform_keywords (snd run) = platform_keywords self
  /\ (truthy_ostr platform = false -> snd run = self)
  /\ (truthy_ostr platform = true ->
      (forall w,
          In w description_words ->
          stored_perf (keyword_performance (snd run))
            (ostr_value platform) predicted_dimension w
          = Some (observed
                    (String.eqb predicted_dimension ground_truth_dimension)
                    match stored_perf (keyword_performance self)
                            (ostr_value platform) predicted_dimension w with
                    | Some pf => pf
                    | None => fresh_perf
                    end))
      /\ (forall p d k,
            ~ (p = ostr_value platform /\ d = predicted_dimension
               /\ In k description_words) ->
            stored_perf (keyword_performance (snd run)) p d k
            = stored_perf (keyword_performance self) p d k)).
Proof.
  intros Hn. cbn zeta. unfold _track_performance.
  destruct (truthy_ostr platform) eqn:Ep; cbn [negb fst snd].
  - split; [reflexivity |]. split; [reflexivity |].
    split; [discriminate |]. intros _.
    cbn [keyword_performance]. split.
    + intros w Hin. rewrite (stored_perf_track_words _ _ _ _ Hn).
      rewrite !String.eqb_refl. cbn [andb].
      rewrite (ValidatorExtras.In_str_in _ _ Hin). reflexivity.
    + intros p d k Hne. rewrite (stored_perf_track_words _ _ _ _ Hn).
      destruct (String.eqb (ostr_value platform) p) eqn:E1; cbn [andb];
        [| reflexivity].
      destruct (String.eqb predicted_dimension d) eqn:E2; cbn [andb];
        [| reflexivity].
      destruct (str_in k description_words) eqn:E3; [| reflexivity].
      exfalso. apply Hne.
      apply String.eqb_eq in E1. apply String.eqb_eq in E2.
      apply ValidatorExtras.str_in_In in E3. auto.
  - split; [reflexivity |]. split; [reflexivity |].
    split; [reflexivity | discriminate].
Qed.

Lemma sample_words_distinct : NoDup ["padding"; "cards"]%string.
Proof.
  apply NoDup_cons. split; [| apply NoDup_singleton].
  intros H. apply list_elem_of_singleton in H. discriminate H.
Qed.

Lemma track_performance_counts_witness :
  stored_perf
    (keyword_performance
       (snd (_track_performance ["padding"; "cards"]%string "spacing"
               "spacing" (Some "figma"%string) __init__)))
    "figma" "spacing" "cards"
  = Some sample_counter.
Proof.
  apply (proj1 (proj2 (proj2 (proj2
           (track_performance_counts ["padding"; "cards"]%string
              "spacing" "spacing" (Some "figma"%string) __init__
              sample_words_distinct)))
           eq_refl)).
  right. left. reflexivity.
Defined.

(** *** Every state the methods can reach *)

Lemma init_unique_keys : unique_keys (keyword_performance __init__).
Proof. split; constructor. Qed.

Lemma init_counters_in_order :
  counters_in_order (keyword_performance __init__).
Proof. intros p d k pf E. discriminate E. Qed.

Lemma after_call_keeps_counters (self : PlatformKeywordClassifier)
    (c : method_call) :
  unique_keys (keyword_performance self) ->
  counters_in_order (keyword_performance self) ->
  unique_keys (keyword_performance (after_call self c))
  /\ counters_in_order (keyword_performance (after_call self c)).
Proof.
  intros Hu Ho. destruct c as [ds sc ex pl | rules mc | ws pd gt pl | m];
    cbn [after_call].
  - destruct (ClassifierProofs.classify_dimension_never_tracks
                _track_performance ds sc ex pl self) as (res & E).
    unfold classify_dimension. rewrite E. cbn [snd]. auto.
  - destruct (learn_from_rules_spec rules mc self) as (K & _).
    cbn zeta in K. rewrite K. auto.
  - unfold _track_performance.
    destruct (negb (truthy_ostr pl)); cbn [snd keyword_performance];
      [auto |].
    split; [apply track_words_unique | apply track_words_in_order];
      assumption.
  - cbn. auto.
Qed.

Lemma after_calls_from (calls : list method_call) :
  forall self : PlatformKeywordClassifier,
    unique_keys (keyword_performance self) ->
    counters_in_order (keyword_performance self) ->
    unique_keys (keyword_performance (fold_left after_call calls self))
    /\ counters_in_order
         (keyword_performance (fold_left after_call calls self)).
Proof.
  induction calls as [| c rest IH]; intros self Hu Ho; cbn [fold_left];
    [auto |].
  destruct (after_call_keeps_counters self c Hu Ho) as [Hu' Ho'].
  exact (IH _ Hu' Ho').
Qed.

Lemma update_rewards_decides_by_accuracy_witness :
  stored_reward
    (platform_keywords (snd (update_rewards 0.6 sample_tracked)))
    "figma" "spacing" "padding"
  = Some (accuracy sample_counter).
Proof.
  apply (proj1 (proj2 (proj2 (update_rewards_decides_by_accuracy 0.6
                                sample_tracked
                                (proj1 (after_calls_from _ __init__
                                          init_unique_keys
                                          init_counters_in_order)))))
           "figma" "spacing" "padding" sample_counter)%string.
  - reflexivity.
  - reflexivity.
  - discriminate.
Defined.

Lemma update_rewards_reward_in_range_witness :
  0.6 <= accuracy sample_counter
  /\ 0 <= accuracy sample_counter /\ accuracy sample_counter <= 1.
Proof.
  apply (update_rewards_reward_in_range 0.6 sample_tracked
           "figma" "spacing" "padding" sample_counter)%string.
  - exact (proj1 (after_calls_from _ __init__ init_unique_keys
                    init_counters_in_order)).
  - reflexivity.
  - cbn. lia.
  - reflexivity.
  - reflexivity.
Defined.

(** X22. Whatever methods are called on a new classifier, in whatever
    order and with whatever arguments, its performance table keeps unique
    keys at all three levels and every counter keeps
    [0 <= correct <= total]. *)
Theorem counters_stay_in_order (calls : list method_call) :
  unique_keys (keyword_performance (after_calls calls))
  /\ counters_in_order (keyword_performance (after_calls calls)).
Proof.
  unfold after_calls.
  apply after_calls_from;
    [apply init_unique_keys | apply init_counters_in_order].
Qed.

Lemma after_call_keeps_rewards (self : PlatformKeywordClassifier)
    (c : method_call) :
  unique_keys (keyword_performance self) ->
  counters_in_order (keyword_performance self) ->
  (forall p d k r,
      stored_reward (platform_keywords self) p d k = Some r ->
      0 <= r /\ r <= 1) ->
  forall p d k r,
    stored_reward (platform_keywords (after_call self c)) p d k = Some r ->
    0 <= r /\ r <= 1.
Proof.
  intros Hu Ho Hr p d k r.
  destruct c as [ds sc ex pl | rules mc | ws pd gt pl | m];
    cbn [after_call].
  - destruct (ClassifierProofs.classify_dimension_never_tracks
                _track_performance ds sc ex pl self) as (res & E).
    unfold classify_dimension. rewrite E. cbn [snd]. apply Hr.
  - destruct (learn_from_rules_spec rules mc self) as (_ & _ & N).
    cbn zeta in N. intros E. apply N in E.
    destruct E as [E | (-> & _)]; [exact (Hr _ _ _ _ E) |].
    split; discriminate.
  - unfold _track_performance.
    destruct (negb (truthy_ostr pl)); cbn [snd platform_keywords];
      apply Hr.
  - rewrite (update_rewards_lookup _ _ _ _ _ Hu).
    destruct (stored_perf (keyword_performance self) p d k) as [pf |] eqn:E;
      [| apply Hr].
    unfold rewarded. destruct (0 <? total pf)%Z eqn:Et; [| apply Hr].
    destruct (Qle_bool m (accuracy pf)); [| discriminate].
    intros H. injection H as <-. apply Z.ltb_lt in Et.
    exact (accuracy_bounds pf (Ho _ _ _ _ E) Et).
Qed.

Lemma after_calls_rewards (calls : list method_call) :
  forall self : PlatformKeywordClassifier,
    unique_keys (keyword_performance self) ->
    counters_in_order (keyword_performance self) ->
    (forall p d k r,
        stored_reward (platform_keywords self) p d k = Some r ->
        0 <= r /\ r <= 1) ->
    forall p d k r,
      stored_reward
        (platform_keywords (fold_left after_call calls self)) p d k
      = Some r ->
      0 <= r /\ r <= 1.
Proof.
  induction calls as [| c rest IH]; intros self Hu Ho Hr; cbn [fold_left];
    [exact Hr |].
  destruct (after_call_keeps_counters self c Hu Ho) as [Hu' Ho'].
  apply (IH _ Hu' Ho').
  exact (after_call_keeps_rewards self c Hu Ho Hr).
Qed.

(** X23. Whatever methods are called on a new classifier, every reward it
    stores for a learned keyword lies between 0 and 1. *)
Theorem learned_rewards_stay_in_unit_interval (calls : list method_call)
    (p d k : string) (r : Q) :
  stored_reward (platform_keywords (after_calls calls)) p d k = Some r ->
  0 <= r /\ r <= 1.
Proof.
  unfold after_calls.
  apply after_calls_rewards;
    [apply init_unique_keys | apply init_counters_in_order |].
  intros p' d' k' r' E. discriminate E.
Qed.

Lemma learned_rewards_stay_in_unit_interval_witness :
  0 <= 0.0 /\ 0.0 <= 1.
Proof.
  apply (learned_rewards_stay_in_unit_interval
           [Learn [sample_rule_dict] 0.6] "figma" "spacing" "padding").
  reflexivity.
Defined.

(** *** What a classification looks like *)

Lemma dict_set_In_inv {V} (d : list (string * V)) (k k2 : string)
    (v v2 : V) :
  In (k2, v2) (dict_set d k v) -> (k2 = k /\ v2 = v) \/ In (k2, v2) d.
Proof.
  induction d as [| [k' v'] rest IH]; cbn [dict_set].
  - intros [E | []]. injection E as <- <-. left. auto.
  - destruct (String.eqb k' k) eqn:Ek.
    + apply String.eqb_eq in Ek. subst k'.
      intros [E | H]; [injection E as <- <-; left; auto |].
      right. right. exact H.
    + intros [E | H]; [right; left; exact E |].
      apply IH in H. destruct H as [H | H]; [left; exact H |].
      right. right. exact H.
Qed.

Lemma In_dict_get_key {V} (d : list (string * V)) (k : string) (v : V) :
  In (k, v) d -> exists v', dict_get d k = Some v' /\ In (k, v') d.
Proof.
  induction d as [| [k' v'] rest IH]; cbn [dict_get]; [intros [] |].
  intros [E | H].
  - injection E as -> ->. rewrite String.eqb_refl. exists v.
    split; [reflexivity | left; reflexivity].
  - destruct (String.eqb k' k) eqn:Ek.
    + apply String.eqb_eq in Ek. subst k'. exists v'.
      split; [reflexivity | left; reflexivity].
    + destruct (IH H) as (v2 & E2 & H2). exists v2.
      split; [exact E2 | right; exact H2].
Qed.

Lemma max_by_score_In (items : list (string * Q)) :
  forall best, In (max_by_score best items) (best :: items).
Proof.
  induction items as [| item rest IH]; intros best; cbn [max_by_score].
  - left. reflexivity.
  - destruct (Qltb (snd best) (snd item)).
    + right. apply IH.
    + destruct (IH best) as [E | H]; [left; exact E |].
      right. right. exact H.
Qed.

Lemma Qltb_lt (a b : Q) : Qltb a b = true -> a < b.
Proof.
  unfold Qltb. intros H. apply negb_true_iff in H.
  exact (Qle_bool_false_lt _ _ H).
Qed.

Lemma score_dimensions_positive (description_lower : string)
    (on_platform : option string) (names : list string)
    (dims : list (string * list string)) :
  forall dimension_scores matched_keywords_by_dim self,
    (forall k v, In (k, v) dimension_scores -> 0 < v /\ In k names) ->
    (forall k, In k (map fst dims) -> In k names) ->
    exists scored,
      score_dimensions description_lower on_platform dims dimension_scores
        matched_keywords_by_dim self
      = (Ok scored, self)
      /\ forall k v, In (k, v) (fst scored) -> 0 < v /\ In k names.
Proof.
  induction dims as [| [dim base_keywords] rest IH];
    intros ds mk self Hds Hnames; cbn [score_dimensions].
  - eexists. split; [reflexivity | exact Hds].
  - unfold bind at 1.
    destruct (ClassifierProofs.pure_score_dimension description_lower
                on_platform dim base_keywords self) as [sm Es].
    rewrite Es.
    assert (Hrest : forall k, In k (map fst rest) -> In k names)
      by (intros k Hk; apply Hnames; right; exact Hk).
    destruct (Qltb 0 (fst sm)) eqn:Eq; [| exact (IH _ _ _ Hds Hrest)].
    apply IH; [| exact Hrest].
    intros k v Hin. apply dict_set_In_inv in Hin.
    destruct Hin as [[-> ->] | Hin]; [| exact (Hds _ _ Hin)].
    split; [exact (Qltb_lt _ _ Eq) |].
    apply Hnames. left. reflexivity.
Qed.

(** X24. [classify_dimension] always returns, echoes the platform and
    gives one of four shapes of result. An explicit dimension wins and is
    returned with confidence 1. Otherwise a keyword result names one of
    the eight base dimensions with a confidence above 0 and at most 1; a
    scope result needs a scope and has confidence 0.5; the fallback needs
    the scope to be missing and is [general] with confidence 0.3. *)
Theorem classification_is_well_formed (description : string)
    (scope explicit_dimension on_platform : option string)
    (self : PlatformKeywordClassifier) :
  exists result,
    classify_dimension description scope explicit_dimension on_platform self
    = (Ok result, self)
    /\ platform result = on_platform
    /\ (if truthy_ostr explicit_dimension
        then method result = "explicit"%string
             /\ dimension result = ostr_value explicit_dimension
             /\ confidence result = 1.0
             /\ matched_keywords result = []
        else (method result = "keywords"%string
              /\ In (dimension result) (map fst BASE_DESIGN_DIMENSIONS)
              /\ 0 < confidence result /\ confidence result <= 1)
             \/ (method result = "scope"%string
                 /\ truthy_ostr scope = true
                 /\ dimension result = scope_dimension (ostr_value scope)
                 /\ confidence result = 0.5
                 /\ matched_keywords result = [])
             \/ (method result = "fallback"%string
                 /\ truthy_ostr scope = false
                 /\ dimension result = "general"%string
                 /\ confidence result = 0.3
                 /\ matched_keywords result = [])).
Proof.
  unfold classify_dimension, classify_dimension_with.
  destruct (truthy_ostr explicit_dimension) eqn:He.
  - eexists. split; [reflexivity |]. cbn. auto.
  - unfold bind at 1.
    destruct (score_dimensions_positive (lower description) on_platform
                (map fst BASE_DESIGN_DIMENSIONS) BASE_DESIGN_DIMENSIONS
                [] [] self) as (scored & Es & Hs).
    { intros k v []. }
    { intros k Hk. exact Hk. }
    rewrite Es.
    destruct (fst scored) as [| first others] eqn:Ef.
    + cbn [is_empty andb]. destruct (truthy_ostr scope) eqn:Esc.
      * eexists. split; [reflexivity |]. split; [reflexivity |].
        right. left. cbn. auto.
      * eexists. split; [reflexivity |]. split; [reflexivity |].
        right. right. cbn. auto.
    + cbn [is_empty andb]. unfold bind, ret. eexists.
      split; [reflexivity |]. split; [reflexivity |]. left.
      cbn [method dimension confidence].
      pose proof (max_by_score_In others first) as Hbest.
      destruct (max_by_score first others) as [best s] eqn:Eb.
      cbn [fst].
      destruct (In_dict_get_key _ _ _ Hbest) as (s' & Eg & Hin).
      rewrite Eg. destruct (Hs _ _ Hin) as [Hpos Hname].
      split; [reflexivity |]. split; [exact Hname |]. split.
      * apply Q.min_glb_lt; [reflexivity |].
        apply Qlt_shift_div_l; [reflexivity |].
        rewrite Qmult_0_l. exact Hpos.
      * apply Qle_trans with 1.0; [apply Q.le_min_l | discriminate].
Qed.

(** *** All keywords *)

Lemma to_set_NoDup (xs : list string) : List.NoDup (to_set xs).
Proof.
  induction xs as [| x rest IH]; cbn [to_set]; constructor.
  - intros H. apply List.filter_In in H. destruct H as [_ H].
    rewrite String.eqb_refl in H. discriminate H.
  - apply List.NoDup_filter. exact IH.
Qed.

Lemma filter_all {A} (f : A -> bool) (l : list A) :
  (forall y, In y l -> f y = true) -> List.filter f l = l.
Proof.
  induction l as [| y rest IH]; intros H; cbn [List.filter];
    [reflexivity |].
  rewrite (H y) by (left; reflexivity).
  rewrite IH by (intros z Hz; apply H; right; exact Hz). reflexivity.
Qed.

Lemma to_set_app (l m : list string) :
  List.NoDup l ->
  exists m',
    to_set (l ++ m) = l ++ m'
    /\ List.NoDup (l ++ m')
    /\ forall k, In k m' -> In k m.
Proof.
  induction l as [| x l IH]; intros Hn.
  - exists (to_set m). cbn [app]. split; [reflexivity |].
    split; [apply to_set_NoDup | intros k; apply to_set_In].
  - apply List.NoDup_cons_iff in Hn. destruct Hn as [Hx Hn].
    destruct (IH Hn) as (m2 & E & Hn2 & Hin).
    exists (List.filter (fun y => negb (String.eqb x y)) m2).
    assert (Hl : List.filter (fun y => negb (String.eqb x y)) l = l).
    { apply filter_all. intros y Hy. apply negb_true_iff.
      apply String.eqb_neq. intros ->. exact (Hx Hy). }
    cbn [app to_set]. rewrite E, List.filter_app, Hl.
    split; [reflexivity |]. split.
    + constructor.
      * intros H. apply in_app_or in H. destruct H as [H | H];
          [exact (Hx H) |].
        apply List.filter_In in H. destruct H as [_ H].
        rewrite String.eqb_refl in H. discriminate H.
      * rewrite <- Hl at 1. rewrite <- List.filter_app.
        apply List.NoDup_filter. exact Hn2.
    + intros k H. apply List.filter_In in H. apply Hin. exact (proj1 H).
Qed.

Lemma dict_set_keys_present {V} (d : list (string * V)) (k : string)
    (v0 v : V) :
  dict_get d k = Some v0 -> map fst (dict_set d k v) = map fst d.
Proof.
  intros E. rewrite dict_set_keys.
  rewrite (dict_get_contains _ _ _ E). reflexivity.
Qed.

Lemma same_keys_get {V W} (a : list (string * V)) :
  forall (b : list (string * W)) (k : string),
    map fst a = map fst b ->
    dict_get a k = None -> dict_get b k = None.
Proof.
  induction a as [| [ka va] a IH]; intros [| [kb vb] b] k E;
    cbn [map fst] in E; try discriminate E; cbn [dict_get];
    [reflexivity |].
  injection E as -> E.
  destruct (String.eqb kb k); [discriminate | apply IH; exact E].
Qed.

Lemma fold_left_invariant {A B} (P : A -> Prop) (f : A -> B -> A)
    (l : list B) :
  (forall x, In x l -> forall a, P a -> P (f a x)) ->
  forall a, P a -> P (fold_left f l a).
Proof.
  induction l as [| x rest IH]; intros Hf a Ha; cbn [fold_left];
    [exact Ha |].
  apply IH.
  - intros y Hy. apply Hf. right. exact Hy.
  - apply Hf; [left; reflexivity | exact Ha].
Qed.

Lemma base_keywords_distinct (d : string) (base : list string) :
  dict_get BASE_DESIGN_DIMENSIONS d = Some base -> List.NoDup base.
Proof.
  intros E. apply dict_get_In in E.
  assert (H : List.Forall (fun item => to_set (snd item) = snd item)
                BASE_DESIGN_DIMENSIONS)
    by (repeat constructor).
  rewrite List.Forall_forall in H. specialize (H _ E). cbn [snd] in H.
  rewrite <- H. apply to_set_NoDup.
Qed.

Lemma base_extends_base (on_platform : option string)
    (self : PlatformKeywordClassifier) :
  extends_base on_platform self BASE_DESIGN_DIMENSIONS.
Proof.
  split; [reflexivity |]. intros d base E. exists [].
  rewrite app_nil_r. split; [exact E |].
  split; [exact (base_keywords_distinct d base E) | intros k []].
Qed.

Lemma add_learned_extends (on_platform : option string)
    (self : PlatformKeywordClassifier) (plat : string)
    (by_dim : list (string * list (string * Q)))
    (item : string * list (string * Q))
    (dims : list (string * list string)) :
  (truthy_ostr on_platform = true -> plat = ostr_value on_platform) ->
  In (plat, by_dim) (platform_keywords self) ->
  In item by_dim ->
  extends_base on_platform self dims ->
  extends_base on_platform self (add_learned dims item).
Proof.
  intros Hplat Hp Hitem [Hk Hd]. destruct item as [d0 keywords].
  unfold add_learned. cbn [fst snd].
  destruct (dict_get dims d0) as [current |] eqn:E0; [| split; assumption].
  split.
  - rewrite (dict_set_keys_present _ _ _ _ E0). exact Hk.
  - intros d base Eb. destruct (Hd d base Eb) as (extra & Eg & Hn & Hw).
    rewrite dict_get_after_set.
    destruct (String.eqb d0 d) eqn:Ed; [| exists extra; auto].
    apply String.eqb_eq in Ed. subst d0.
    rewrite Eg in E0. injection E0 as <-.
    destruct (to_set_app (base ++ extra)
                (map fst
                   (List.filter (fun kv => Qltb 0.5 (snd kv)) keywords))
                Hn)
      as (m' & E & Hn' & Hin).
    exists (extra ++ m'). rewrite E, <- List.app_assoc in *.
    split; [reflexivity |]. split; [exact Hn' |].
    intros k Hkin. apply in_app_or in Hkin.
    destruct Hkin as [Hkin | Hkin]; [exact (Hw k Hkin) |].
    apply Hin in Hkin. apply in_map_iff in Hkin.
    destruct Hkin as ([k' r] & Ek & Hf). cbn [fst] in Ek. subst k'.
    apply List.filter_In in Hf. destruct Hf as [Hf Hr]. cbn [snd] in Hr.
    exists plat, by_dim, keywords, r.
    repeat split; try assumption. exact (Qltb_lt _ _ Hr).
Qed.

(** X27. [get_all_keywords] returns the eight base dimensions in their
    order; the list of each starts with its base keywords, has no
    duplicates, and every keyword after them is one that a checked
    platform (the given one, or any when none is given) files under that
    dimension with a reward above 0.5. *)
Theorem get_all_keywords_extends_base (on_platform : option string)
    (self : PlatformKeywordClassifier) :
  map fst (get_all_keywords on_platform self)
  = map fst BASE_DESIGN_DIMENSIONS
  /\ forall d base,
       dict_get BASE_DESIGN_DIMENSIONS d = Some base ->
       exists extra,
         dict_get (get_all_keywords on_platform self) d
         = Some (base ++ extra)
         /\ List.NoDup (base ++ extra)
         /\ forall k,
              In k extra -> well_rewarded on_platform self d k.
Proof.
  change (extends_base on_platform self
            (get_all_keywords on_platform self)).
  unfold get_all_keywords.
  apply (fold_left_invariant (extends_base on_platform self));
    [| apply base_extends_base].
  intros plat Hplat dims Hdims.
  destruct (dict_get (platform_keywords self) plat) as [by_dim |] eqn:Ep;
    [| exact Hdims].
  apply (fold_left_invariant (extends_base on_platform self));
    [| exact Hdims].
  intros item Hitem dims' Hdims'.
  apply (add_learned_extends on_platform self plat by_dim);
    try assumption; [| exact (dict_get_In _ _ _ Ep)].
  intros Ht. rewrite Ht in Hplat. destruct Hplat as [<- | []].
  reflexivity.
Qed.

Lemma get_all_keywords_extends_base_witness :
  exists extra,
    dict_get (get_all_keywords (Some "figma"%string) sample_rewarded)
      "spacing"
    = Some (["spacing"; "margin"; "padding"; "gap"; "rhythm"; "whitespace";
             "distance"]%string ++ extra)
    /\ List.NoDup
         (["spacing"; "margin"; "padding"; "gap"; "rhythm"; "whitespace";
           "distance"]%string ++ extra)
    /\ forall k,
         In k extra ->
         well_rewarded (Some "figma"%string) sample_rewarded "spacing" k.
Proof.
  apply (proj2 (get_all_keywords_extends_base (Some "figma"%string)
                  sample_rewarded)).
  reflexivity.
Defined.

(** *** Learning alone does not change a classification *)

Lemma score_learned_shift (description_lower : string)
    (table : list (string * Q)) :
  forall (acc acc' : Q * list matched_kw) (c : Q),
    fst acc == fst acc' + c ->
    fst (score_learned description_lower table acc)
    == fst (score_learned description_lower table acc') + c.
Proof.
  unfold score_learned.
  induction table as [| item rest IH]; intros acc acc' c H;
    cbn [fold_left]; [exact H |].
  apply IH. destruct (contains (fst item) description_lower);
    cbn [fst]; [| exact H].
  rewrite H. ring.
Qed.

Lemma score_learned_new_keyword (description_lower : string) (w : string)
    (table : list (string * Q)) :
  dict_contains table w = false ->
  forall acc : Q * list matched_kw,
    fst (score_learned description_lower (dict_set table w 0.0) acc)
    == fst (score_learned description_lower table acc).
Proof.
  induction table as [| [k v] rest IH]; cbn [dict_contains dict_set];
    intros Hc acc.
  - unfold score_learned. cbn [fold_left fst snd].
    destruct (contains w description_lower); cbn [fst]; [ring | reflexivity].
  - destruct (String.eqb k w); [discriminate Hc |].
    unfold score_learned in *. cbn [fold_left]. apply IH. exact Hc.
Qed.

Lemma stored_table_new_platform
    (pk : list (string * list (string * list (string * Q))))
    (p p2 d2 : string) :
  stored_table
    (if negb (dict_contains pk p) then dict_set pk p [] else pk) p2 d2
  = stored_table pk p2 d2.
Proof.
  unfold stored_table. rewrite dict_contains_as_get.
  destruct (dict_get pk p) eqn:Ep; cbn [negb]; [reflexivity |].
  rewrite dict_get_after_set.
  destruct (String.eqb p p2) eqn:E1; [| reflexivity].
  apply String.eqb_eq in E1. subst p2. rewrite Ep. reflexivity.
Qed.

Lemma stored_table_learn_word (p d : string)
    (pk : list (string * list (string * list (string * Q))))
    (w p2 d2 : string) :
  stored_table (learn_word p d pk w) p2 d2
  = if String.eqb p p2 && String.eqb d d2
    then Some (let table :=
                 match stored_table pk p d with
                 | Some table => table
                 | None => []
                 end in
               if dict_contains table w then table
               else dict_set table w 0.0)
    else stored_table pk p2 d2.
Proof.
  unfold learn_word, dd_getitem, stored_table. cbn zeta.
  destruct (dict_get pk p) as [by_dim |] eqn:Ep;
    [destruct (dict_get by_dim d) as [table |] eqn:Ed |];
    cbn [dict_get];
    destruct (dict_contains _ w) eqn:Ew;
    cbn [negb dict_get dict_contains dict_set];
    rewrite ?dict_get_after_set;
    (destruct (String.eqb p p2) eqn:E1;
     [apply String.eqb_eq in E1; subst p2 |]);
    cbn [andb]; rewrite ?Ep; rewrite ?dict_get_after_set;
    try reflexivity;
    (destruct (String.eqb d d2) eqn:E2;
     [apply String.eqb_eq in E2; subst d2 |]);
    cbn [andb dict_get]; rewrite ?Ed; rewrite ?dict_get_after_set;
    try discriminate Ew;
    lookup_done.
Qed.

Lemma learned_gain_learn_word (description_lower : string) (p d : string)
    (pk : list (string * list (string * list (string * Q))))
    (w : string) (on_platform : option string) (d2 : string) :
  learned_gain description_lower (learn_word p d pk w) on_platform d2
  == learned_gain description_lower pk on_platform d2.
Proof.
  unfold learned_gain.
  destruct (truthy_ostr on_platform); [| reflexivity].
  rewrite stored_table_learn_word.
  destruct (String.eqb p (ostr_value on_platform)) eqn:E1; cbn [andb];
    [| reflexivity].
  destruct (String.eqb d d2) eqn:E2; cbn [andb]; [| reflexivity].
  apply String.eqb_eq in E1. apply String.eqb_eq in E2. subst d2.
  rewrite <- E1. cbn zeta.
  destruct (stored_table pk p d) as [table |].
  - destruct (dict_contains table w) eqn:Ew; [reflexivity |].
    apply score_learned_new_keyword. exact Ew.
  - cbn [dict_contains].
    apply (score_learned_new_keyword description_lower w []).
    reflexivity.
Qed.

Lemma learned_gain_learn_words (description_lower : string) (p d : string)
    (ws : list string) (on_platform : option string) (d2 : string) :
  forall pk : list (string * list (string * list (string * Q))),
    learned_gain description_lower (fold_left (learn_word p d) ws pk)
      on_platform d2
    == learned_gain description_lower pk on_platform d2.
Proof.
  induction ws as [| w ws IH]; intros pk; cbn [fold_left];
    [reflexivity |].
  rewrite IH. apply learned_gain_learn_word.
Qed.

Lemma learned_gain_learn_from_rule (description_lower : string)
    (rule : rule_dict) (self : PlatformKeywordClassifier)
    (on_platform : option string) (d2 : string) :
  learned_gain description_lower
    (platform_keywords (snd (learn_from_rule rule self))) on_platform d2
  == learned_gain description_lower (platform_keywords self) on_platform d2.
Proof.
  unfold learn_from_rule.
  destruct (learn_platform rule) as [p | e]; [| reflexivity].
  destruct (negb (truthy_ostr (get_design_dimension rule))
            || negb (truthy_str (ostr_value (get_description rule))));
    [reflexivity |].
  cbn [snd platform_keywords]. rewrite learned_gain_learn_words.
  unfold learned_gain. rewrite stored_table_new_platform. reflexivity.
Qed.

Lemma learned_gain_learn_from_rules (description_lower : string)
    (rules : list rule_dict) (mc : Q) (on_platform : option string)
    (d2 : string) :
  forall self : PlatformKeywordClassifier,
    learned_gain description_lower
      (platform_keywords (snd (learn_from_rules rules mc self)))
      on_platform d2
    == learned_gain description_lower (platform_keywords self)
         on_platform d2.
Proof.
  induction rules as [| rule rest IH]; intros self; [reflexivity |].
  rewrite learn_from_rules_cons.
  destruct (readable rule); cbn [snd].
  - rewrite IH. apply learned_gain_learn_from_rule.
  - apply learned_gain_learn_from_rule.
Qed.

Lemma getitem2_value (p d : string) (self : PlatformKeywordClassifier)
    (by_dim : list (string * list (string * Q)))
    (table : list (string * Q)) :
  dict_get (platform_keywords self) p = Some by_dim ->
  dict_get by_dim d = Some table ->
  platform_keywords_getitem2 p d self = (Ok table, self).
Proof.
  intros Eb Et. unfold platform_keywords_getitem2.
  rewrite (dd_getitem_present _ _ _ _ Eb).
  rewrite (dd_getitem_present _ _ _ _ Et).
  rewrite (dict_set_same _ _ _ Eb).
  rewrite ClassifierProofs.classifier_eta. reflexivity.
Qed.

Lemma score_dimension_value (description_lower : string)
    (on_platform : option string) (dim : string)
    (base_keywords : list string) (self : PlatformKeywordClassifier) :
  exists sm,
    score_dimension description_lower on_platform dim base_keywords self
    = (Ok sm, self)
    /\ fst sm
       == fst (score_base description_lower base_keywords)
          + learned_gain description_lower (platform_keywords self)
              on_platform dim.
Proof.
  unfold score_dimension, learned_gain, stored_table.
  destruct (truthy_ostr on_platform).
  2: { eexists. split; [reflexivity |]. ring. }
  unfold bind at 1. unfold platform_keywords_contains at 1.
  destruct (dict_contains (platform_keywords self) (ostr_value on_platform))
    eqn:Hp.
  2: { rewrite (dict_not_contains_get _ _ Hp).
       eexists. split; [reflexivity |]. ring. }
  destruct (ClassifierProofs.getitem_present _ _ Hp) as (by_dim & Eb & Eg).
  unfold bind at 1. rewrite Eg, Eb.
  destruct (dict_contains by_dim dim) eqn:Hd.
  2: { rewrite (dict_not_contains_get _ _ Hd).
       eexists. split; [reflexivity |]. ring. }
  destruct (dict_contains_get _ _ Hd) as (table & Et).
  unfold bind. rewrite (getitem2_value _ _ _ _ _ Eb Et), Et.
  eexists. split; [reflexivity |].
  rewrite (score_learned_shift description_lower table _ (0, [])
             (fst (score_base description_lower base_keywords))).
  - ring.
  - cbn [fst]. ring.
Qed.

Lemma Qltb_compat (a a' b b' : Q) :
  a == a' -> b == b' -> Qltb a b = Qltb a' b'.
Proof.
  intros Ha Hb. unfold Qltb. rewrite (Qleb_comp _ _ Hb _ _ Ha).
  reflexivity.
Qed.

Lemma same_scores_set (a b : list (string * Q)) (k : string) (v v' : Q) :
  same_scores a b -> v == v' ->
  same_scores (dict_set a k v) (dict_set b k v').
Proof.
  unfold same_scores. intros H Hv.
  induction H as [| [k1 v1] [k2 v2] a b [Hk Hs] H IH]; cbn [dict_set].
  - constructor; [split; [reflexivity | exact Hv] | constructor].
  - cbn [fst snd] in Hk, Hs. subst k2.
    destruct (String.eqb k1 k).
    + constructor; [split; [reflexivity | exact Hv] | exact H].
    + constructor; [split; [reflexivity | exact Hs] | exact IH].
Qed.

Lemma same_scores_get (a b : list (string * Q)) (k : string) :
  same_scores a b ->
  match dict_get a k, dict_get b k with
  | Some v, Some v' => v == v'
  | None, None => True
  | _, _ => False
  end.
Proof.
  unfold same_scores. intros H.
  induction H as [| [k1 v1] [k2 v2] a b [Hk Hs] H IH]; cbn [dict_get];
    [exact I |].
  cbn [fst snd] in Hk, Hs. subst k2.
  destruct (String.eqb k1 k); [exact Hs | exact IH].
Qed.

Lemma same_scores_max (a b : list (string * Q)) :
  same_scores a b ->
  forall x y : string * Q,
    fst x = fst y -> snd x == snd y ->
    fst (max_by_score x a) = fst (max_by_score y b).
Proof.
  unfold same_scores. intros H.
  induction H as [| i j a b [Hk Hs] H IH]; intros x y Hx Hv;
    cbn [max_by_score]; [exact Hx |].
  rewrite (Qltb_compat _ _ _ _ Hv Hs).
  destruct (Qltb (snd y) (snd j)); apply IH; assumption.
Qed.

Lemma score_dimensions_same (description_lower : string)
    (on_platform : option string) (self self' : PlatformKeywordClassifier)
    (dims : list (string * list string)) :
  (forall d,
      learned_gain description_lower (platform_keywords self') on_platform d
      == learned_gain description_lower (platform_keywords self)
           on_platform d) ->
  forall ds ds' mk mk',
    same_scores ds ds' ->
    exists scored scored',
      score_dimensions description_lower on_platform dims ds mk self
      = (Ok scored, self)
      /\ score_dimensions description_lower on_platform dims ds' mk' self'
         = (Ok scored', self')
      /\ same_scores (fst scored) (fst scored').
Proof.
  intros Hg.
  induction dims as [| [dim base_keywords] rest IH];
    intros ds ds' mk mk' Hs; cbn [score_dimensions].
  - eexists. eexists. split; [reflexivity |]. split; [reflexivity |].
    exact Hs.
  - unfold bind at 1 2.
    destruct (score_dimension_value description_lower on_platform dim
                base_keywords self) as (sm & Em & Hm).
    destruct (score_dimension_value description_lower on_platform dim
                base_keywords self') as (sm' & Em' & Hm').
    rewrite Em, Em'.
    assert (Hsm : fst sm == fst sm')
      by (rewrite Hm, Hm', Hg; reflexivity).
    rewrite (Qltb_compat 0 0 (fst sm) (fst sm') (Qeq_refl 0) Hsm).
    destruct (Qltb 0 (fst sm')).
    + apply IH. apply same_scores_set; assumption.
    + apply IH. exact Hs.
Qed.

Lemma classification_after_learning (rules : list rule_dict)
    (min_confidence : Q) (self : PlatformKeywordClassifier)
    (description : string)
    (scope explicit_dimension on_platform : option string) :
  let self' := snd (learn_from_rules rules min_confidence self) in
  exists result result',
    classify_dimension description scope explicit_dimension on_platform self
    = (Ok result, self)
    /\ classify_dimension description scope explicit_dimension on_platform
         self'
       = (Ok result', self')
    /\ dimension result' = dimension result
    /\ method result' = method result
    /\ confidence result' == confidence result.
Proof.
  cbn zeta. unfold classify_dimension, classify_dimension_with.
  destruct (truthy_ostr explicit_dimension).
  { eexists. eexists. split; [reflexivity |]. split; [reflexivity |].
    cbn. repeat split; reflexivity. }
  unfold bind at 1 3.
  destruct (score_dimensions_same (lower description) on_platform self
              (snd (learn_from_rules rules min_confidence self))
              BASE_DESIGN_DIMENSIONS
              (fun d => learned_gain_learn_from_rules _ rules
                          min_confidence on_platform d self)
              [] [] [] [])
    as (scored & scored' & Es & Es' & Hs); [constructor |].
  rewrite Es, Es'.
  destruct Hs as [| first first' others others' [Hk Hv] Hrest].
  - cbn [is_empty andb]. destruct (truthy_ostr scope);
      (eexists; eexists; split; [reflexivity |]; split; [reflexivity |];
       cbn; repeat split; reflexivity).
  - cbn [is_empty andb]. unfold bind, ret.
    eexists. eexists. split; [reflexivity |]. split; [reflexivity |].
    cbn [dimension method confidence].
    pose proof (same_scores_max _ _ Hrest first first' Hk Hv) as Eb.
    split; [symmetry; exact Eb |]. split; [reflexivity |].
    rewrite <- Eb.
    assert (Hall : same_scores (first :: others) (first' :: others'))
      by (constructor; [split; assumption | exact Hrest]).
    pose proof (same_scores_get _ _ (fst (max_by_score first others)) Hall)
      as Hg.
    destruct (dict_get (first :: others) _) as [v |],
             (dict_get (first' :: others') _) as [v' |];
      try contradiction; [| reflexivity].
    apply Q.min_compat; [reflexivity |].
    rewrite Hg. reflexivity.
Qed.

(** X25. Learning alone never changes what the classifier answers: after
    [learn_from_rules] on any rules, from any state, [classify_dimension]
    gives for every input the same dimension, the same method and an
    equal confidence as before. The keywords it stores have reward 0 and
    add nothing to a score until [update_rewards] rewards them. *)
Theorem learning_alone_keeps_classification (rules : list rule_dict)
    (min_confidence : Q) (self : PlatformKeywordClassifier)
    (description : string)
    (scope explicit_dimension on_platform : option string) :
  let self' := snd (learn_from_rules rules min_confidence self) in
  exists result result',
    classify_dimension description scope explicit_dimension on_platform self
    = (Ok result, self)
    /\ classify_dimension description scope explicit_dimension on_platform
         self'
       = (Ok result', self')
    /\ dimension result' = dimension result
    /\ method result' = method result
    /\ confidence result' == confidence result.
Proof.
  exact (classification_after_learning rules min_confidence self
           description scope explicit_dimension on_platform).
Qed.

End ClassifierExtras.

(** * Learning keywords and generating preferences *)

Module LearningExtras.
Import Py Classifier Generator.

Section SameAnswers.

Variables st st' : PlatformKeywordClassifier.

Hypothesis same_dimension :
  forall description scope explicit_dimension on_platform,
  exists result result',
    classify_dimension description scope explicit_dimension on_platform st
    = (Ok result, st)
    /\ classify_dimension description scope explicit_dimension on_platform
         st'
       = (Ok result', st')
    /\ dimension result' = dimension result.

Lemma classify_design_dimension_same (rule : IntentRule) :
  exists x,
    _classify_design_dimension rule st = (x, st)
    /\ _classify_design_dimension rule st' = (x, st').
Proof.
  unfold _classify_design_dimension, bind, lift, ret.
  destruct (_classify_platform rule) as [p | e];
    [| eexists; split; reflexivity].
  destruct (same_dimension (Generator.description rule)
              (Some (Generator.scope rule)) (design_dimension rule)
              (if negb (String.eqb p "unknown") then Some p else None))
    as (r & r' & E & E' & Ed).
  rewrite E, E', Ed. eexists. split; reflexivity.
Qed.

Lemma classify_rules_loop_same (self : SyntheticPreferenceGenerator)
    (rules : list IntentRule) :
  forall groups,
  exists x,
    classify_rules_loop self rules groups st = (x, st)
    /\ classify_rules_loop self rules groups st' = (x, st').
Proof.
  induction rules as [| rule rest IH]; intros groups;
    cbn [classify_rules_loop].
  - eexists. split; reflexivity.
  - unfold bind at 1 3.
    destruct (classify_design_dimension_same rule) as ([d | e] & E & E').
    + rewrite E, E'. unfold bind, lift.
      destruct (_classify_platform rule) as [p | e];
        [apply IH | eexists; split; reflexivity].
    + rewrite E, E'. eexists. split; reflexivity.
Qed.

Lemma generate_preferences_same (self : SyntheticPreferenceGenerator)
    (rules : list IntentRule) (trace_context : option pydict)
    (strategies : option (list string)) :
  fst (generate_preferences self rules trace_context strategies st')
  = fst (generate_preferences self rules trace_context strategies st).
Proof.
  unfold generate_preferences, _classify_rules.
  destruct (classify_rules_loop_same self rules []) as (x & E & E').
  unfold bind at 1 3. rewrite E, E'.
  destruct x as [classified | e]; [| reflexivity].
  unfold bind, lift, ret.
  destruct (collect_pairs self trace_context _ classified []);
    reflexivity.
Qed.

End SameAnswers.

(** X26. Learning keywords does not change the preferences that are
    generated: after [learn_keywords_from_rules] on any rules, whether it
    returned or raised, [generate_preferences] gives for every list of
    rules the result it gave before, the same pairs or the same
    exception. *)
Theorem learning_keeps_generated_preferences
    (self : SyntheticPreferenceGenerator)
    (learned_rules : list IntentRule) (min_confidence : Q)
    (st : PlatformKeywordClassifier)
    (rules : list IntentRule) (trace_context : option pydict)
    (strategies : option (list string)) :
  fst (generate_preferences self rules trace_context strategies
         (snd (learn_keywords_from_rules self learned_rules min_confidence
                 st)))
  = fst (generate_preferences self rules trace_context strategies st).
Proof.
  apply generate_preferences_same.
  intros description scope explicit_dimension on_platform.
  unfold learn_keywords_from_rules.
  destruct (ClassifierExtras.classification_after_learning
              (map rule_dict_of
                 (List.filter
                    (fun rule =>
                       truthy_ostr (design_dimension rule)
                       && truthy_odict (platform_context rule))
                    learned_rules))
              min_confidence st description scope explicit_dimension
              on_platform)
    as (r & r' & E & E' & Ed & _).
  exists r, r'. auto.
Qed.

End LearningExtras.

(** * Group statistics *)

Module StatisticsExtras.
Import Py Generator Statistics.
Local Open Scope Z_scope.

Lemma fold_left_add_shift (xs : list Z) :
  forall a, fold_left Z.add xs a = a + sum_ints xs.
Proof.
  unfold sum_ints.
  induction xs as [| x xs IH]; intros a; cbn [fold_left]; [lia |].
  rewrite IH, (IH (0 + x)). lia.
Qed.

Lemma sum_ints_cons (x : Z) (xs : list Z) :
  sum_ints (x :: xs) = x + sum_ints xs.
Proof.
  unfold sum_ints at 1. cbn [fold_left].
  rewrite fold_left_add_shift. lia.
Qed.

Lemma sum_after_set {V} (f : string * V -> Z) (d : list (string * V))
    (k : string) (v : V) :
  sum_ints (map f (dict_set d k v))
  = sum_ints (map f d)
    - match dict_get d k with Some v0 => f (k, v0) | None => 0 end
    + f (k, v).
Proof.
  induction d as [| [k' v'] rest IH]; cbn [dict_set dict_get map].
  - rewrite sum_ints_cons. unfold sum_ints. cbn. lia.
  - destruct (String.eqb k' k) eqn:E; cbn [map]; rewrite !sum_ints_cons.
    + apply String.eqb_eq in E. subst k'. lia.
    + rewrite IH. lia.
Qed.

Lemma count_source_as_set (srcs : list (string * Z)) (s : string) :
  count_source srcs s
  = dict_set srcs s
      (match dict_get srcs s with Some n => n | None => 0 end + 1).
Proof.
  unfold count_source, dd_getitem.
  destruct (dict_get srcs s); [reflexivity |].
  apply GeneratorExtras.dict_set_set.
Qed.

Lemma count_pair_as_set (stats : list (string * group_statistics))
    (pair : PreferencePair) :
  count_pair stats pair
  = let entry :=
      match dict_get stats (statistics_key pair) with
      | Some entry => entry
      | None => fresh_statistics
      end in
    dict_set stats (statistics_key pair)
      {| count := count entry + 1;
         sources := count_source (sources entry) (source pair);
         dimensions := set_add_if (dimensions entry) (dimension_group pair);
         platforms := set_add_if (platforms entry) (platform_group pair);
         artifacts := set_add_if (artifacts entry) (artifact_group pair) |}.
Proof.
  unfold count_pair, dd_getitem. cbn zeta.
  destruct (dict_get stats (statistics_key pair)); [reflexivity |].
  apply GeneratorExtras.dict_set_set.
Qed.

Lemma count_source_sum (srcs : list (string * Z)) (s : string) :
  sum_ints (map snd (count_source srcs s)) = sum_ints (map snd srcs) + 1.
Proof.
  rewrite count_source_as_set, sum_after_set. cbn [snd].
  destruct (dict_get srcs s); lia.
Qed.

Lemma count_source_positive (srcs : list (string * Z)) (s : string) :
  (forall s' n, In (s', n) srcs -> 1 <= n) ->
  forall s' n, In (s', n) (count_source srcs s) -> 1 <= n.
Proof.
  intros H s' n Hin. rewrite count_source_as_set in Hin.
  apply ClassifierExtras.dict_set_In_inv in Hin.
  destruct Hin as [[_ ->] | Hin]; [| exact (H _ _ Hin)].
  destruct (dict_get srcs s) as [n0 |] eqn:E; [| lia].
  apply ClassifierExtras.dict_get_In in E. specialize (H _ _ E). lia.
Qed.

Lemma count_source_keeps (srcs : list (string * Z)) (s s' : string) :
  (exists n, dict_get srcs s' = Some n) \/ s' = s ->
  exists n, dict_get (count_source srcs s) s' = Some n.
Proof.
  intros H. rewrite count_source_as_set.
  rewrite ClassifierExtras.dict_get_after_set.
  destruct (String.eqb s s') eqn:E; [eauto |].
  destruct H as [H | ->]; [exact H |].
  rewrite String.eqb_refl in E. discriminate E.
Qed.

(** X28. The statistics of [get_group_statistics] add up: the counts of
    all groups together are the number of pairs, the group keys are
    distinct, every group has a count of at least one that equals the sum
    of its per-source counts, each of which is at least one, and every
    pair is counted in the group of its key under its own source. *)
Theorem group_statistics_add_up (pairs : list PreferencePair) :
  let result := get_group_statistics pairs in
  sum_ints (map (fun kv => count (snd kv)) result)
  = Z.of_nat (length pairs)
  /\ NoDup (map fst result)
  /\ (forall key g,
        In (key, g) result ->
        1 <= count g
        /\ sum_ints (map snd (sources g)) = count g
        /\ forall s n, In (s, n) (sources g) -> 1 <= n)
  /\ (forall pair,
        In pair pairs ->
        exists g n,
          dict_get result (statistics_key pair) = Some g
          /\ dict_get (sources g) (source pair) = Some n).
Proof.
  cbn zeta. unfold get_group_statistics.
  induction pairs as [| p l IH] using rev_ind.
  - cbn. repeat split; [constructor | | | |]; intros; contradiction.
  - destruct IH as (Hsum & Hkeys & Hgroups & Hcov).
    rewrite fold_left_app. cbn [fold_left].
    set (stats := fold_left count_pair l []) in *.
    rewrite count_pair_as_set. cbn zeta.
    assert (Hentry :
              forall entry,
                match dict_get stats (statistics_key p) with
                | Some e => e
                | None => fresh_statistics
                end = entry ->
                0 <= count entry
                /\ sum_ints (map snd (sources entry)) = count entry
                /\ forall s n, In (s, n) (sources entry) -> 1 <= n).
    { intros entry <-.
      destruct (dict_get stats (statistics_key p)) as [e |] eqn:E.
      - apply ClassifierExtras.dict_get_In in E.
        destruct (Hgroups _ _ E) as (H1 & H2 & H3).
        repeat split; [lia | exact H2 | exact H3].
      - cbn. repeat split; [lia | intros; contradiction]. }
    destruct (Hentry _ eq_refl) as (He0 & Hes & Hep).
    repeat split.
    + rewrite sum_after_set. cbn [snd count].
      rewrite List.length_app, Nat2Z.inj_add. cbn [length].
      destruct (dict_get stats (statistics_key p));
        unfold fresh_statistics; cbn [count]; lia.
    + apply ClassifierExtras.NoDup_dict_set. exact Hkeys.
    + apply ClassifierExtras.dict_set_In_inv in H.
      destruct H as [[_ ->] | H]; [cbn [count]; lia |].
      exact (proj1 (Hgroups _ _ H)).
    + apply ClassifierExtras.dict_set_In_inv in H.
      destruct H as [[_ ->] | H];
        [| exact (proj1 (proj2 (Hgroups _ _ H)))].
      cbn [count sources]. rewrite count_source_sum. lia.
    + intros s n Hin. apply ClassifierExtras.dict_set_In_inv in H.
      destruct H as [[_ ->] | H];
        [| exact (proj2 (proj2 (Hgroups _ _ H)) _ _ Hin)].
      cbn [sources] in Hin.
      exact (count_source_positive _ _ Hep _ _ Hin).
    + intros pair Hin. rewrite ClassifierExtras.dict_get_after_set.
      apply in_app_or in Hin.
      destruct (String.eqb (statistics_key p) (statistics_key pair))
        eqn:Ek.
      * apply String.eqb_eq in Ek. eexists.
        cbn [sources].
        destruct (count_source_keeps
                    (sources
                       match dict_get stats (statistics_key p) with
                       | Some e => e
                       | None => fresh_statistics
                       end)
                    (source p) (source pair)) as (n & Hn).
        { destruct Hin as [Hin | [<- | []]]; [| right; reflexivity].
          left. destruct (Hcov _ Hin) as (g & n & Eg & En).
          rewrite Ek, Eg. eauto. }
        exists n. split; [reflexivity | exact Hn].
      * destruct Hin as [Hin | [<- | []]]; [exact (Hcov _ Hin) |].
        rewrite String.eqb_refl in Ek. discriminate Ek.
Qed.

Lemma group_statistics_add_up_witness :
  exists g n,
    dict_get (get_group_statistics [grouped_pair; ungrouped_pair])
      (statistics_key ungrouped_pair)
    = Some g
    /\ dict_get (sources g) (source ungrouped_pair) = Some n.
Proof.
  apply (proj2 (proj2 (proj2 (group_statistics_add_up
                                [grouped_pair; ungrouped_pair])))).
  right. left. reflexivity.
Defined.

End StatisticsExtras.
